(** * Weather Underground PWS coordinators

    A shallow embedding of the data coordinators of the
    [wundergroundpws] integration: the base coordinator
    ([base_coordinator.py]), the single-station coordinator
    ([coordinator.py]) and the multi-station coordinator with fallback
    ([multi_station_coordinator.py]).

    Python values that the coordinators handle are JSON documents; they
    are embedded as the inductive type [json].  Python exceptions are
    embedded as an error monad [exc]; methods that mutate [self] are
    embedded as state transformers over a record of the attributes of
    [self].  The HTTP session and the event-loop clock are oracles. *)

From Stdlib Require Import ZArith QArith.
From stdpp Require Import gmap strings list sorting pretty.

Open Scope string_scope.
Open Scope list_scope.

Set Warnings "-register-all".

(** ** Python values *)

(** A parsed JSON value, which is also the shape of every Python value
    the coordinators store: [JNull] is [None], [JStr] is [str], [JNum]
    is a finite [int] or [float] (its exact value), [JArr] is [list] and
    [JObj] is [dict] with string keys, in insertion order. *)
Inductive json : Type :=
| JNull
| JBool (b : bool)
| JNum (q : Q)
| JStr (s : string)
| JArr (items : list json)
| JObj (members : list (string * json)).

(** The exceptions that the modelled code can meet.  [JSONDecodeError]
    is a subclass of [ValueError] in Python; every other constructor is a
    direct subclass of [Exception]. *)
Inductive exn : Type :=
| ValueError (msg : string)
| JSONDecodeError
| KeyError
| IndexError
| TypeError
| AttributeError
| OverflowError
| ClientError
| TimeoutError.

(** The result of evaluating a Python expression: a value or a raised
    exception. *)
Inductive exc (A : Type) : Type :=
| Ok (a : A)
| Raise (e : exn).
Arguments Ok {A} a.
Arguments Raise {A} e.

#[global] Instance exc_ret : MRet exc := @Ok.

#[global] Instance exc_bind : MBind exc :=
  λ A B f m, match m with Ok a => f a | Raise e => Raise e end.

(** [try: m except <classes>: h] where [catches] decides the classes. *)
Definition try_except {A} (m : exc A) (catches : exn → bool) (h : exn → exc A) : exc A :=
  match m with
  | Ok a => Ok a
  | Raise e => if catches e then h e else Raise e
  end.

(** [isinstance(e, ValueError)] *)
Definition is_ValueError (e : exn) : bool :=
  match e with ValueError _ | JSONDecodeError => true | _ => false end.

(** [isinstance(e, (asyncio.TimeoutError, aiohttp.ClientError))] *)
Definition is_Timeout_or_ClientError (e : exn) : bool :=
  match e with TimeoutError | ClientError => true | _ => false end.

(** [isinstance(e, (IndexError, TypeError, KeyError))] *)
Definition is_Index_Type_or_KeyError (e : exn) : bool :=
  match e with IndexError | TypeError | KeyError => true | _ => false end.

(** [isinstance(e, Exception)] *)
Definition is_Exception (e : exn) : bool := true.

(** Python truth value: [bool(v)]. *)
Definition truthy (v : json) : bool :=
  match v with
  | JNull => false
  | JBool b => b
  | JNum q => negb (Qnum q =? 0)%Z
  | JStr s => negb (String.eqb s "")
  | JArr items => match items with [] => false | _ => true end
  | JObj members => match members with [] => false | _ => true end
  end.

(** [x or y] *)
Definition py_or (x y : json) : json := if truthy x then x else y.

(** Lookup in a [dict]: the first binding of the key. *)
Fixpoint dict_lookup {V} (k : string) (d : list (string * V)) : option V :=
  match d with
  | [] => None
  | (k', v) :: d' => if decide (k = k') then Some v else dict_lookup k d'
  end.

(** [d[k] = v]: replaces the value of an existing key in place, appends a
    new key. *)
Fixpoint dict_set {V} (k : string) (v : V) (d : list (string * V)) : list (string * V) :=
  match d with
  | [] => [(k, v)]
  | (k', v') :: d' => if decide (k = k') then (k, v) :: d' else (k', v') :: dict_set k v d'
  end.

(** Indexing of a sequence by a Python integer: a negative index counts
    from the end; [None] stands for [IndexError]. *)
Definition py_index {A} (l : list A) (i : Z) : option A :=
  let n := Z.of_nat (length l) in
  let j := if (i <? 0)%Z then (i + n)%Z else i in
  if bool_decide (0 ≤ j < n)%Z then l !! Z.to_nat j else None.

(** The characters of a string, as a list. *)
Fixpoint chars (s : string) : list Ascii.ascii :=
  match s with
  | EmptyString => []
  | String a s' => a :: chars s'
  end.

(** A subscript: an integer or a string. *)
Inductive key : Type :=
| KInt (i : Z)
| KStr (s : string).

(** [v[k]].  The keys of a JSON object are strings, so an integer
    subscript of a [dict] is always a [KeyError]. *)
Definition getitem (v : json) (k : key) : exc json :=
  match v, k with
  | JObj members, KStr s =>
      match dict_lookup s members with Some x => Ok x | None => Raise KeyError end
  | JObj _, KInt _ => Raise KeyError
  | JArr items, KInt i =>
      match py_index items i with Some x => Ok x | None => Raise IndexError end
  | JArr _, KStr _ => Raise TypeError
  | JStr s, KInt i =>
      match py_index (chars s) i with
      | Some a => Ok (JStr (String a EmptyString))
      | None => Raise IndexError
      end
  | JStr _, KStr _ => Raise TypeError
  | JNull, _ | JBool _, _ | JNum _, _ => Raise TypeError
  end.

(** [v.get(k, dflt)]: only a [dict] has the method. *)
Definition py_get (v : json) (k : string) (dflt : json) : exc json :=
  match v with
  | JObj members => Ok (default dflt (dict_lookup k members))
  | _ => Raise AttributeError
  end.

(** [needle in hay] for two strings: the substring test. *)
Fixpoint is_substring (needle hay : string) : bool :=
  String.prefix needle hay ||
  match hay with
  | EmptyString => false
  | String _ hay' => is_substring needle hay'
  end.

(** [s == v] for a string [s] and an arbitrary value [v]. *)
Definition str_eq_json (s : string) (v : json) : bool :=
  match v with JStr s' => bool_decide (s = s') | _ => false end.

(** [s in v] for a string [s]: key membership of a [dict], element
    membership of a [list], substring test of a [str]; [TypeError] for
    a value that is not a container. *)
Definition py_contains (v : json) (s : string) : exc bool :=
  match v with
  | JObj members => Ok (bool_decide (is_Some (dict_lookup s members)))
  | JArr items => Ok (existsb (str_eq_json s) items)
  | JStr hay => Ok (is_substring s hay)
  | JNull | JBool _ | JNum _ => Raise TypeError
  end.

(** [len(v)] *)
Definition py_len (v : json) : exc Z :=
  match v with
  | JObj members => Ok (Z.of_nat (length members))
  | JArr items => Ok (Z.of_nat (length items))
  | JStr s => Ok (Z.of_nat (String.length s))
  | JNull | JBool _ | JNum _ => Raise TypeError
  end.

(** [list(iter(v))]: the elements of a [list], the keys of a [dict], the
    characters of a [str]. *)
Definition py_iter (v : json) : exc (list json) :=
  match v with
  | JArr items => Ok items
  | JObj members => Ok (JStr <$> members.*1)
  | JStr s => Ok ((λ a, JStr (String a EmptyString)) <$> chars s)
  | JNull | JBool _ | JNum _ => Raise TypeError
  end.

(** Evaluates [f] on every element in order; the first exception ends
    the evaluation (a list comprehension). *)
Fixpoint exc_map {A B} (f : A → exc B) (l : list A) : exc (list B) :=
  match l with
  | [] => Ok []
  | a :: l' => b ← f a; bs ← exc_map f l'; Ok (b :: bs)
  end.

(** The text of a value that must be a [str]; [TypeError] otherwise. *)
Definition as_str (v : json) : exc string :=
  match v with JStr s => Ok s | _ => Raise TypeError end.

(** [sep.join(parts)] on strings. *)
Fixpoint join (sep : string) (parts : list string) : string :=
  match parts with
  | [] => ""
  | [p] => p
  | p :: parts' => p +:+ sep +:+ join sep parts'
  end.

(** [sep.join(values)]: [TypeError] when an item is not a [str]. *)
Definition str_join (sep : string) (values : list json) : exc string :=
  parts ← exc_map as_str values; Ok (join sep parts).

(** [{**a, **b}]: [TypeError] unless both are mappings; the keys of [a]
    keep their place, a key of [b] overrides or is appended. *)
Definition dict_merge (a b : json) : exc json :=
  match a, b with
  | JObj ma, JObj mb => Ok (JObj (foldl (λ acc kv, dict_set kv.1 kv.2 acc) ma mb))
  | _, _ => Raise TypeError
  end.

(** ** Integer true division

    [int(period / 2)] goes through a [float]: [period / 2] is the
    correctly rounded quotient (53 bits of mantissa, ties to even) and
    raises [OverflowError] when it does not fit a [float]; [int]
    truncates towards zero. *)

(** The [float] nearest to a non-negative integer, ties to even. *)
Definition round_to_float (a : Z) : Z :=
  let sh := (Z.log2 a + 1 - 53)%Z in
  if (sh <=? 0)%Z then a
  else
    let q := Z.shiftr a sh in
    let r := (a - Z.shiftl q sh)%Z in
    let half := Z.shiftl 1 (sh - 1) in
    let q' := if (r <? half)%Z then q
              else if (half <? r)%Z then (q + 1)%Z
              else if Z.even q then q else (q + 1)%Z in
    Z.shiftl q' sh.

(** [int(p / 2)] for an [int] [p]. *)
Definition int_of_half (p : Z) : exc Z :=
  let a := Z.abs p in
  if (a <? 2 ^ 53)%Z then Ok (Z.quot p 2)
  else
    let r := round_to_float a in
    if (2 ^ 1025 <=? r)%Z then Raise OverflowError
    else Ok (Z.sgn p * (r / 2))%Z.

(** ** Constants of [const.py] *)

Module const.

(** Modelled from the spec: [const.py] is not among the source files; the
    key of the observations array of a current-conditions payload, which
    the stand-alone test script reads as ['observations']. *)
Definition FIELD_OBSERVATIONS : string := "observations".

(** Modelled from the spec: [const.py] is not among the source files; the
    humidity key, named in the list of unit-less fields of the
    multi-station accessor. *)
Definition FIELD_CONDITION_HUMIDITY : string := "humidity".

(** Modelled from the spec: [const.py] is not among the source files; the
    wind-direction key, named in the list of unit-less fields of the
    multi-station accessor. *)
Definition FIELD_CONDITION_WINDDIR : string := "winddir".

(** Modelled from the spec: [const.py] is not among the source files; the
    longitude key of an observation. *)
Definition FIELD_LONGITUDE : string := "lon".

(** Modelled from the spec: [const.py] is not among the source files; the
    latitude key of an observation. *)
Definition FIELD_LATITUDE : string := "lat".

(** Modelled from the spec: [const.py] is not among the source files; the
    key of the half-day structure of a forecast payload. *)
Definition FIELD_DAYPART : string := "daypart".

(** Modelled from the spec: [const.py] is not among the source files; the
    key of the per-day valid-time array. *)
Definition FIELD_FORECAST_VALIDTIMEUTC : string := "validTimeUtc".

(** Modelled from the spec: [const.py] is not among the source files; the
    key of the per-day maximum temperature array. *)
Definition FIELD_FORECAST_TEMPERATUREMAX : string := "temperatureMax".

(** Modelled from the spec: [const.py] is not among the source files; the
    key of the per-day minimum temperature array. *)
Definition FIELD_FORECAST_TEMPERATUREMIN : string := "temperatureMin".

(** Modelled from the spec: [const.py] is not among the source files; the
    key of the per-day calendar-day maximum temperature array. *)
Definition FIELD_FORECAST_CALENDARDAYTEMPERATUREMAX : string := "calendarDayTemperatureMax".

(** Modelled from the spec: [const.py] is not among the source files; the
    key of the per-day calendar-day minimum temperature array. *)
Definition FIELD_FORECAST_CALENDARDAYTEMPERATUREMIN : string := "calendarDayTemperatureMin".

End const.
Export const.

(** ** Methods that mutate [self]: state and exceptions

    A computation over a state [S] that returns a value or raises; the
    state changes made before an exception is raised persist, as in
    Python. *)
Definition st (S A : Type) : Type := S → exc A * S.

#[global] Instance st_ret {S} : MRet (st S) := λ A a s, (Ok a, s).

#[global] Instance st_bind {S} : MBind (st S) :=
  λ A B f m s, match m s with
               | (Ok a, s') => f a s'
               | (Raise e, s') => (Raise e, s')
               end.

(** A pure expression evaluated inside a method. *)
Definition st_lift {S A} (e : exc A) : st S A := λ s, (e, s).

(** [raise e] *)
Definition st_raise {S A} (e : exn) : st S A := λ s, (Raise e, s).

(** Reads an attribute of [self]. *)
Definition st_gets {S A} (f : S → A) : st S A := λ s, (Ok (f s), s).

(** An expression that reads [self] and may raise. *)
Definition st_read {S A} (f : S → exc A) : st S A := λ s, (f s, s).

(** Assigns to attributes of [self]. *)
Definition st_modify {S} (f : S → S) : st S () := λ s, (Ok (), f s).

(** [try: m except <classes>: h] *)
Definition st_try {S A} (m : st S A) (catches : exn → bool) (h : exn → st S A) : st S A :=
  λ s, match m s with
       | (Ok a, s') => (Ok a, s')
       | (Raise e, s') => if catches e then h e s' else (Raise e, s')
       end.

(** ** The host: HTTP session, event loop, string conversion *)

(** What [await response.json()] yields: the parsed body, or a decoding
    error.  An empty body parses to [None]. *)
Inductive body : Type :=
| NotJson
| Json (j : json).

(** What [await session.get(url)] yields inside [async with timeout(..)]:
    an exception (a client error, a timeout), or a response with its
    status, its text and its body. *)
Inductive http_result : Type :=
| Failed (e : exn)
| Response (status : Z) (text : string) (payload : body).

(** The environment of a coordinator.  Every request and every clock
    reading is one step of I/O; the oracles are indexed by the number of
    steps performed before, so that the same URL may be answered
    differently each time. *)
Record Host : Type := {
  http_get : nat → string → http_result;
  loop_time : nat → Q;
  str_of : json → string
}.

(** [str(v)], as [str.format] and f-strings insert a value: a [str] is
    inserted as it is, the host gives the text of any other value. *)
Definition py_str (host : Host) (v : json) : string :=
  match v with JStr s => s | _ => str_of host v end.

(** [await response.json()].  A body that is not JSON raises a
    [JSONDecodeError] (or, for another content type, aiohttp's
    [ContentTypeError], a client error: every handler of the
    coordinators treats the two alike). *)
Definition response_json (payload : body) : exc json :=
  match payload with NotJson => Raise JSONDecodeError | Json j => Ok j end.

(** ** URL templates *)

(** A format string: literal text and replacement fields [{name}]. *)
Inductive piece : Type :=
| Lit (text : string)
| Field (name : string).

(** The Python string that a template stands for. *)
Fixpoint template_text (t : list piece) : string :=
  match t with
  | [] => ""
  | Lit text :: t' => text +:+ template_text t'
  | Field name :: t' => "{" +:+ name +:+ "}" +:+ template_text t'
  end.

(** [a == b] on format strings *)
Definition template_eqb (a b : list piece) : bool :=
  String.eqb (template_text a) (template_text b).

(** [t.format] with keyword arguments [kwargs]: a field without an
    argument is a [KeyError]. *)
Fixpoint format (t : list piece) (kwargs : list (string * string)) : exc string :=
  match t with
  | [] => Ok ""
  | Lit text :: t' => rest ← format t' kwargs; Ok (text +:+ rest)
  | Field name :: t' =>
      match dict_lookup name kwargs with
      | Some v => rest ← format t' kwargs; Ok (v +:+ rest)
      | None => Raise KeyError
      end
  end.

(** ** [base_coordinator.py] *)

Module Base.

Definition _RESOURCESHARED : list piece :=
  [Lit "&format=json&apiKey="; Field "apiKey"; Lit "&units="; Field "units"].

Definition _RESOURCECURRENT : list piece :=
  [Lit "https://api.weather.com/v2/pws/observations/current?stationId="; Field "stationId"].

Definition _RESOURCEFORECAST : list piece :=
  [Lit "https://api.weather.com/v3/wx/forecast/daily/5day?geocode=";
   Field "latitude"; Lit ","; Field "longitude"].

(** The attributes of [self] that the base methods read.  A subclass
    sets [_numeric_precision], [_latitude] and [_longitude]; [None]
    stands for an attribute that [self] does not have ([hasattr] is
    false, [getattr] yields its default). *)
Record BaseWundergroundPWSCoordinator : Type := {
  _api_key : string;
  _unit_system_api : string;
  _lang : string;
  _numeric_precision : option string;
  _latitude : option json;
  _longitude : option json;
  data : json
}.

(** [BaseWundergroundPWSCoordinator.get_condition] *)
Definition get_condition (self : BaseWundergroundPWSCoordinator) (field : string) : exc json :=
  if negb (truthy (data self)) then Ok JNull
  else if bool_decide (field ∈ [FIELD_CONDITION_HUMIDITY; FIELD_CONDITION_WINDDIR]) then
    observations ← getitem (data self) (KStr FIELD_OBSERVATIONS);
    observation ← getitem observations (KInt 0);
    py_get observation field JNull
  else
    observations ← getitem (data self) (KStr FIELD_OBSERVATIONS);
    observation ← getitem observations (KInt 0);
    py_get observation field JNull.

(** The fields that exist per day rather than per day part. *)
Definition full_day_fields : list string :=
  [FIELD_FORECAST_TEMPERATUREMAX;
   FIELD_FORECAST_TEMPERATUREMIN;
   FIELD_FORECAST_CALENDARDAYTEMPERATUREMAX;
   FIELD_FORECAST_CALENDARDAYTEMPERATUREMIN;
   FIELD_FORECAST_VALIDTIMEUTC].

(** The body of the [try] of [get_forecast]. *)
Definition get_forecast_body (data : json) (field : string) (period : Z) : exc json :=
  if negb (truthy data) then Ok JNull
  else if bool_decide (field ∈ full_day_fields) then
    days ← getitem data (KStr field);
    index ← int_of_half period;
    getitem days (KInt index)
  else
    daypart ← getitem data (KStr FIELD_DAYPART);
    first ← getitem daypart (KInt 0);
    values ← getitem first (KStr field);
    getitem values (KInt period).

(** [BaseWundergroundPWSCoordinator.get_forecast], inherited by both
    coordinators; [data] is [self.data]. *)
Definition get_forecast (data : json) (field : string) (period : Z) : exc json :=
  try_except (get_forecast_body data field period)
    is_Index_Type_or_KeyError (λ _, Ok JNull).

(** [BaseWundergroundPWSCoordinator._check_errors]; the single-station
    and the multi-station coordinator carry the same method.  The two
    adjacent literals [f'Error from {url}: ' '; '] are one string, on
    which [join] is called: it is the separator of the messages. *)
Definition _check_errors (url : string) (response : json) : exc () :=
  present ← py_contains response "errors";
  if negb present then Ok ()
  else
    errors ← getitem response (KStr "errors");
    if truthy errors then
      items ← py_iter errors;
      messages ← exc_map (λ e, getitem e (KStr "message")) items;
      text ← str_join ("Error from " +:+ url +:+ ": ; ") messages;
      Raise (ValueError text)
    else Ok ().

(** [BaseWundergroundPWSCoordinator._build_url] *)
Definition _build_url (host : Host) (self : BaseWundergroundPWSCoordinator)
    (baseurl : list piece) (station_id : string) (latitude longitude : json) : exc string :=
  let baseurl :=
    if template_eqb baseurl _RESOURCECURRENT then
      match _numeric_precision self with
      | Some precision =>
          if negb (String.eqb precision "none")
          then baseurl ++ [Lit "&numericPrecision="; Field "numericPrecision"]
          else baseurl
      | None => baseurl
      end
    else if template_eqb baseurl _RESOURCEFORECAST then
      baseurl ++ [Lit "&language="; Field "language"]
    else baseurl in
  let baseurl := baseurl ++ _RESOURCESHARED in
  format baseurl
    [("apiKey", _api_key self);
     ("language", _lang self);
     ("latitude", py_str host (py_or latitude (default (JStr "") (_latitude self))));
     ("longitude", py_str host (py_or longitude (default (JStr "") (_longitude self))));
     ("numericPrecision", default "none" (_numeric_precision self));
     ("stationId", station_id);
     ("units", _unit_system_api self)].

End Base.

(** ** [coordinator.py]: the single-station coordinator *)

Module Single.

Import Base(_RESOURCESHARED, _RESOURCECURRENT, _RESOURCEFORECAST).

(** [WundergroundPWSUpdateCoordinatorConfig], without the fields that
    the modelled methods do not read ([calendarday], [update_interval],
    [tranfile]). *)
Record WundergroundPWSUpdateCoordinatorConfig : Type := {
  api_key : string;
  pws_id : string;
  numeric_precision : string;
  unit_system_api : string;
  config_unit_system : string;
  lang : string;
  latitude : json;
  longitude : json;
  config_forecast_enable : bool
}.

(** The attributes of a [WundergroundPWSUpdateCoordinator].  [data] is
    the attribute of the host's [DataUpdateCoordinator], [None] before
    the first refresh; [io_step] counts the I/O steps performed. *)
Record WundergroundPWSUpdateCoordinator : Type := {
  _api_key : string;
  _unit_system_api : string;
  _lang : string;
  _pws_id : string;
  _numeric_precision : string;
  unit_system : string;
  _latitude : json;
  _longitude : json;
  forecast_enable : bool;
  data : json;
  io_step : nat
}.

(** [WundergroundPWSUpdateCoordinator.__init__] *)
Definition __init__ (config : WundergroundPWSUpdateCoordinatorConfig)
    : WundergroundPWSUpdateCoordinator :=
  {| _api_key := api_key config;
     _unit_system_api := unit_system_api config;
     _lang := lang config;
     _pws_id := pws_id config;
     _numeric_precision := numeric_precision config;
     unit_system := config_unit_system config;
     _latitude := latitude config;
     _longitude := longitude config;
     forecast_enable := config_forecast_enable config;
     data := JNull;
     io_step := 0 |}.

(** [self._latitude = v] *)
Definition set_latitude (v : json) (self : WundergroundPWSUpdateCoordinator) :=
  {| _api_key := _api_key self; _unit_system_api := _unit_system_api self;
     _lang := _lang self; _pws_id := _pws_id self;
     _numeric_precision := _numeric_precision self; unit_system := unit_system self;
     _latitude := v; _longitude := _longitude self;
     forecast_enable := forecast_enable self; data := data self;
     io_step := io_step self |}.

(** [self._longitude = v] *)
Definition set_longitude (v : json) (self : WundergroundPWSUpdateCoordinator) :=
  {| _api_key := _api_key self; _unit_system_api := _unit_system_api self;
     _lang := _lang self; _pws_id := _pws_id self;
     _numeric_precision := _numeric_precision self; unit_system := unit_system self;
     _latitude := _latitude self; _longitude := v;
     forecast_enable := forecast_enable self; data := data self;
     io_step := io_step self |}.

(** [self.data = v] *)
Definition set_data (v : json) (self : WundergroundPWSUpdateCoordinator) :=
  {| _api_key := _api_key self; _unit_system_api := _unit_system_api self;
     _lang := _lang self; _pws_id := _pws_id self;
     _numeric_precision := _numeric_precision self; unit_system := unit_system self;
     _latitude := _latitude self; _longitude := _longitude self;
     forecast_enable := forecast_enable self; data := v;
     io_step := io_step self |}.

(** One step of I/O has been performed. *)
Definition tick (self : WundergroundPWSUpdateCoordinator) :=
  {| _api_key := _api_key self; _unit_system_api := _unit_system_api self;
     _lang := _lang self; _pws_id := _pws_id self;
     _numeric_precision := _numeric_precision self; unit_system := unit_system self;
     _latitude := _latitude self; _longitude := _longitude self;
     forecast_enable := forecast_enable self; data := data self;
     io_step := S (io_step self) |}.

Section Methods.
Context (host : Host).

#[local] Abbreviation method := (st WundergroundPWSUpdateCoordinator).

(** [await self._session.get(url, headers=headers)] *)
Definition session_get (url : string) : method http_result :=
  λ self, (Ok (http_get host (io_step self) url), tick self).

(** [WundergroundPWSUpdateCoordinator._build_url] *)
Definition _build_url (self : WundergroundPWSUpdateCoordinator) (baseurl : list piece)
    : exc string :=
  let baseurl :=
    if template_eqb baseurl _RESOURCECURRENT then
      if negb (String.eqb (_numeric_precision self) "none")
      then baseurl ++ [Lit "&numericPrecision="; Field "numericPrecision"]
      else baseurl
    else if template_eqb baseurl _RESOURCEFORECAST then
      baseurl ++ [Lit "&language="; Field "language"]
    else baseurl in
  let baseurl := baseurl ++ _RESOURCESHARED in
  format baseurl
    [("apiKey", _api_key self);
     ("language", _lang self);
     ("latitude", py_str host (_latitude self));
     ("longitude", py_str host (_longitude self));
     ("numericPrecision", _numeric_precision self);
     ("stationId", _pws_id self);
     ("units", _unit_system_api self)].

(** [WundergroundPWSUpdateCoordinator._check_errors] *)
Definition _check_errors := Base._check_errors.

(** The request of [get_weather] for one resource, up to
    [_check_errors]: no status check here. *)
Definition request (baseurl : list piece) (empty : string) : method json :=
  url ← st_read (λ self, _build_url self baseurl);
  response ← session_get url;
  match response with
  | Failed e => st_raise e
  | Response status text payload =>
      result ← st_lift (response_json payload);
      match result with
      | JNull => st_raise (ValueError empty)
      | _ => _ ← st_lift (_check_errors url result); mret result
      end
  end.

(** [result_current[FIELD_OBSERVATIONS][0][field]] *)
Definition first_observation_field (result_current : json) (field : string) : exc json :=
  observations ← getitem result_current (KStr FIELD_OBSERVATIONS);
  observation ← getitem observations (KInt 0);
  getitem observation (KStr field).

(** The body of the [try] of [get_weather]. *)
Definition get_weather_body : method json :=
  result_current ← request _RESOURCECURRENT "NO CURRENT RESULT";
  lon ← st_gets _longitude;
  _ ← (if negb (truthy lon) then
         v ← st_lift (first_observation_field result_current FIELD_LONGITUDE);
         st_modify (set_longitude v)
       else mret ());
  lat ← st_gets _latitude;
  _ ← (if negb (truthy lat) then
         v ← st_lift (first_observation_field result_current FIELD_LATITUDE);
         st_modify (set_latitude v)
       else mret ());
  result_forecast ← request _RESOURCEFORECAST "NO FORECAST RESULT";
  result ← st_lift (dict_merge result_current result_forecast);
  _ ← st_modify (set_data result);
  mret result.

(** [WundergroundPWSUpdateCoordinator.get_weather]: a [ValueError], a
    timeout or a client error is logged and [None] is returned; any
    other exception propagates. *)
Definition get_weather : method json :=
  st_try get_weather_body
    (λ e, is_ValueError e || is_Timeout_or_ClientError e)
    (λ _, mret JNull).

(** [WundergroundPWSUpdateCoordinator._async_update_data] *)
Definition _async_update_data : method json := get_weather.

End Methods.

(** [WundergroundPWSUpdateCoordinator.get_condition], which overrides
    the method of the base class. *)
Definition get_condition (self : WundergroundPWSUpdateCoordinator) (field : string) : exc json :=
  if bool_decide (field ∈ [FIELD_CONDITION_HUMIDITY; FIELD_CONDITION_WINDDIR]) then
    observations ← getitem (data self) (KStr FIELD_OBSERVATIONS);
    observation ← getitem observations (KInt 0);
    value ← getitem observation (KStr field);
    Ok (py_or value (JNum 0))
  else
    observations ← getitem (data self) (KStr FIELD_OBSERVATIONS);
    observation ← getitem observations (KInt 0);
    units ← getitem observation (KStr (unit_system self));
    getitem units (KStr field).

(** [get_forecast] is inherited from the base class. *)
Definition get_forecast (self : WundergroundPWSUpdateCoordinator) (field : string) (period : Z)
    : exc json :=
  Base.get_forecast (data self) field period.

End Single.

(** ** [multi_station_coordinator.py]: stations with fallback *)

(** [sorted(l, key=key)]: the stable sort by an integer key.  The result
    of a stable sort is determined by its input, so that the insertion
    sort below yields the list that Python's sort yields. *)
Fixpoint insert_by {A} (key : A → Z) (x : A) (l : list A) : list A :=
  match l with
  | [] => [x]
  | y :: l' => if (key x <=? key y)%Z then x :: y :: l' else y :: insert_by key x l'
  end.

Definition sorted {A} (key : A → Z) (l : list A) : list A :=
  foldr (insert_by key) [] l.

Module Multi.

Import Base(_RESOURCESHARED, _RESOURCECURRENT, _RESOURCEFORECAST).

(** [StationConfig]: a lower [priority] is a higher priority. *)
Record StationConfig : Type := {
  pws_id : string;
  priority : Z;
  name : string
}.

#[global] Instance StationConfig_eq_dec : EqDecision StationConfig.
Proof. solve_decision. Defined.

(** [MultiStationCoordinatorConfig], without the fields that the
    modelled methods do not read ([calendarday], [update_interval],
    [tranfile], [max_station_age_minutes]). *)
Record MultiStationCoordinatorConfig : Type := {
  api_key : string;
  stations : list StationConfig;
  group_name : string;
  numeric_precision : string;
  unit_system_api : string;
  config_unit_system : string;
  lang : string;
  latitude : json;
  longitude : json;
  config_forecast_enable : bool
}.

(** A value of [self._station_data]: the dict with the keys ['data'] and
    ['last_update']. *)
Record CacheEntry : Type := {
  entry_data : json;
  last_update : Q
}.

(** The attributes of a [MultiStationUpdateCoordinator].  [data] is the
    attribute of the host's [DataUpdateCoordinator], [None] before the
    first refresh; [io_step] counts the I/O steps performed. *)
Record MultiStationUpdateCoordinator : Type := {
  _api_key : string;
  _unit_system_api : string;
  _lang : string;
  _stations : list StationConfig;
  _group_name : string;
  _numeric_precision : string;
  unit_system : string;
  _latitude : json;
  _longitude : json;
  forecast_enable : bool;
  _station_data : gmap string CacheEntry;
  _active_station : option StationConfig;
  data : json;
  io_step : nat
}.

(** [MultiStationUpdateCoordinator.__init__] *)
Definition __init__ (config : MultiStationCoordinatorConfig) : MultiStationUpdateCoordinator :=
  {| _api_key := api_key config;
     _unit_system_api := unit_system_api config;
     _lang := lang config;
     _stations := sorted priority (stations config);
     _group_name := group_name config;
     _numeric_precision := numeric_precision config;
     unit_system := config_unit_system config;
     _latitude := latitude config;
     _longitude := longitude config;
     forecast_enable := config_forecast_enable config;
     _station_data := ∅;
     _active_station := None;
     data := JNull;
     io_step := 0 |}.

(** [self._latitude = v] *)
Definition set_latitude (v : json) (self : MultiStationUpdateCoordinator) :=
  {| _api_key := _api_key self; _unit_system_api := _unit_system_api self;
     _lang := _lang self; _stations := _stations self; _group_name := _group_name self;
     _numeric_precision := _numeric_precision self; unit_system := unit_system self;
     _latitude := v; _longitude := _longitude self;
     forecast_enable := forecast_enable self; _station_data := _station_data self;
     _active_station := _active_station self; data := data self;
     io_step := io_step self |}.

(** [self._longitude = v] *)
Definition set_longitude (v : json) (self : MultiStationUpdateCoordinator) :=
  {| _api_key := _api_key self; _unit_system_api := _unit_system_api self;
     _lang := _lang self; _stations := _stations self; _group_name := _group_name self;
     _numeric_precision := _numeric_precision self; unit_system := unit_system self;
     _latitude := _latitude self; _longitude := v;
     forecast_enable := forecast_enable self; _station_data := _station_data self;
     _active_station := _active_station self; data := data self;
     io_step := io_step self |}.

(** [self._station_data = d] after an update of the dict in place *)
Definition set_station_data (d : gmap string CacheEntry) (self : MultiStationUpdateCoordinator) :=
  {| _api_key := _api_key self; _unit_system_api := _unit_system_api self;
     _lang := _lang self; _stations := _stations self; _group_name := _group_name self;
     _numeric_precision := _numeric_precision self; unit_system := unit_system self;
     _latitude := _latitude self; _longitude := _longitude self;
     forecast_enable := forecast_enable self; _station_data := d;
     _active_station := _active_station self; data := data self;
     io_step := io_step self |}.

(** [self._active_station = s] *)
Definition set_active_station (s : StationConfig) (self : MultiStationUpdateCoordinator) :=
  {| _api_key := _api_key self; _unit_system_api := _unit_system_api self;
     _lang := _lang self; _stations := _stations self; _group_name := _group_name self;
     _numeric_precision := _numeric_precision self; unit_system := unit_system self;
     _latitude := _latitude self; _longitude := _longitude self;
     forecast_enable := forecast_enable self; _station_data := _station_data self;
     _active_station := Some s; data := data self;
     io_step := io_step self |}.

(** [self.data = v] *)
Definition set_data (v : json) (self : MultiStationUpdateCoordinator) :=
  {| _api_key := _api_key self; _unit_system_api := _unit_system_api self;
     _lang := _lang self; _stations := _stations self; _group_name := _group_name self;
     _numeric_precision := _numeric_precision self; unit_system := unit_system self;
     _latitude := _latitude self; _longitude := _longitude self;
     forecast_enable := forecast_enable self; _station_data := _station_data self;
     _active_station := _active_station self; data := v;
     io_step := io_step self |}.

(** One step of I/O has been performed. *)
Definition tick (self : MultiStationUpdateCoordinator) :=
  {| _api_key := _api_key self; _unit_system_api := _unit_system_api self;
     _lang := _lang self; _stations := _stations self; _group_name := _group_name self;
     _numeric_precision := _numeric_precision self; unit_system := unit_system self;
     _latitude := _latitude self; _longitude := _longitude self;
     forecast_enable := forecast_enable self; _station_data := _station_data self;
     _active_station := _active_station self; data := data self;
     io_step := S (io_step self) |}.

(** The property [active_station] *)
Definition active_station (self : MultiStationUpdateCoordinator) : option StationConfig :=
  _active_station self.

(** A value of the dict that [station_status] returns. *)
Record StationStatus : Type := {
  status_name : string;
  status_priority : Z;
  active : bool;
  status_last_update : option Q;
  status : string
}.

(** The property [station_status]: a dict comprehension over
    [self._stations], a later station of the same id replacing an
    earlier one. *)
Definition station_status (self : MultiStationUpdateCoordinator) : gmap string StationStatus :=
  foldl
    (λ acc station,
       <[pws_id station :=
           {| status_name := name station;
              status_priority := priority station;
              active := match _active_station self with
                        | Some a => bool_decide (pws_id station = pws_id a)
                        | None => false
                        end;
              status_last_update := last_update <$> _station_data self !! pws_id station;
              status := if bool_decide (is_Some (_station_data self !! pws_id station))
                        then "online" else "offline" |}]> acc)
    ∅ (_stations self).

Section Methods.
Context (host : Host).

#[local] Abbreviation method := (st MultiStationUpdateCoordinator).

(** [await self._session.get(url, headers=headers)] *)
Definition session_get (url : string) : method http_result :=
  λ self, (Ok (http_get host (io_step self) url), tick self).

(** [self._hass.loop.time()] *)
Definition hass_loop_time : method Q :=
  λ self, (Ok (loop_time host (io_step self)), tick self).

(** [MultiStationUpdateCoordinator._build_url] *)
Definition _build_url (self : MultiStationUpdateCoordinator) (baseurl : list piece)
    (station_id : string) : exc string :=
  let baseurl :=
    if template_eqb baseurl _RESOURCECURRENT then
      if negb (String.eqb (_numeric_precision self) "none")
      then baseurl ++ [Lit "&numericPrecision="; Field "numericPrecision"]
      else baseurl
    else if template_eqb baseurl _RESOURCEFORECAST then
      baseurl ++ [Lit "&language="; Field "language"]
    else baseurl in
  let baseurl := baseurl ++ _RESOURCESHARED in
  format baseurl
    [("apiKey", _api_key self);
     ("language", _lang self);
     ("latitude", py_str host (_latitude self));
     ("longitude", py_str host (_longitude self));
     ("numericPrecision", _numeric_precision self);
     ("stationId", station_id);
     ("units", _unit_system_api self)].

(** [MultiStationUpdateCoordinator._check_errors] *)
Definition _check_errors := Base._check_errors.

(** [f'HTTP {response.status}: {await response.text()}'] *)
Definition http_error_message (status : Z) (text : string) : string :=
  "HTTP " +:+ pretty status +:+ ": " +:+ text.

(** The first [async with timeout(..)] block of [_fetch_station_data]:
    the current conditions, and the coordinates if they are not set. *)
Definition fetch_current (station : StationConfig) : method json :=
  url ← st_read (λ self, _build_url self _RESOURCECURRENT (pws_id station));
  response ← session_get url;
  match response with
  | Failed e => st_raise e
  | Response status text payload =>
      if negb (status =? 200)%Z then st_raise (ValueError (http_error_message status text))
      else
        result_current ← st_lift (response_json payload);
        match result_current with
        | JNull => st_raise (ValueError "NO CURRENT RESULT - API returned null")
        | _ =>
            present ← st_lift (py_contains result_current FIELD_OBSERVATIONS);
            observations ← st_lift (if present
                                    then getitem result_current (KStr FIELD_OBSERVATIONS)
                                    else Ok JNull);
            if negb present || negb (truthy observations)
            then st_raise (ValueError "NO OBSERVATIONS DATA - Station may be offline")
            else
              _ ← st_lift (_check_errors url result_current);
              lon ← st_gets _longitude;
              _ ← (if negb (truthy lon) then
                     observation ← st_lift (getitem observations (KInt 0));
                     v ← st_lift (getitem observation (KStr FIELD_LONGITUDE));
                     st_modify (set_longitude v)
                   else mret ());
              lat ← st_gets _latitude;
              _ ← (if negb (truthy lat) then
                     observation ← st_lift (getitem observations (KInt 0));
                     v ← st_lift (getitem observation (KStr FIELD_LATITUDE));
                     st_modify (set_latitude v)
                   else mret ());
              mret result_current
        end
  end.

(** The second [async with timeout(..)] block of [_fetch_station_data]:
    the forecast.  The test on ['daypart'] only logs a warning, but it
    is evaluated. *)
Definition fetch_forecast (station : StationConfig) : method json :=
  url ← st_read (λ self, _build_url self _RESOURCEFORECAST (pws_id station));
  response ← session_get url;
  match response with
  | Failed e => st_raise e
  | Response status text payload =>
      if negb (status =? 200)%Z then st_raise (ValueError (http_error_message status text))
      else
        result_forecast ← st_lift (response_json payload);
        match result_forecast with
        | JNull => st_raise (ValueError "NO FORECAST RESULT - API returned null")
        | _ =>
            present ← st_lift (py_contains result_forecast "daypart");
            _ ← st_lift (if present : bool then getitem result_forecast (KStr "daypart")
                         else Ok JNull);
            _ ← st_lift (_check_errors url result_forecast);
            mret result_forecast
        end
  end.

(** The body of the [try] of [_fetch_station_data]. *)
Definition fetch_station_body (station : StationConfig) : method json :=
  result_current ← fetch_current station;
  result_forecast ← fetch_forecast station;
  st_lift (dict_merge result_current result_forecast).

(** The handler of [_fetch_station_data]: it logs the error and the two
    URLs, building them inside a [try] of its own, and returns [None]. *)
Definition fetch_station_handler (station : StationConfig) (err : exn) : method json :=
  _ ← st_try
        (current_url ← st_read (λ self, _build_url self _RESOURCECURRENT (pws_id station));
         forecast_url ← st_read (λ self, _build_url self _RESOURCEFORECAST (pws_id station));
         mret ())
        is_Exception (λ _, mret ());
  mret JNull.

(** [MultiStationUpdateCoordinator._fetch_station_data] *)
Definition _fetch_station_data (station : StationConfig) : method json :=
  st_try (fetch_station_body station) is_Exception (fetch_station_handler station).

(** The loop of [get_weather] over the stations that remain;
    [successful_stations] is the list built so far.  A station whose
    fetch raises is removed from the cache. *)
Fixpoint fetch_all (stations : list StationConfig)
    (successful_stations : list (StationConfig * json))
    : method (list (StationConfig * json)) :=
  match stations with
  | [] => mret successful_stations
  | station :: stations' =>
      successful_stations ←
        st_try
          (station_data ← _fetch_station_data station;
           if truthy station_data
           then mret (successful_stations ++ [(station, station_data)])
           else mret successful_stations)
          is_Exception
          (λ _, _ ← st_modify (λ self : MultiStationUpdateCoordinator,
                       set_station_data (delete (pws_id station) (_station_data self)) self);
                mret successful_stations);
      fetch_all stations' successful_stations
  end.

(** The loop of [get_weather] that updates the cache. *)
Fixpoint update_cache (successful_stations : list (StationConfig * json)) : method () :=
  match successful_stations with
  | [] => mret ()
  | (station, data) :: rest =>
      now ← hass_loop_time;
      _ ← st_modify (λ self : MultiStationUpdateCoordinator,
             set_station_data
               (<[pws_id station := {| entry_data := data; last_update := now |}]>
                  (_station_data self)) self);
      update_cache rest
  end.

(** [MultiStationUpdateCoordinator.get_weather] *)
Definition get_weather : method json :=
  stations ← st_gets _stations;
  successful_stations ← fetch_all stations [];
  match successful_stations with
  | [] => mret JNull
  | (selected_station, selected_data) :: _ =>
      _ ← st_modify (set_active_station selected_station);
      _ ← update_cache successful_stations;
      _ ← st_modify (set_data selected_data);
      mret selected_data
  end.

(** [MultiStationUpdateCoordinator._async_update_data] *)
Definition _async_update_data : method json := get_weather.

End Methods.

(** The list [unit_less_fields] of [get_condition]. *)
Definition unit_less_fields : list string :=
  ["humidity"; "winddir"; "solarRadiation"; "uv"; "stationID"; "neighborhood";
   "obsTimeLocal"; "obsTimeUtc"; "softwareType"; "country"; "lon"; "lat";
   "realtimeFrequency"; "epoch"; "qcStatus"; "windDirectionCardinal"].

(** [MultiStationUpdateCoordinator.get_condition] *)
Definition get_condition (self : MultiStationUpdateCoordinator) (field : string) : exc json :=
  if negb (truthy (data self)) then Ok JNull
  else
    present ← py_contains (data self) FIELD_OBSERVATIONS;
    if negb present then Ok JNull
    else
      observations ← getitem (data self) (KStr FIELD_OBSERVATIONS);
      if negb (truthy observations) then Ok JNull
      else
        n ← py_len observations;
        if (n =? 0)%Z then Ok JNull
        else
          observation ← getitem observations (KInt 0);
          if bool_decide (field ∈ unit_less_fields) then py_get observation field JNull
          else
            metric_data ← py_get observation (unit_system self) (JObj []);
            in_metric ← (if truthy metric_data then py_contains metric_data field
                         else Ok false);
            if in_metric : bool then py_get metric_data field JNull
            else py_get observation field JNull.

(** [get_forecast] is inherited from the base class. *)
Definition get_forecast (self : MultiStationUpdateCoordinator) (field : string) (period : Z)
    : exc json :=
  Base.get_forecast (data self) field period.

End Multi.

(** * Consumers of the coordinators *)

(** ** More Python operators *)

(** [v == n] for an integer [n]: a number compares by value, [True] is
    [1] and [False] is [0]; any other value differs from an integer. *)
Definition json_eq_int (v : json) (n : Z) : bool :=
  match v with
  | JNum q => Qeq_bool q (inject_Z n)
  | JBool b => (n =? (if b then 1 else 0))%Z
  | _ => false
  end.

(** [v > n] for an integer [n]: [TypeError] unless [v] is a number or a
    [bool]. *)
Definition py_gt_int (v : json) (n : Z) : exc bool :=
  match v with
  | JNum q => Ok (negb (Qle_bool q (inject_Z n)))
  | JBool b => Ok (n <? (if b then 1 else 0))%Z
  | JNull | JStr _ | JArr _ | JObj _ => Raise TypeError
  end.

(** [i >= n] for an argument [i] that is an [int] or [None]. *)
Definition py_ge_int (i : option Z) (n : Z) : exc bool :=
  match i with
  | Some i => Ok (n <=? i)%Z
  | None => Raise TypeError
  end.

(** [v[i]] for an argument [i] that is an [int] or [None]. *)
Definition getitem_opt (v : json) (i : option Z) : exc json :=
  match i with
  | Some i => getitem v (KInt i)
  | None =>
      match v with
      | JObj _ => Raise KeyError
      | _ => Raise TypeError
      end
  end.

(** [k not in v or not v[k]] *)
Definition absent_or_falsy (v : json) (k : string) : exc bool :=
  present ← py_contains v k;
  if negb present then Ok true
  else item ← getitem v (KStr k); Ok (negb (truthy item)).

(** [isinstance(e, TypeError)] *)
Definition is_TypeError (e : exn) : bool :=
  match e with TypeError => true | _ => false end.

(** [isinstance(e, KeyError)] *)
Definition is_KeyError (e : exn) : bool :=
  match e with KeyError => true | _ => false end.

(** ** [BaseWundergroundPWSCoordinator._iconcode_to_condition]

    [icon_condition_map] is the class attribute, the dict
    [ICON_CONDITION_MAP] of [const.py] from a condition to its list of
    icon codes; [const.py] is not among the source files, so that the
    dict is an argument (its items, in their order). *)

(** The loop over the items of the dict. *)
Fixpoint iconcode_lookup (icon_condition_map : list (string * list Z)) (icon_code : json)
    : json :=
  match icon_condition_map with
  | [] => JNull
  | (condition, iconcodes) :: rest =>
      if existsb (json_eq_int icon_code) iconcodes then JStr condition
      else iconcode_lookup rest icon_code
  end.

Definition _iconcode_to_condition (icon_condition_map : list (string * list Z))
    (icon_code : json) : json :=
  match icon_code with
  | JNull => JNull
  | _ => iconcode_lookup icon_condition_map icon_code
  end.

(** ** [base_weather.py]: the weather entity *)

Module Weather.

(** What the entity uses of [self.coordinator], whichever its class:
    the two accessors, and the attribute [_calendarday] that
    [BaseWundergroundPWSCoordinator.__init__] sets. *)
Record Coordinator : Type := {
  get_condition : string → exc json;
  get_forecast : string → Z → exc json;
  _calendarday : bool
}.

(** A [WundergroundPWSUpdateCoordinator] as the coordinator of an
    entity. *)
Definition of_single (self : Single.WundergroundPWSUpdateCoordinator) (calendarday : bool)
    : Coordinator :=
  {| get_condition := Single.get_condition self;
     get_forecast := Single.get_forecast self;
     _calendarday := calendarday |}.

(** A [MultiStationUpdateCoordinator] as the coordinator of an entity. *)
Definition of_multi (self : Multi.MultiStationUpdateCoordinator) (calendarday : bool)
    : Coordinator :=
  {| get_condition := Multi.get_condition self;
     get_forecast := Multi.get_forecast self;
     _calendarday := calendarday |}.

(** The keyword arguments of [Forecast(...)]. *)
Record Forecast : Type := {
  condition_of : json;
  native_precipitation : json;
  precipitation_probability : json;
  native_temperature : json;
  native_templow : json;
  datetime : string;
  native_wind_speed : json;
  wind_bearing : json
}.

(** The dict of the legacy format, by the [ATTR_FORECAST_*] keys of the
    host. *)
Record LegacyForecast : Type := {
  ATTR_FORECAST_CONDITION : json;
  ATTR_FORECAST_PRECIPITATION : json;
  ATTR_FORECAST_PRECIPITATION_PROBABILITY : json;
  ATTR_FORECAST_TEMP : json;
  ATTR_FORECAST_TEMP_LOW : json;
  ATTR_FORECAST_TIME : string;
  ATTR_FORECAST_WIND_BEARING : json;
  ATTR_FORECAST_WIND_SPEED : json
}.

Section Entity.

(** The dict and the field names of [const.py], which is not among the
    source files, and [dt_util.utc_from_timestamp(t).isoformat()] of the
    host. *)
Context (ICON_CONDITION_MAP : list (string * list Z)).
Context (FIELD_FORECAST_ICONCODE FIELD_FORECAST_QPF FIELD_FORECAST_PRECIPCHANCE : string).
Context (FIELD_FORECAST_WINDSPEED FIELD_FORECAST_WINDDIRECTION : string).
Context (FIELD_FORECAST_WINDDIRECTIONCARDINAL : string).
Context (utc_isoformat : json → exc string).

(** [BaseWundergroundPWSWeatherEntity._estimate_condition_from_solar_radiation] *)
Definition _estimate_condition_from_solar_radiation (coordinator : Coordinator) : exc json :=
  try_except
    (solar_radiation ← get_condition coordinator "solarRadiation";
     match solar_radiation with
     | JNull => Ok JNull
     | _ =>
         above_800 ← py_gt_int solar_radiation 800;
         if above_800 : bool then Ok (JStr "sunny")
         else
           above_400 ← py_gt_int solar_radiation 400;
           if above_400 : bool then Ok (JStr "partlycloudy")
           else
             above_100 ← py_gt_int solar_radiation 100;
             if above_100 : bool then Ok (JStr "cloudy") else Ok (JStr "cloudy")
     end)
    (λ e, is_TypeError e || is_KeyError e) (λ _, Ok JNull).

(** The property [BaseWundergroundPWSWeatherEntity.condition] *)
Definition condition (coordinator : Coordinator) : exc json :=
  try_except
    (day ← get_forecast coordinator FIELD_FORECAST_ICONCODE 0;
     night ← get_forecast coordinator FIELD_FORECAST_ICONCODE 1;
     let condition := _iconcode_to_condition ICON_CONDITION_MAP (py_or day night) in
     if truthy condition then Ok condition
     else _estimate_condition_from_solar_radiation coordinator)
    is_Index_Type_or_KeyError (λ _, Ok JNull).

(** [BaseWundergroundPWSWeatherEntity._get_forecast_temperature_fields] *)
Definition _get_forecast_temperature_fields (coordinator : Coordinator) : string * string :=
  if _calendarday coordinator
  then (FIELD_FORECAST_CALENDARDAYTEMPERATUREMAX, FIELD_FORECAST_CALENDARDAYTEMPERATUREMIN)
  else (FIELD_FORECAST_TEMPERATUREMAX, FIELD_FORECAST_TEMPERATUREMIN).

(** [BaseWundergroundPWSWeatherEntity._get_forecast_periods] *)
Definition _get_forecast_periods (coordinator : Coordinator) : exc (list Z) :=
  current ← get_forecast coordinator "temperature" 0;
  match current with
  | JNull => Ok [1; 2; 4; 6; 8]%Z
  | _ => Ok [0; 2; 4; 6; 8]%Z
  end.

(** [BaseWundergroundPWSWeatherEntity._create_forecast_entry]; the items
    of the dict are evaluated in their order. *)
Definition _create_forecast_entry (coordinator : Coordinator) (period : Z)
    (temp_max_field temp_min_field : string) : exc (option LegacyForecast) :=
  try_except
    (forecast_time ← get_forecast coordinator FIELD_FORECAST_VALIDTIMEUTC period;
     match forecast_time with
     | JNull => Ok None
     | _ =>
         icon_code ← get_forecast coordinator FIELD_FORECAST_ICONCODE period;
         precipitation ← get_forecast coordinator FIELD_FORECAST_QPF period;
         probability ← get_forecast coordinator FIELD_FORECAST_PRECIPCHANCE period;
         temp ← get_forecast coordinator temp_max_field period;
         temp_low ← get_forecast coordinator temp_min_field period;
         time ← utc_isoformat forecast_time;
         bearing ← get_forecast coordinator FIELD_FORECAST_WINDDIRECTIONCARDINAL period;
         speed ← get_forecast coordinator FIELD_FORECAST_WINDSPEED period;
         Ok (Some {| ATTR_FORECAST_CONDITION :=
                       _iconcode_to_condition ICON_CONDITION_MAP icon_code;
                     ATTR_FORECAST_PRECIPITATION := precipitation;
                     ATTR_FORECAST_PRECIPITATION_PROBABILITY := probability;
                     ATTR_FORECAST_TEMP := temp;
                     ATTR_FORECAST_TEMP_LOW := temp_low;
                     ATTR_FORECAST_TIME := time;
                     ATTR_FORECAST_WIND_BEARING := bearing;
                     ATTR_FORECAST_WIND_SPEED := speed |})
     end)
    (λ e, is_TypeError e || is_ValueError e || is_KeyError e) (λ _, Ok None).

(** [BaseWundergroundPWSWeatherEntity._create_forecast_entry_new_format];
    the keyword arguments are evaluated in their order. *)
Definition _create_forecast_entry_new_format (coordinator : Coordinator) (period : Z)
    (temp_max_field temp_min_field : string) : exc (option Forecast) :=
  try_except
    (forecast_time ← get_forecast coordinator FIELD_FORECAST_VALIDTIMEUTC period;
     match forecast_time with
     | JNull => Ok None
     | _ =>
         icon_code ← get_forecast coordinator FIELD_FORECAST_ICONCODE period;
         precipitation ← get_forecast coordinator FIELD_FORECAST_QPF period;
         probability ← get_forecast coordinator FIELD_FORECAST_PRECIPCHANCE period;
         temperature ← get_forecast coordinator temp_max_field period;
         templow ← get_forecast coordinator temp_min_field period;
         time ← utc_isoformat forecast_time;
         speed ← get_forecast coordinator FIELD_FORECAST_WINDSPEED period;
         bearing ← get_forecast coordinator FIELD_FORECAST_WINDDIRECTION period;
         Ok (Some {| condition_of := _iconcode_to_condition ICON_CONDITION_MAP icon_code;
                     native_precipitation := precipitation;
                     precipitation_probability := probability;
                     native_temperature := temperature;
                     native_templow := templow;
                     datetime := time;
                     native_wind_speed := speed;
                     wind_bearing := bearing |})
     end)
    (λ e, is_TypeError e || is_ValueError e || is_KeyError e) (λ _, Ok None).

(** The loop of [_forecast_legacy] and of [_forecast_new]: the entries
    of the periods, without the periods that have none.  An entry is a
    dict with eight keys, hence truthy. *)
Fixpoint forecast_entries {E} (create : Z → exc (option E)) (periods : list Z)
    : exc (list E) :=
  match periods with
  | [] => Ok []
  | period :: periods' =>
      entry ← create period;
      forecast ← forecast_entries create periods';
      Ok (match entry with Some e => e :: forecast | None => forecast end)
  end.

(** [BaseWundergroundPWSWeatherEntity._forecast_legacy] *)
Definition _forecast_legacy (coordinator : Coordinator) : exc (list LegacyForecast) :=
  let '(temp_max_field, temp_min_field) := _get_forecast_temperature_fields coordinator in
  periods ← _get_forecast_periods coordinator;
  forecast_entries
    (λ period, _create_forecast_entry coordinator period temp_max_field temp_min_field)
    periods.

(** [BaseWundergroundPWSWeatherEntity._forecast_new]: [None] for an
    empty list. *)
Definition _forecast_new (coordinator : Coordinator) : exc (option (list Forecast)) :=
  let '(temp_max_field, temp_min_field) := _get_forecast_temperature_fields coordinator in
  periods ← _get_forecast_periods coordinator;
  forecast ← forecast_entries
    (λ period,
       _create_forecast_entry_new_format coordinator period temp_max_field temp_min_field)
    periods;
  Ok (match forecast with [] => None | _ => Some forecast end).

(** [BaseWundergroundPWSWeatherEntity._forecast] *)
Definition _forecast := _forecast_legacy.

(** [BaseWundergroundPWSWeatherEntity.async_forecast_daily] *)
Definition async_forecast_daily := _forecast_new.

End Entity.

End Weather.

(** ** [sensor.py]: the data of a sensor *)

Module Sensor.

Section Features.

(** The feature names of [const.py], which is not among the source
    files. *)
Context (FEATURE_CONDITIONS FEATURE_FORECAST FEATURE_FORECAST_DAYPART : string).
Context (FEATURE_OBSERVATIONS : string).

(** The body of the [try] of [_get_sensor_data]. *)
Definition get_sensor_data_body (sensors : json) (kind unit_system feature : string)
    (forecast_day : option Z) : exc json :=
  if negb (truthy sensors) then Ok JNull
  else if String.eqb feature FEATURE_CONDITIONS then
    missing ← absent_or_falsy sensors FIELD_OBSERVATIONS;
    if missing : bool then Ok JNull
    else
      observations ← getitem sensors (KStr FIELD_OBSERVATIONS);
      obs_data ← getitem observations (KInt 0);
      no_units ← absent_or_falsy obs_data unit_system;
      if no_units : bool then Ok JNull
      else
        units ← getitem obs_data (KStr unit_system);
        py_get units kind JNull
  else if String.eqb feature FEATURE_FORECAST then
    missing ← absent_or_falsy sensors kind;
    if missing : bool then Ok JNull
    else
      values ← getitem sensors (KStr kind);
      n ← py_len values;
      beyond ← py_ge_int forecast_day n;
      if beyond : bool then Ok JNull
      else getitem_opt values forecast_day
  else if String.eqb feature FEATURE_FORECAST_DAYPART then
    missing ← absent_or_falsy sensors FIELD_DAYPART;
    empty ← (if missing : bool then Ok true
             else daypart ← getitem sensors (KStr FIELD_DAYPART);
                  first ← getitem daypart (KInt 0);
                  Ok (negb (truthy first)));
    if empty : bool then Ok JNull
    else
      daypart ← getitem sensors (KStr FIELD_DAYPART);
      daypart_data ← getitem daypart (KInt 0);
      no_values ← absent_or_falsy daypart_data kind;
      if no_values : bool then Ok JNull
      else
        values ← getitem daypart_data (KStr kind);
        n ← py_len values;
        beyond ← py_ge_int forecast_day n;
        if beyond : bool then Ok JNull
        else getitem_opt values forecast_day
  else if String.eqb feature FEATURE_OBSERVATIONS then
    missing ← absent_or_falsy sensors FIELD_OBSERVATIONS;
    if missing : bool then Ok JNull
    else
      observations ← getitem sensors (KStr FIELD_OBSERVATIONS);
      obs_data ← getitem observations (KInt 0);
      py_get obs_data kind JNull
  else Ok sensors.

(** [_get_sensor_data]; [forecast_day] is an [int] or [None]. *)
Definition _get_sensor_data (sensors : json) (kind unit_system feature : string)
    (forecast_day : option Z) : exc json :=
  try_except (get_sensor_data_body sensors kind unit_system feature forecast_day)
    is_Index_Type_or_KeyError (λ _, Ok JNull).

End Features.

End Sensor.

(** ** [multi_station_config_flow.py]: the stations of a group *)

Module ConfigFlow.

Import Multi(StationConfig, pws_id, priority, name).

(** The input of the step [add_station], as [STEP_STATION_DATA_SCHEMA]
    admits it: the three required keys, a [str], a [str] and an [int]. *)
Record StationInput : Type := {
  input_pws_id : string;
  input_station_name : string;
  input_station_priority : Z
}.

(** The options of the entry that [async_step_finish_setup] creates, by
    their keys ([CONF_LATITUDE], [CONF_LONGITUDE], [CONF_LANG],
    [CONF_NUMERIC_PRECISION], [CONF_CALENDARDAYTEMPERATURE] and
    [CONF_FORECAST_SENSORS]). *)
Record EntryOptions : Type := {
  options_latitude : json;
  options_longitude : json;
  options_lang : string;
  options_numeric_precision : string;
  options_calendarday_temperature : bool;
  options_forecast_sensors : bool
}.

(** What a step returns: a form with its errors and its placeholders
    ([group_name], [station_count]), a menu, an abort or an entry. *)
Inductive FlowResult : Type :=
| ShowForm (step_id : string) (errors : list (string * string))
    (group_name : json) (station_count : nat)
| ShowMenu (step_id : string) (menu_options : list string)
| Abort (reason : string)
| CreateEntry (title : string) (data : json) (options : EntryOptions).

(** The attributes of a [MultiStationConfigFlow]; [_api_key] and
    [_group_name] are [None] before the step [user]. *)
Record MultiStationConfigFlow : Type := {
  _api_key : json;
  _group_name : json;
  _latitude : json;
  _longitude : json;
  _stations : list StationConfig
}.

(** [MultiStationConfigFlow.__init__] *)
Definition __init__ : MultiStationConfigFlow :=
  {| _api_key := JNull; _group_name := JNull; _latitude := JNull; _longitude := JNull;
     _stations := [] |}.

(** [self._stations.append(station)] *)
Definition append_station (station : StationConfig) (self : MultiStationConfigFlow)
    : MultiStationConfigFlow :=
  {| _api_key := _api_key self; _group_name := _group_name self;
     _latitude := _latitude self; _longitude := _longitude self;
     _stations := _stations self ++ [station] |}.

(** [MultiStationConfigFlow.async_step_add_station] *)
Definition async_step_add_station (user_input : option StationInput)
    (self : MultiStationConfigFlow) : FlowResult * MultiStationConfigFlow :=
  match user_input with
  | Some input =>
      if existsb (λ station, String.eqb (pws_id station) (input_pws_id input)) (_stations self)
      then (ShowForm "add_station" [("base", "station_already_exists")]
              (_group_name self) (length (_stations self)), self)
      else (ShowMenu "station_menu" ["add_another_station"; "finish_setup"],
            append_station {| pws_id := input_pws_id input;
                              priority := input_station_priority input;
                              name := input_station_name input |} self)
  | None => (ShowForm "add_station" [] (_group_name self) (length (_stations self)), self)
  end.

(** [MultiStationConfigFlow.async_step_station_menu] *)
Definition async_step_station_menu (self : MultiStationConfigFlow)
    : FlowResult * MultiStationConfigFlow :=
  (ShowMenu "station_menu" ["add_another_station"; "finish_setup"], self).

(** [MultiStationConfigFlow.async_step_add_another_station]: it calls
    [async_step_add_station] without an input. *)
Definition async_step_add_another_station (self : MultiStationConfigFlow)
    : FlowResult * MultiStationConfigFlow :=
  async_step_add_station None self.

Section Entry.

(** The keys [CONF_API_KEY] of the host and [CONF_PWS_ID] of
    [const.py], which is not among the source files. *)
Context (CONF_API_KEY CONF_PWS_ID : string).

Definition CONF_GROUP_NAME : string := "group_name".
Definition CONF_STATIONS : string := "stations".
Definition CONF_STATION_NAME : string := "station_name".
Definition CONF_STATION_PRIORITY : string := "station_priority".

(** A dict display [{k1: v1, ...}]: a later item of the same key
    replaces the value of an earlier one. *)
Definition dict_display (items : list (string * json)) : json :=
  JObj (foldl (λ acc kv, dict_set kv.1 kv.2 acc) [] items).

(** The dict of a station in the data of the entry. *)
Definition station_entry (station : StationConfig) : json :=
  dict_display
    [(CONF_PWS_ID, JStr (pws_id station));
     (CONF_STATION_NAME, JStr (name station));
     (CONF_STATION_PRIORITY, JNum (inject_Z (priority station)))].

(** [MultiStationConfigFlow.async_step_finish_setup] *)
Definition async_step_finish_setup (host : Host) (self : MultiStationConfigFlow)
    : FlowResult * MultiStationConfigFlow :=
  if (length (_stations self) =? 0)%nat then (Abort "no_stations", self)
  else
    (CreateEntry ("Multi-Station " +:+ py_str host (_group_name self))
       (dict_display
          [(CONF_API_KEY, _api_key self);
           (CONF_GROUP_NAME, _group_name self);
           (CONF_STATIONS, JArr (station_entry <$> _stations self))])
       {| options_latitude := _latitude self;
          options_longitude := _longitude self;
          options_lang := "en-US";
          options_numeric_precision := "none";
          options_calendarday_temperature := false;
          options_forecast_sensors := false |},
     self).

End Entry.

End ConfigFlow.

(** ** [__init__.py]: the setup of an entry *)

Module Setup.

Definition CONF_INTEGRATION_TYPE : string := "integration_type".
Definition CONF_GROUP_NAME : string := "group_name".
Definition CONF_STATIONS : string := "stations".
Definition CONF_STATION_NAME : string := "station_name".
Definition CONF_STATION_PRIORITY : string := "station_priority".

(** What a setup has read from [entry.data] when it creates its
    coordinator: the arguments [api_key] and [pws_id] of a
    [WundergroundPWSUpdateCoordinatorConfig], or [api_key], [stations]
    (the arguments [pws_id], [priority] and [name] of each
    [StationConfig]) and [group_name] of a
    [MultiStationCoordinatorConfig].  The other arguments are read
    from [entry.options] with [.get] and from the host. *)
Inductive EntryConfig : Type :=
| SingleStation (api_key pws_id : json)
| MultiStation (api_key : json) (stations : list (json * json * json)) (group_name : json).

Section Entry.

(** The keys [CONF_API_KEY] of the host and [CONF_PWS_ID] of
    [const.py], which is not among the source files. *)
Context (CONF_API_KEY CONF_PWS_ID : string).

(** [_async_setup_single_station_entry], up to the configuration of
    the coordinator: the keyword arguments are evaluated in their
    order. *)
Definition _async_setup_single_station_entry (data : json) : exc EntryConfig :=
  api_key ← getitem data (KStr CONF_API_KEY);
  pws_id ← getitem data (KStr CONF_PWS_ID);
  Ok (SingleStation api_key pws_id).

(** The arguments of [StationConfig(...)] in the loop of
    [_async_setup_multi_station_entry]. *)
Definition station_config (station_data : json) : exc (json * json * json) :=
  pws_id ← getitem station_data (KStr CONF_PWS_ID);
  priority ← getitem station_data (KStr CONF_STATION_PRIORITY);
  name ← getitem station_data (KStr CONF_STATION_NAME);
  Ok (pws_id, priority, name).

(** [_async_setup_multi_station_entry], up to the configuration of the
    coordinator. *)
Definition _async_setup_multi_station_entry (data : json) : exc EntryConfig :=
  stations_data ← getitem data (KStr CONF_STATIONS);
  items ← py_iter stations_data;
  stations ← exc_map station_config items;
  api_key ← getitem data (KStr CONF_API_KEY);
  group_name ← getitem data (KStr CONF_GROUP_NAME);
  Ok (MultiStation api_key stations group_name).

(** [async_setup_entry], up to the configuration of the coordinator:
    the setup is chosen by [entry.data.get(CONF_INTEGRATION_TYPE,
    "single")]. *)
Definition async_setup_entry (data : json) : exc EntryConfig :=
  integration_type ← py_get data CONF_INTEGRATION_TYPE (JStr "single");
  if str_eq_json "multi" integration_type
  then _async_setup_multi_station_entry data
  else _async_setup_single_station_entry data.

End Entry.

End Setup.

(** * Vocabulary of the statements *)

(** The value that an accessor returns for an expression that raised:
    [None]. *)
Definition or_absent (e : exc json) : json :=
  match e with Ok v => v | Raise _ => JNull end.

(** The text that a builder returns, empty if it raised. *)
Definition or_absent_text (e : exc string) : string :=
  match e with Ok s => s | Raise _ => "" end.

(** The text of a current-conditions URL: the values as they are. *)
Definition current_url (station_id precision key units : string) : string :=
  "https://api.weather.com/v2/pws/observations/current?stationId=" +:+ station_id +:+
  (if String.eqb precision "none" then "" else "&numericPrecision=" +:+ precision) +:+
  "&format=json&apiKey=" +:+ key +:+ "&units=" +:+ units.

(** The text of a forecast URL: the values as they are. *)
Definition forecast_url (latitude longitude language key units : string) : string :=
  "https://api.weather.com/v3/wx/forecast/daily/5day?geocode=" +:+ latitude +:+ "," +:+
  longitude +:+ "&language=" +:+ language +:+
  "&format=json&apiKey=" +:+ key +:+ "&units=" +:+ units.

(** Whatever the outcome, the state after the method [m] is related by
    [R] to the state before. *)
Definition keeps {S A} (R : relation S) (m : st S A) : Prop := ∀ s, R s (m s).2.

(** The attributes that a fetch never assigns: the cache, the active
    station, the document and the sorted stations. *)
Definition same_cache : relation Multi.MultiStationUpdateCoordinator :=
  λ self self',
    Multi._station_data self' = Multi._station_data self ∧
    Multi._active_station self' = Multi._active_station self ∧
    Multi.data self' = Multi.data self ∧
    Multi._stations self' = Multi._stations self.

(** First write wins for an attribute that is set: a truthy value of
    the attribute [get] is still there afterwards. *)
Definition kept_if_set {S} (get : S → json) : relation S :=
  λ self self', truthy (get self) = true → get self' = get self.

(** What the fetch of a station returns. *)
Definition fetched (host : Host) (station : Multi.StationConfig)
    (self : Multi.MultiStationUpdateCoordinator) : json :=
  or_absent (Multi._fetch_station_data host station self).1.

(** The fetches of one refresh cycle: every station of the list with
    what its fetch returned, in the order of the list.  A fetch starts in
    the state in which the fetch before it ended. *)
Fixpoint cycle_fetches (host : Host) (stations : list Multi.StationConfig)
    (self : Multi.MultiStationUpdateCoordinator) : list (Multi.StationConfig * json) :=
  match stations with
  | [] => []
  | station :: stations' =>
      (station, fetched host station self) ::
      cycle_fetches host stations' (Multi._fetch_station_data host station self).2
  end.

(** The state in which the last fetch of the cycle ends. *)
Fixpoint cycle_end (host : Host) (stations : list Multi.StationConfig)
    (self : Multi.MultiStationUpdateCoordinator) : Multi.MultiStationUpdateCoordinator :=
  match stations with
  | [] => self
  | station :: stations' =>
      cycle_end host stations' (Multi._fetch_station_data host station self).2
  end.

(** The fetch of the station returned a document. *)
Definition successful (fetch : Multi.StationConfig * json) : Prop :=
  truthy fetch.2 = true.

#[global] Instance successful_dec fetch : Decision (successful fetch).
Proof. unfold successful. apply _. Defined.

(** The successful fetches of the cycle that starts in [self], in the
    order of [self._stations]. *)
Definition cycle_successes (host : Host) (self : Multi.MultiStationUpdateCoordinator)
    : list (Multi.StationConfig * json) :=
  filter successful (cycle_fetches host (Multi._stations self) self).

(** The station was fetched with success in the cycle that starts in
    [self]. *)
Definition succeeded (host : Host) (self : Multi.MultiStationUpdateCoordinator)
    (station : Multi.StationConfig) : Prop :=
  station ∈ (cycle_successes host self).*1.

(** [a] comes no later than [b] in the list [l]. *)
Definition no_later {A} (l : list A) (a b : A) : Prop :=
  ∃ l1 l2, l = l1 ++ a :: l2 ∧ b ∈ a :: l2.

(** ** Sample data *)

Definition forecast_sample : json :=
  JObj [("temperatureMax", JArr [JNum 10; JNum 20; JNum 30]);
        ("daypart", JArr [JObj [("temperature", JArr [JNum 1; JNum 2])]])].

Definition calm_observation : list (string * json) :=
  [("stationID", JStr "KXXTEST1"); ("humidity", JNum 0); ("winddir", JNull);
   ("temp", JNum 21); ("metric", JObj [("dewpt", JNum 9)])].

Definition calm_document : json :=
  JObj [("observations", JArr [JObj calm_observation])].

Definition single_config : Single.WundergroundPWSUpdateCoordinatorConfig :=
  {| Single.api_key := "0123456789abcdef"; Single.pws_id := "KXXTEST1";
     Single.numeric_precision := "decimal"; Single.unit_system_api := "m";
     Single.config_unit_system := "metric"; Single.lang := "en-US";
     Single.latitude := JNull; Single.longitude := JNull;
     Single.config_forecast_enable := true |}.

Definition garden : Multi.StationConfig :=
  {| Multi.pws_id := "KXXTEST2"; Multi.priority := 2; Multi.name := "Garden" |}.

Definition roof : Multi.StationConfig :=
  {| Multi.pws_id := "KXXTEST1"; Multi.priority := 1; Multi.name := "Roof" |}.

Definition shed : Multi.StationConfig :=
  {| Multi.pws_id := "KXXTEST3"; Multi.priority := 1; Multi.name := "Shed" |}.

Definition multi_config : Multi.MultiStationCoordinatorConfig :=
  {| Multi.api_key := "0123456789abcdef";
     Multi.stations := [garden; roof; shed];
     Multi.group_name := "velence"; Multi.numeric_precision := "decimal";
     Multi.unit_system_api := "m"; Multi.config_unit_system := "metric";
     Multi.lang := "en-US"; Multi.latitude := JNull; Multi.longitude := JNull;
     Multi.config_forecast_enable := true |}.

(** A current-conditions payload of a station. *)
Definition sample_current (station_id : string) (lat lon : json) : json :=
  JObj [("observations",
         JArr [JObj [("stationID", JStr station_id); ("lat", lat); ("lon", lon);
                     ("humidity", JNum 55); ("winddir", JNum 270);
                     ("metric", JObj [("temp", JNum 21.5); ("dewpt", JNum 9)])]])].

(** The text of a number, for the sample hosts. *)
Definition sample_str_of (v : json) : string :=
  match v with JNum _ => "47.2" | _ => "None" end.

(** A host on which the station KXXTEST1 answers with status 500 and
    the other stations answer well. *)
Definition fallback_host : Host :=
  {| http_get := λ step url,
       if is_substring "KXXTEST1" url then Response 500 "Internal Server Error" NotJson
       else if is_substring "/forecast/" url then Response 200 "" (Json forecast_sample)
       else if is_substring "KXXTEST2" url
            then Response 200 "" (Json (sample_current "KXXTEST2" (JNum 47.2) (JNum 18.6)))
            else Response 200 "" (Json (sample_current "KXXTEST3" (JNum 47.3) (JNum 18.7)));
     loop_time := λ step, inject_Z (Z.of_nat step);
     str_of := sample_str_of |}.

(** A host with the same stations up, at other times and with other
    answers: KXXTEST1 times out. *)
Definition slow_host : Host :=
  {| http_get := λ step url,
       if is_substring "KXXTEST1" url then Failed TimeoutError
       else if is_substring "/forecast/" url then Response 200 "" (Json forecast_sample)
       else if is_substring "KXXTEST2" url
            then Response 200 "" (Json (sample_current "KXXTEST2" (JNum 47.25) (JNum 18.65)))
            else Response 200 "" (Json (sample_current "KXXTEST3" (JNum 47.35) (JNum 18.75)));
     loop_time := λ step, inject_Z (1000 + Z.of_nat step);
     str_of := sample_str_of |}.

(** A host on which every request times out. *)
Definition dead_host : Host :=
  {| http_get := λ step url, Failed TimeoutError;
     loop_time := λ step, inject_Z (Z.of_nat step);
     str_of := sample_str_of |}.

(** A host that answers as [fallback_host] during the first cycle (seven
    steps of I/O) and on which only the station KXXTEST2 answers
    afterwards. *)
Definition outage_host : Host :=
  {| http_get := λ step url,
       if (step <? 7)%nat then http_get fallback_host step url
       else if is_substring "/forecast/" url then Response 200 "" (Json forecast_sample)
       else if is_substring "KXXTEST2" url
            then Response 200 "" (Json (sample_current "KXXTEST2" (JNum 47.2) (JNum 18.6)))
            else Response 503 "Service Unavailable" NotJson;
     loop_time := λ step, inject_Z (Z.of_nat step);
     str_of := sample_str_of |}.

(** A host on which the station KXXTEST1 reports the coordinates
    (0, 0) and the other stations report theirs. *)
Definition equator_host : Host :=
  {| http_get := λ step url,
       if is_substring "/forecast/" url then Response 200 "" (Json forecast_sample)
       else if is_substring "KXXTEST1" url
            then Response 200 "" (Json (sample_current "KXXTEST1" (JNum 0) (JNum 0)))
            else Response 200 "" (Json (sample_current "KXXTEST3" (JNum 47.3) (JNum 18.7)));
     loop_time := λ step, inject_Z (Z.of_nat step);
     str_of := sample_str_of |}.

(** A current-conditions payload whose observation carries no
    coordinates. *)
Definition lonely_document : list (string * json) :=
  [("observations", JArr [JObj [("stationID", JStr "KXXTEST1"); ("humidity", JNum 55)]])].

(** A host that answers every request with [lonely_document]. *)
Definition lonely_host : Host :=
  {| http_get := λ step url, Response 200 "" (Json (JObj lonely_document));
     loop_time := λ step, inject_Z (Z.of_nat step);
     str_of := sample_str_of |}.

(** ** Vocabulary of the further properties *)

(** The document that the coordinator publishes is the one that its
    cache holds for the active station; without an active station there
    is no document. *)
Definition publishes_active_document (self : Multi.MultiStationUpdateCoordinator) : Prop :=
  match Multi.active_station self with
  | Some station =>
      Multi.entry_data <$> Multi._station_data self !! Multi.pws_id station =
        Some (Multi.data self)
  | None => Multi.data self = JNull
  end.

(** The document of the sample station KXXTEST2: its current conditions
    and the forecast. *)
Definition garden_document : json :=
  or_absent (dict_merge (sample_current "KXXTEST2" (JNum 47.2) (JNum 18.6)) forecast_sample).

(** The attributes that are set from the configuration and that no
    method assigns afterwards. *)
Definition same_settings : relation Multi.MultiStationUpdateCoordinator :=
  λ self self',
    Multi._api_key self' = Multi._api_key self ∧
    Multi._unit_system_api self' = Multi._unit_system_api self ∧
    Multi._lang self' = Multi._lang self ∧
    Multi._numeric_precision self' = Multi._numeric_precision self ∧
    Multi.unit_system self' = Multi.unit_system self.

(** What the method [m] does from the state [s]: [Q] holds of the value
    and the final state if it returns, [E] of the exception and the
    final state if it raises. *)
Definition outcome {S A} (m : st S A) (s : S) (Q : A → S → Prop) (E : exn → S → Prop)
    : Prop :=
  match m s with
  | (Ok a, s') => Q a s'
  | (Raise e, s') => E e s'
  end.

(** The host that answers as [host] does, with other status codes and
    other response texts: [status] and [text] give them from the step,
    the URL and the status or text of [host]. *)
Definition recode (status : nat → string → Z → Z) (text : nat → string → string → string)
    (host : Host) : Host :=
  {| http_get := λ step url,
       match http_get host step url with
       | Failed e => Failed e
       | Response s t payload => Response (status step url s) (text step url t) payload
       end;
     loop_time := loop_time host;
     str_of := str_of host |}.

(** The single-station coordinator does not assign its document. *)
Definition same_document : relation Single.WundergroundPWSUpdateCoordinator :=
  λ self self', Single.data self' = Single.data self.

(** ** Sample data of the entities *)

(** A dict of conditions by icon code, in the shape of
    [ICON_CONDITION_MAP]. *)
Definition sample_icon_map : list (string * list Z) :=
  [("clear-night", [31; 33]%Z); ("sunny", [32; 36]%Z); ("rainy", [11; 12; 40]%Z)].

(** A document with two days of forecast, the day part of today
    expired. *)
Definition entity_document : json :=
  JObj [("observations",
         JArr [JObj [("stationID", JStr "KXXTEST1"); ("solarRadiation", JNum 850);
                     ("humidity", JNum 40); ("metric", JObj [("temp", JNum 21)])]]);
        ("validTimeUtc", JArr [JNum 1700000000; JNum 1700086400]);
        ("temperatureMax", JArr [JNull; JNum 20]);
        ("temperatureMin", JArr [JNum 10; JNum 9]);
        ("daypart",
         JArr [JObj [("iconCode", JArr [JNull; JNum 31; JNum 11; JNum 29]);
                     ("temperature", JArr [JNull; JNum 10; JNum 20; JNum 9])]])].

(** The single-station coordinator of the samples, holding
    [entity_document]. *)
Definition entity_coordinator : Single.WundergroundPWSUpdateCoordinator :=
  Single.set_data entity_document (Single.__init__ single_config).

(** The ISO text of a time stamp, for the samples: a number has one,
    any other value is a [TypeError]. *)
Definition sample_isoformat (t : json) : exc string :=
  match t with
  | JNum _ => Ok "2023-11-14T22:13:20+00:00"
  | _ => Raise TypeError
  end.

(** The exceptions that an expression can raise are among those that
    [P] decides. *)
Definition raises_within {A} (P : exn → bool) (m : exc A) : Prop :=
  ∀ e, m = Raise e → P e = true.

(** An error of a subscript, or the [AttributeError] of [v.get] on a
    value that is not a dict. *)
Definition is_lookup_or_AttributeError (e : exn) : bool :=
  is_Index_Type_or_KeyError e || match e with AttributeError => true | _ => false end.

(** The flow after the step [add_station] has been taken with each of
    the inputs in turn ([None] is a call without input, which shows the
    form). *)
Definition add_stations (inputs : list (option ConfigFlow.StationInput))
    (self : ConfigFlow.MultiStationConfigFlow) : ConfigFlow.MultiStationConfigFlow :=
  foldl (λ self input, (ConfigFlow.async_step_add_station input self).2) self inputs.

(** Inputs of the step [add_station]: two stations, the first one
    entered twice. *)
Definition sample_inputs : list (option ConfigFlow.StationInput) :=
  [Some {| ConfigFlow.input_pws_id := "KXXTEST2"; ConfigFlow.input_station_name := "Garden";
           ConfigFlow.input_station_priority := 2 |};
   None;
   Some {| ConfigFlow.input_pws_id := "KXXTEST1"; ConfigFlow.input_station_name := "Roof";
           ConfigFlow.input_station_priority := 1 |};
   Some {| ConfigFlow.input_pws_id := "KXXTEST2"; ConfigFlow.input_station_name := "Again";
           ConfigFlow.input_station_priority := 3 |}].

(** * Theorems *)

(** A decidable proposition on closed terms, by evaluation. *)
Ltac by_computation := apply (bool_decide_unpack _); vm_compute; exact I.


(** ** The accessors *)

(** Subscription raises nothing but the three errors that [get_forecast]
    handles. *)
Lemma getitem_raises v k e :
  getitem v k = Raise e → is_Index_Type_or_KeyError e = true.
Proof.
  destruct v, k; simpl; intros H; repeat case_match; by simplify_eq.
Qed.

Lemma try_except_lookup_chain (m : exc json) :
  (∀ e, m = Raise e → is_Index_Type_or_KeyError e = true) →
  try_except m is_Index_Type_or_KeyError (λ _, Ok JNull) = Ok (or_absent m).
Proof.
  destruct m as [v|e]; simpl; [done|]. intros H. by rewrite (H e eq_refl).
Qed.

Lemma int_of_half_small p :
  (0 ≤ p < 2 ^ 53)%Z → int_of_half p = Ok (p / 2)%Z.
Proof.
  intros [H0 H1]. unfold int_of_half.
  rewrite Z.abs_eq by done.
  destruct (Z.ltb_spec p (2 ^ 53)); [|lia].
  by rewrite Z.quot_div_nonneg by lia.
Qed.

(** A falsy document has no field: [None], zero, [False] and the empty
    string, list and dict all raise on a string subscript. *)
Lemma getitem_falsy data s :
  truthy data = false → or_absent (getitem data (KStr s)) = JNull ∧
                         ∃ e, getitem data (KStr s) = Raise e.
Proof.
  destruct data as [|[]|q|s'|[]|[]]; simpl; intros; try done; eauto.
Qed.

Lemma get_forecast_full_day data field p :
  (0 ≤ p < 2 ^ 53)%Z → field ∈ Base.full_day_fields →
  Base.get_forecast data field p =
    Ok (or_absent (days ← getitem data (KStr field); getitem days (KInt (p / 2)))).
Proof.
  intros Hp Hf. unfold Base.get_forecast, Base.get_forecast_body.
  rewrite (bool_decide_eq_true_2 _ Hf), (int_of_half_small p Hp).
  destruct (truthy data) eqn:Ht; simpl.
  - apply try_except_lookup_chain. intros e.
    destruct (getitem data (KStr field)) as [days|e'] eqn:Hd; simpl.
    + apply getitem_raises.
    + intros [= <-]. by eapply getitem_raises.
  - destruct (getitem_falsy data field Ht) as [_ [e ->]]. done.
Qed.

Lemma get_forecast_daypart data field p :
  field ∉ Base.full_day_fields →
  Base.get_forecast data field p =
    Ok (or_absent (daypart ← getitem data (KStr FIELD_DAYPART);
                   first ← getitem daypart (KInt 0);
                   values ← getitem first (KStr field);
                   getitem values (KInt p))).
Proof.
  intros Hf. unfold Base.get_forecast, Base.get_forecast_body.
  rewrite (bool_decide_eq_false_2 _ Hf).
  destruct (truthy data) eqn:Ht; simpl.
  - apply try_except_lookup_chain. intros e.
    destruct (getitem data (KStr FIELD_DAYPART)) as [daypart|e1] eqn:H1; simpl;
      [|intros [= <-]; by eapply getitem_raises].
    destruct (getitem daypart (KInt 0)) as [first|e2] eqn:H2; simpl;
      [|intros [= <-]; by eapply getitem_raises].
    destruct (getitem first (KStr field)) as [values|e3] eqn:H3; simpl;
      [|intros [= <-]; by eapply getitem_raises].
    apply getitem_raises.
  - destruct (getitem_falsy data FIELD_DAYPART Ht) as [_ [e ->]]. done.
Qed.

(** C5 (amended).  For every period [p] with [0 <= p < 2^53] (the
    range in which Python's [period / 2] is exact), [get_forecast] reads
    a full-day field from the day array at index [p // 2], so that the
    periods [2k] and [2k+1] both resolve to the day index [k]; it reads
    every other field from [data['daypart'][0][field]] at index [p]; it
    never raises, and it returns [None] for an index out of range, a
    missing key or an absent document. *)
Theorem get_forecast_halves_the_period data field p :
  (0 ≤ p < 2 ^ 53)%Z →
  (field ∈ Base.full_day_fields →
     Base.get_forecast data field p =
       Ok (or_absent (days ← getitem data (KStr field); getitem days (KInt (p / 2)))) ∧
     ∀ k, p = (2 * k)%Z ∨ p = (2 * k + 1)%Z →
       Base.get_forecast data field p =
         Ok (or_absent (days ← getitem data (KStr field); getitem days (KInt k)))) ∧
  (field ∉ Base.full_day_fields →
     Base.get_forecast data field p =
       Ok (or_absent (daypart ← getitem data (KStr FIELD_DAYPART);
                      first ← getitem daypart (KInt 0);
                      values ← getitem first (KStr field);
                      getitem values (KInt p)))) ∧
  (∃ v, Base.get_forecast data field p = Ok v) ∧
  (truthy data = false → Base.get_forecast data field p = Ok JNull).
Proof.
  intros Hp. split_and!.
  - intros Hf. split; [by apply get_forecast_full_day|].
    intros k Hk. rewrite get_forecast_full_day by done.
    by replace (p / 2)%Z with k by (Z.div_mod_to_equations; lia).
  - apply get_forecast_daypart.
  - destruct (decide (field ∈ Base.full_day_fields)) as [Hf|Hf].
    + rewrite get_forecast_full_day by done. eauto.
    + rewrite get_forecast_daypart by done. eauto.
  - intros Ht. unfold Base.get_forecast, Base.get_forecast_body. by rewrite Ht.
Qed.

(** The third period of the sample forecast: the maximum temperature
    of day 1, and no day part (the sample has two). *)
Lemma get_forecast_halves_the_period_witness :
  (0 ≤ 3 < 2 ^ 53)%Z ∧
  Base.get_forecast forecast_sample "temperatureMax" 3 = Ok (JNum 20) ∧
  Base.get_forecast forecast_sample "temperature" 3 = Ok JNull.
Proof.
  assert (H : (0 ≤ 3 < 2 ^ 53)%Z) by (split; [lia | reflexivity]).
  destruct (get_forecast_halves_the_period forecast_sample "temperatureMax" 3 H)
    as (Hday & _).
  destruct (get_forecast_halves_the_period forecast_sample "temperature" 3 H)
    as (_ & Hpart & _).
  split; [exact H|]. split.
  - destruct Hday as [_ Hk]; [by_computation|].
    rewrite (Hk 1%Z) by (right; reflexivity). reflexivity.
  - rewrite Hpart; [reflexivity|]. by_computation.
Defined.

(** C5, counterexample.  The periods [-2] and [-1] are [2k] and [2k+1]
    for [k = -1], and [-1 // 2 = -1] is the last day of the array; but
    [int(-1 / 2)] is [0], so that the period [-1] resolves to the first
    day and the period [-2] to the last one. *)
Lemma get_forecast_negative_period_counterexample :
  Base.get_forecast forecast_sample FIELD_FORECAST_TEMPERATUREMAX (-1) = Ok (JNum 10) ∧
  Base.get_forecast forecast_sample FIELD_FORECAST_TEMPERATUREMAX (-2) = Ok (JNum 30) ∧
  (-1 = 2 * -1 + 1)%Z ∧ (-2 = 2 * -1)%Z ∧ ((-1) `div` 2 = -1)%Z ∧
  getitem (JArr [JNum 10; JNum 20; JNum 30]) (KInt ((-1) `div` 2)) = Ok (JNum 30).
Proof. vm_compute. done. Qed.

(** ** [get_condition] *)

(** C10.  On a document whose first observation holds the field, the
    single-station [get_condition] of the humidity or of the wind
    direction returns [0] when the stored value is falsy ([None], zero,
    an empty value) and the stored value itself when it is truthy. *)
Theorem single_get_condition_falsy_is_zero self field observations observation value :
  field ∈ [FIELD_CONDITION_HUMIDITY; FIELD_CONDITION_WINDDIR] →
  getitem (Single.data self) (KStr FIELD_OBSERVATIONS) = Ok observations →
  getitem observations (KInt 0) = Ok observation →
  getitem observation (KStr field) = Ok value →
  Single.get_condition self field = Ok (if truthy value then value else JNum 0).
Proof.
  intros Hf Hobs H0 Hv. unfold Single.get_condition.
  rewrite (bool_decide_eq_true_2 _ Hf), Hobs. simpl. rewrite H0. simpl.
  by rewrite Hv.
Qed.

(** A calm observation: no wind direction and a humidity of zero. *)
Lemma single_get_condition_falsy_is_zero_witness :
  let self := Single.set_data calm_document (Single.__init__ single_config) in
  Single.get_condition self "winddir" = Ok (JNum 0) ∧
  Single.get_condition self "humidity" = Ok (JNum 0).
Proof.
  split.
  - eapply (single_get_condition_falsy_is_zero _ "winddir" _ _ JNull);
      [by_computation | reflexivity..].
  - eapply (single_get_condition_falsy_is_zero _ "humidity" _ _ (JNum 0));
      [by_computation | reflexivity..].
Defined.

(** C4.  The single-station [get_condition] has no guard: for every
    field it raises [TypeError] as long as the coordinator has no
    document, and [KeyError] on a document whose observation lacks the
    field (and the unit record). *)
Theorem single_get_condition_raises config field :
  Single.get_condition (Single.__init__ config) field = Raise TypeError ∧
  Single.get_condition
    (Single.set_data (JObj [(FIELD_OBSERVATIONS, JArr [JObj []])]) (Single.__init__ config))
    field = Raise KeyError.
Proof.
  unfold Single.get_condition. split; by case_bool_decide.
Qed.

(** The guards that the single-station accessor lacks are those of the
    base class and of the multi-station coordinator. *)
Lemma base_get_condition_without_document self field :
  truthy (Base.data self) = false → Base.get_condition self field = Ok JNull.
Proof. unfold Base.get_condition. by intros ->. Qed.

Lemma multi_get_condition_without_document self field :
  truthy (Multi.data self) = false → Multi.get_condition self field = Ok JNull.
Proof. unfold Multi.get_condition. by intros ->. Qed.

(** On a document whose first observation is a record, and whose unit
    record (if any) is a record, the multi-station accessor reads the
    field as follows. *)
Lemma multi_get_condition_observation self doc observation rest field :
  Multi.data self = JObj doc →
  dict_lookup FIELD_OBSERVATIONS doc = Some (JArr (JObj observation :: rest)) →
  Multi.get_condition self field =
    if bool_decide (field ∈ Multi.unit_less_fields)
    then Ok (default JNull (dict_lookup field observation))
    else
      metric_data ← py_get (JObj observation) (Multi.unit_system self) (JObj []);
      in_metric ← (if truthy metric_data then py_contains metric_data field else Ok false);
      if in_metric : bool then py_get metric_data field JNull
      else Ok (default JNull (dict_lookup field observation)).
Proof.
  intros Hd Hobs. unfold Multi.get_condition. rewrite Hd.
  assert (truthy (JObj doc) = true) as -> by (by destruct doc).
  simpl. rewrite Hobs. simpl. done.
Qed.

(** C8 (amended).  On a document whose first observation is a record,
    the multi-station [get_condition] reads a unit-less field from that
    record; it reads any other field from the record of the configured
    unit system when that record holds the field, and falls back to the
    observation record itself when the unit record lacks the field or is
    absent. *)
Theorem multi_get_condition_reads self doc observation rest field :
  Multi.data self = JObj doc →
  dict_lookup FIELD_OBSERVATIONS doc = Some (JArr (JObj observation :: rest)) →
  (field ∈ Multi.unit_less_fields →
     Multi.get_condition self field = Ok (default JNull (dict_lookup field observation))) ∧
  (field ∉ Multi.unit_less_fields →
     (∀ units value,
        dict_lookup (Multi.unit_system self) observation = Some (JObj units) →
        dict_lookup field units = Some value →
        Multi.get_condition self field = Ok value) ∧
     (∀ units,
        dict_lookup (Multi.unit_system self) observation = Some (JObj units) →
        dict_lookup field units = None →
        Multi.get_condition self field = Ok (default JNull (dict_lookup field observation))) ∧
     (dict_lookup (Multi.unit_system self) observation = None →
        Multi.get_condition self field = Ok (default JNull (dict_lookup field observation)))).
Proof.
  intros Hd Hobs. rewrite (multi_get_condition_observation _ _ _ _ _ Hd Hobs).
  split; [intros Hf; by rewrite (bool_decide_eq_true_2 _ Hf)|].
  intros Hf. rewrite (bool_decide_eq_false_2 _ Hf). split_and!.
  - intros units value Hu Hv. simpl. rewrite Hu. simpl.
    destruct units as [|kv units]; [done|]. simpl in *.
    rewrite bool_decide_eq_true_2 by (by rewrite Hv). simpl. by rewrite Hv.
  - intros units Hu Hv. simpl. rewrite Hu. simpl.
    destruct units as [|kv units]; [done|]. simpl in *.
    rewrite bool_decide_eq_false_2; [done|]. rewrite Hv. by intros [].
  - intros Hu. simpl. by rewrite Hu.
Qed.

(** The station id is read from the observation, the dew point from
    its metric record. *)
Lemma multi_get_condition_reads_witness :
  let self := Multi.set_data calm_document (Multi.__init__ multi_config) in
  Multi.get_condition self "stationID" = Ok (JStr "KXXTEST1") ∧
  Multi.get_condition self "dewpt" = Ok (JNum 9).
Proof.
  intros self.
  destruct (multi_get_condition_reads self _ _ _ "stationID" eq_refl eq_refl) as [Hless _].
  destruct (multi_get_condition_reads self _ _ _ "dewpt" eq_refl eq_refl) as [_ Hunit].
  split.
  - apply Hless. by_computation.
  - destruct Hunit as [Hread _]; [by_computation|].
    by apply (Hread [("dewpt", JNum 9)]).
Defined.

(** C8, counterexample.  ['temp'] is not a unit-less field and the
    metric record of the observation does not hold it, yet
    [get_condition] returns the value that the observation record
    itself holds. *)
Lemma multi_get_condition_falls_back :
  let self := Multi.set_data calm_document (Multi.__init__ multi_config) in
  ("temp" ∉ Multi.unit_less_fields) ∧
  Multi.data self = JObj [(FIELD_OBSERVATIONS, JArr [JObj calm_observation])] ∧
  dict_lookup (Multi.unit_system self) calm_observation = Some (JObj [("dewpt", JNum 9)]) ∧
  dict_lookup "temp" [("dewpt", JNum 9)] = None ∧
  Multi.get_condition self "temp" = Ok (JNum 21).
Proof.
  split; [by_computation|]. by vm_compute.
Qed.

(** ** URLs *)

Lemma append_cons a s t : String a s +:+ t = String a (s +:+ t).
Proof. reflexivity. Qed.

Lemma append_nil_r s : s +:+ "" = s.
Proof. induction s as [|a s IH]; [done|]. by rewrite append_cons, IH. Qed.

Lemma append_assoc s1 s2 s3 : (s1 +:+ s2) +:+ s3 = s1 +:+ s2 +:+ s3.
Proof. induction s1 as [|a s1 IH]; [done|]. by rewrite !append_cons, IH. Qed.

Lemma multi_build_url_current host self station_id :
  Multi._build_url host self Base._RESOURCECURRENT station_id =
    Ok (current_url station_id (Multi._numeric_precision self) (Multi._api_key self)
          (Multi._unit_system_api self)).
Proof.
  unfold Multi._build_url, current_url.
  change (template_eqb Base._RESOURCECURRENT Base._RESOURCECURRENT) with true.
  destruct (String.eqb (Multi._numeric_precision self) "none"); simpl;
    by rewrite ?append_assoc, ?append_nil_r.
Qed.

Lemma multi_build_url_forecast host self station_id :
  Multi._build_url host self Base._RESOURCEFORECAST station_id =
    Ok (forecast_url (py_str host (Multi._latitude self)) (py_str host (Multi._longitude self))
          (Multi._lang self) (Multi._api_key self) (Multi._unit_system_api self)).
Proof.
  unfold Multi._build_url, forecast_url.
  change (template_eqb Base._RESOURCEFORECAST Base._RESOURCECURRENT) with false.
  change (template_eqb Base._RESOURCEFORECAST Base._RESOURCEFORECAST) with true.
  simpl. by rewrite ?append_assoc, ?append_nil_r.
Qed.

Lemma single_build_url_current host self :
  Single._build_url host self Base._RESOURCECURRENT =
    Ok (current_url (Single._pws_id self) (Single._numeric_precision self)
          (Single._api_key self) (Single._unit_system_api self)).
Proof.
  unfold Single._build_url, current_url.
  change (template_eqb Base._RESOURCECURRENT Base._RESOURCECURRENT) with true.
  destruct (String.eqb (Single._numeric_precision self) "none"); simpl;
    by rewrite ?append_assoc, ?append_nil_r.
Qed.

Lemma single_build_url_forecast host self :
  Single._build_url host self Base._RESOURCEFORECAST =
    Ok (forecast_url (py_str host (Single._latitude self))
          (py_str host (Single._longitude self))
          (Single._lang self) (Single._api_key self) (Single._unit_system_api self)).
Proof.
  unfold Single._build_url, forecast_url.
  change (template_eqb Base._RESOURCEFORECAST Base._RESOURCECURRENT) with false.
  change (template_eqb Base._RESOURCEFORECAST Base._RESOURCEFORECAST) with true.
  simpl. by rewrite ?append_assoc, ?append_nil_r.
Qed.

Lemma base_build_url_current host self station_id latitude longitude :
  Base._build_url host self Base._RESOURCECURRENT station_id latitude longitude =
    Ok (current_url station_id (default "none" (Base._numeric_precision self))
          (Base._api_key self) (Base._unit_system_api self)).
Proof.
  unfold Base._build_url, current_url.
  change (template_eqb Base._RESOURCECURRENT Base._RESOURCECURRENT) with true.
  destruct (Base._numeric_precision self) as [precision|]; simpl;
    [destruct (String.eqb precision "none"); simpl|];
    by rewrite ?append_assoc, ?append_nil_r.
Qed.

Lemma base_build_url_forecast host self station_id latitude longitude :
  Base._build_url host self Base._RESOURCEFORECAST station_id latitude longitude =
    Ok (forecast_url
          (py_str host (py_or latitude (default (JStr "") (Base._latitude self))))
          (py_str host (py_or longitude (default (JStr "") (Base._longitude self))))
          (Base._lang self) (Base._api_key self) (Base._unit_system_api self)).
Proof.
  unfold Base._build_url, forecast_url.
  change (template_eqb Base._RESOURCEFORECAST Base._RESOURCECURRENT) with false.
  change (template_eqb Base._RESOURCEFORECAST Base._RESOURCEFORECAST) with true.
  simpl. by rewrite ?append_assoc, ?append_nil_r.
Qed.

(** C9 (amended).  Each of the three URL builders returns the text of
    its template with the API key, the language tag, the station id,
    the coordinates, the precision and the unit code inserted as they
    are, without escaping; the text depends on nothing but the
    arguments and the attributes named here. *)
Theorem build_url_inserts_values_verbatim host :
  (∀ self station_id,
     Multi._build_url host self Base._RESOURCECURRENT station_id =
       Ok (current_url station_id (Multi._numeric_precision self) (Multi._api_key self)
             (Multi._unit_system_api self)) ∧
     Multi._build_url host self Base._RESOURCEFORECAST station_id =
       Ok (forecast_url (py_str host (Multi._latitude self))
             (py_str host (Multi._longitude self))
             (Multi._lang self) (Multi._api_key self) (Multi._unit_system_api self))) ∧
  (∀ self,
     Single._build_url host self Base._RESOURCECURRENT =
       Ok (current_url (Single._pws_id self) (Single._numeric_precision self)
             (Single._api_key self) (Single._unit_system_api self)) ∧
     Single._build_url host self Base._RESOURCEFORECAST =
       Ok (forecast_url (py_str host (Single._latitude self))
             (py_str host (Single._longitude self))
             (Single._lang self) (Single._api_key self) (Single._unit_system_api self))) ∧
  (∀ self station_id latitude longitude,
     Base._build_url host self Base._RESOURCECURRENT station_id latitude longitude =
       Ok (current_url station_id (default "none" (Base._numeric_precision self))
             (Base._api_key self) (Base._unit_system_api self)) ∧
     Base._build_url host self Base._RESOURCEFORECAST station_id latitude longitude =
       Ok (forecast_url
             (py_str host (py_or latitude (default (JStr "") (Base._latitude self))))
             (py_str host (py_or longitude (default (JStr "") (Base._longitude self))))
             (Base._lang self) (Base._api_key self) (Base._unit_system_api self))).
Proof.
  split_and!; intros.
  - split; [apply multi_build_url_current | apply multi_build_url_forecast].
  - split; [apply single_build_url_current | apply single_build_url_forecast].
  - split; [apply base_build_url_current | apply base_build_url_forecast].
Qed.

(** C9, counterexample.  The reserved characters [&], [=] and [#] of a
    station id arrive in the URL as they are, not percent-encoded. *)
Lemma build_url_does_not_escape :
  Multi._build_url fallback_host (Multi.__init__ multi_config) Base._RESOURCECURRENT "K&x=1#"
    = Ok "https://api.weather.com/v2/pws/observations/current?stationId=K&x=1#&numericPrecision=decimal&format=json&apiKey=0123456789abcdef&units=m" ∧
  is_substring "K%26x%3D1%23"
    (or_absent_text
       (Multi._build_url fallback_host (Multi.__init__ multi_config)
          Base._RESOURCECURRENT "K&x=1#")) = false.
Proof. vm_compute. done. Qed.

(** ** What a method leaves unchanged *)

Section Frame.
Context {S : Type} (R : relation S) `{!Reflexive R, !Transitive R}.

Lemma keeps_ret {A} (a : A) : keeps R (mret a).
Proof. intros s. apply reflexivity. Qed.

Lemma keeps_bind {A B} (m : st S A) (f : A → st S B) :
  keeps R m → (∀ a, keeps R (f a)) → keeps R (m ≫= f).
Proof.
  intros Hm Hf s. unfold mbind, st_bind. specialize (Hm s).
  destruct (m s) as [[a|e] s']; simpl in *; [|done].
  etrans; [done|]. apply Hf.
Qed.

Lemma keeps_lift {A} (e : exc A) : keeps R (st_lift e).
Proof. intros s. apply reflexivity. Qed.

Lemma keeps_raise {A} (e : exn) : keeps R (st_raise (A:=A) e).
Proof. intros s. apply reflexivity. Qed.

Lemma keeps_gets {A} (f : S → A) : keeps R (st_gets f).
Proof. intros s. apply reflexivity. Qed.

Lemma keeps_read {A} (f : S → exc A) : keeps R (st_read f).
Proof. intros s. apply reflexivity. Qed.

Lemma keeps_modify (f : S → S) : (∀ s, R s (f s)) → keeps R (st_modify f).
Proof. intros Hf s. apply Hf. Qed.

Lemma keeps_try {A} (m : st S A) catches (h : exn → st S A) :
  keeps R m → (∀ e, keeps R (h e)) → keeps R (st_try m catches h).
Proof.
  intros Hm Hh s. unfold st_try. specialize (Hm s).
  destruct (m s) as [[a|e] s']; simpl in *; [done|].
  destruct (catches e); [|done]. etrans; [done|]. apply Hh.
Qed.

End Frame.

(** Proves [keeps R m] for a method [m] made of the combinators above,
    given what each assignment does ([modify]) and what the requests do
    ([io]). *)
Ltac keeps_steps R modify io :=
  repeat first
    [ io
    | apply (keeps_ret R) | apply (keeps_lift R) | apply (keeps_raise R)
    | apply (keeps_gets R) | apply (keeps_read R)
    | apply (keeps_bind R); [|intros ?]
    | apply (keeps_try R); [|intros ?]
    | apply (keeps_modify R); intros ?; modify
    | match goal with
      | |- keeps _ (match ?x with _ => _ end) => destruct x
      end ].

(** ** The fetch of one station *)

#[local] Instance same_cache_refl : Reflexive same_cache.
Proof. by intros self. Qed.

#[local] Instance same_cache_trans : Transitive same_cache.
Proof. intros a b c (?&?&?&?) (?&?&?&?). unfold same_cache. split_and!; congruence. Qed.

Lemma session_get_same_cache host url : keeps same_cache (Multi.session_get host url).
Proof. by intros self. Qed.

Lemma fetch_current_same_cache host station :
  keeps same_cache (Multi.fetch_current host station).
Proof.
  unfold Multi.fetch_current.
  keeps_steps same_cache ltac:(done) ltac:(apply session_get_same_cache).
Qed.

Lemma fetch_forecast_same_cache host station :
  keeps same_cache (Multi.fetch_forecast host station).
Proof.
  unfold Multi.fetch_forecast.
  keeps_steps same_cache ltac:(done) ltac:(apply session_get_same_cache).
Qed.

Lemma fetch_station_data_same_cache host station :
  keeps same_cache (Multi._fetch_station_data host station).
Proof.
  unfold Multi._fetch_station_data, Multi.fetch_station_body, Multi.fetch_station_handler.
  keeps_steps same_cache ltac:(done)
    ltac:(first [apply fetch_current_same_cache | apply fetch_forecast_same_cache]).
Qed.

(** [_fetch_station_data] never raises: its handler catches every
    exception and returns [None]. *)
Lemma fetch_station_data_returns host station self :
  (Multi._fetch_station_data host station self).1 =
    match (Multi.fetch_station_body host station self).1 with
    | Ok v => Ok v
    | Raise _ => Ok JNull
    end.
Proof.
  unfold Multi._fetch_station_data, st_try.
  destruct (Multi.fetch_station_body host station self) as [[v|e] self']; [done|].
  simpl. unfold Multi.fetch_station_handler, mbind, st_bind, st_try, st_read.
  by repeat case_match.
Qed.

(** ** One refresh cycle *)

Section Cycle.
Context (host : Host).

Lemma cycle_fetches_stations stations self :
  (cycle_fetches host stations self).*1 = stations.
Proof.
  revert self. induction stations as [|station stations IH]; intros self; [done|].
  simpl. by rewrite IH.
Qed.

Lemma cycle_end_same_cache stations self : same_cache self (cycle_end host stations self).
Proof.
  revert self. induction stations as [|station stations IH]; intros self; [done|].
  simpl. etrans; [apply (fetch_station_data_same_cache host station)|apply IH].
Qed.

(** One turn of the loop of [get_weather]: the handler is never
    entered. *)
Lemma fetch_all_cons station stations acc self :
  Multi.fetch_all host (station :: stations) acc self =
    Multi.fetch_all host stations
      (if truthy (fetched host station self) then acc ++ [(station, fetched host station self)]
       else acc)
      (Multi._fetch_station_data host station self).2.
Proof.
  simpl. unfold mbind at 1, st_bind at 1. unfold st_try at 1.
  unfold mbind at 1, st_bind at 1. unfold fetched.
  pose proof (fetch_station_data_returns host station self) as Hr.
  destruct (Multi._fetch_station_data host station self) as [r self'].
  simpl in Hr. subst r.
  destruct (Multi.fetch_station_body host station self).1 as [v|e]; simpl;
    [by destruct (truthy v)|done].
Qed.

(** The loop of [get_weather] collects the successful fetches of the
    cycle, in the order of the stations. *)
Lemma fetch_all_collects stations acc self :
  Multi.fetch_all host stations acc self =
    (Ok (acc ++ filter successful (cycle_fetches host stations self)), cycle_end host stations self).
Proof.
  revert acc self. induction stations as [|station stations IH]; intros acc self.
  { simpl. by rewrite app_nil_r. }
  rewrite fetch_all_cons, IH. simpl.
  destruct (truthy (fetched host station self)) eqn:Hv.
  - rewrite filter_cons_True by done. by rewrite <-app_assoc.
  - rewrite filter_cons_False; [done|]. unfold successful. simpl. by rewrite Hv.
Qed.

(** The cache after the second loop of [get_weather]. *)
Lemma update_cache_same successful_stations self :
  let self' := (Multi.update_cache host successful_stations self).2 in
  (Multi.update_cache host successful_stations self).1 = Ok () ∧
  Multi._active_station self' = Multi._active_station self ∧
  Multi.data self' = Multi.data self ∧
  Multi._stations self' = Multi._stations self ∧
  Multi._latitude self' = Multi._latitude self ∧
  Multi._longitude self' = Multi._longitude self.
Proof.
  revert self.
  induction successful_stations as [|[station document] rest IH]; intros self; [done|].
  simpl. unfold mbind, st_bind. simpl.
  destruct (IH (Multi.set_station_data
                  (<[Multi.pws_id station :=
                       {| Multi.entry_data := document;
                          Multi.last_update := loop_time host (Multi.io_step self) |}]>
                     (Multi._station_data (Multi.tick self))) (Multi.tick self)))
    as (Hok & ? & ? & ? & ? & ?).
  simpl in *. unfold mbind, st_bind in *.
  destruct (Multi.update_cache host rest _) as [r s']. simpl in *. subst r. done.
Qed.

(** [get_weather], in terms of the fetches of the cycle. *)
Lemma get_weather_unfold self :
  Multi.get_weather host self =
    let after := cycle_end host (Multi._stations self) self in
    match cycle_successes host self with
    | [] => (Ok JNull, after)
    | (selected_station, selected_data) :: rest =>
        (Ok selected_data,
         Multi.set_data selected_data
           (Multi.update_cache host ((selected_station, selected_data) :: rest)
              (Multi.set_active_station selected_station after)).2)
    end.
Proof.
  unfold Multi.get_weather. cbv [mbind st_bind st_gets].
  rewrite fetch_all_collects, app_nil_l. unfold cycle_successes.
  destruct (filter successful _) as [|[sel d] rest]; [done|].
  cbv [st_modify mret st_ret].
  destruct (update_cache_same ((sel, d) :: rest)
              (Multi.set_active_station sel (cycle_end host (Multi._stations self) self)))
    as (Hok & _).
  destruct (Multi.update_cache host ((sel, d) :: rest) _) as [r s'].
  simpl in Hok. by subst r.
Qed.

End Cycle.

(** ** The stable sort *)

Section Sorted.
Context {A : Type} (key : A → Z).

Lemma insert_by_perm x l : insert_by key x l ≡ₚ x :: l.
Proof.
  induction l as [|y l IH]; simpl; [done|].
  destruct (key x <=? key y)%Z; [done|].
  rewrite IH. apply Permutation_swap.
Qed.

Lemma sorted_perm l : sorted key l ≡ₚ l.
Proof.
  induction l as [|x l IH]; simpl; [done|].
  by rewrite insert_by_perm, IH.
Qed.

Lemma insert_by_ordered x l :
  StronglySorted (λ a b, key a ≤ key b)%Z l →
  StronglySorted (λ a b, key a ≤ key b)%Z (insert_by key x l).
Proof.
  induction 1 as [|y l Hl IH Hy]; simpl; [repeat constructor|].
  destruct (Z.leb_spec (key x) (key y)) as [Hxy|Hxy].
  - constructor; [by constructor|]. constructor; [done|].
    eapply Forall_impl; [done|]. simpl. intros; lia.
  - constructor; [done|]. rewrite insert_by_perm. constructor; [lia|done].
Qed.

Lemma sorted_ordered l : StronglySorted (λ a b, key a ≤ key b)%Z (sorted key l).
Proof.
  induction l as [|x l IH]; simpl; [constructor|]. by apply insert_by_ordered.
Qed.

(** In a sorted list, nothing that comes later has a smaller key. *)
Lemma sorted_no_later l a b : no_later (sorted key l) a b → (key a ≤ key b)%Z.
Proof.
  intros (l1 & l2 & Hl & Hb). pose proof (sorted_ordered l) as Hs.
  rewrite Hl in Hs. apply StronglySorted_app_1_r in Hs.
  apply StronglySorted_cons in Hs as [Hall _].
  apply elem_of_cons in Hb as [->|Hb]; [lia|].
  by eapply Forall_forall in Hall.
Qed.

(** Stability: the sort does not reorder the elements of one key. *)
Lemma insert_by_stable p x l :
  filter (λ a, key a = p) (insert_by key x l) = filter (λ a, key a = p) (x :: l).
Proof.
  induction l as [|y l IH]; simpl; [done|].
  destruct (Z.leb_spec (key x) (key y)) as [Hxy|Hxy]; [done|].
  rewrite (filter_cons _ y), IH, !(filter_cons _ x), (filter_cons _ y).
  repeat case_decide; done || lia.
Qed.

Lemma sorted_stable p l :
  filter (λ a, key a = p) (sorted key l) = filter (λ a, key a = p) l.
Proof.
  induction l as [|x l IH]; simpl; [done|].
  by rewrite insert_by_stable, !filter_cons, IH.
Qed.

End Sorted.

(** ** Order of occurrence *)

Section NoLater.
Context {A : Type}.
Implicit Types l : list A.

Lemma no_later_cons l y a b : no_later l a b → no_later (y :: l) a b.
Proof. intros (l1 & l2 & -> & Hb). by exists (y :: l1), l2. Qed.

Lemma no_later_filter (P : A → Prop) `{!∀ x, Decision (P x)} l a b :
  no_later l a b → P a → P b → no_later (filter P l) a b.
Proof.
  intros (l1 & l2 & -> & Hb) Ha HPb.
  exists (filter P l1), (filter P l2). split.
  - by rewrite filter_app, filter_cons_True.
  - apply elem_of_cons in Hb as [->|Hb]; [left|right].
    by apply list_elem_of_filter.
Qed.

Lemma no_later_filter_inv (P : A → Prop) `{!∀ x, Decision (P x)} l a b :
  no_later (filter P l) a b → no_later l a b.
Proof.
  induction l as [|y l IH]; intros (m1 & m2 & Hm & Hb).
  { by destruct m1. }
  rewrite filter_cons in Hm. destruct (decide (P y)) as [Hy|Hy].
  - destruct m1 as [|z m1]; simplify_eq/=.
    + exists [], l. split; [done|].
      apply elem_of_cons in Hb as [->|Hb]; [left|right].
      by apply list_elem_of_filter in Hb as [_ ?].
    + apply no_later_cons, IH. by exists m1, m2.
  - apply no_later_cons, IH. by exists m1, m2.
Qed.

(** The first element of a list that satisfies a property. *)
Lemma filter_first (P : A → Prop) `{!∀ x, Decision (P x)} l x rest :
  filter P l = x :: rest →
  ∃ l1 l2, l = l1 ++ x :: l2 ∧ Forall (λ y, ¬ P y) l1 ∧ P x ∧ rest = filter P l2.
Proof.
  induction l as [|y l IH]; [done|]. rewrite filter_cons.
  destruct (decide (P y)) as [Hy|Hy].
  - intros [= -> <-]. by exists [], l.
  - intros (l1 & l2 & -> & ? & ? & ?)%IH. exists (y :: l1), l2.
    split_and!; [done|by constructor|done..].
Qed.

(** In a list without duplicates, two elements that each come no later
    than the other are one element. *)
Lemma no_later_antisym l a b : NoDup l → no_later l a b → no_later l b a → a = b.
Proof.
  intros Hl (l1 & l2 & H1 & Hb) (k1 & k2 & H2 & Ha).
  apply elem_of_cons in Hb as [->|Hb]; [done|].
  apply elem_of_cons in Ha as [->|Ha]; [done|].
  apply list_elem_of_lookup in Hb as [i Hi]. apply list_elem_of_lookup in Ha as [j Hj].
  assert (l !! length l1 = Some a) as Ha1 by (rewrite H1; apply list_lookup_middle; done).
  assert (l !! length k1 = Some b) as Hb1 by (rewrite H2; apply list_lookup_middle; done).
  assert (l !! (length l1 + S i) = Some b) as Hb2.
  { rewrite H1, lookup_app_r by lia. by replace (length l1 + S i - length l1) with (S i) by lia. }
  assert (l !! (length k1 + S j) = Some a) as Ha2.
  { rewrite H2, lookup_app_r by lia. by replace (length k1 + S j - length k1) with (S j) by lia. }
  pose proof (NoDup_lookup _ _ _ _ Hl Ha1 Ha2). pose proof (NoDup_lookup _ _ _ _ Hl Hb1 Hb2).
  lia.
Qed.

End NoLater.

(** ** The selection of the active station *)

(** The first successful fetch of a cycle comes no later in
    [self._stations] than any other successful fetch. *)
Lemma first_success_no_later host self selected document rest station :
  cycle_successes host self = (selected, document) :: rest →
  succeeded host self station →
  no_later (Multi._stations self) selected station.
Proof.
  unfold succeeded. intros Hsel Hst. rewrite Hsel in Hst.
  apply filter_first in Hsel as (t1 & t2 & Ht & _ & _ & ->).
  exists t1.*1, t2.*1. split.
  - by rewrite <-(cycle_fetches_stations host (Multi._stations self) self), Ht, fmap_app.
  - simpl in Hst. apply elem_of_cons in Hst as [->|Hst]; [left|right].
    apply list_elem_of_fmap in Hst as ([x d] & -> & Hx).
    apply list_elem_of_filter in Hx as [_ Hx]. apply list_elem_of_fmap. by exists (x, d).
Qed.

Lemma succeeded_in_stations host self station :
  succeeded host self station → station ∈ Multi._stations self.
Proof.
  unfold succeeded, cycle_successes. intros ([x d] & -> & Hx)%list_elem_of_fmap.
  apply list_elem_of_filter in Hx as [_ Hx].
  rewrite <-(cycle_fetches_stations host (Multi._stations self) self).
  apply list_elem_of_fmap. by exists (x, d).
Qed.

(** What [get_weather] returns and stores when a fetch succeeded. *)
Lemma get_weather_selected host self selected document rest :
  cycle_successes host self = (selected, document) :: rest →
  (Multi.get_weather host self).1 = Ok document ∧
  Multi.active_station (Multi.get_weather host self).2 = Some selected ∧
  Multi.data (Multi.get_weather host self).2 = document.
Proof.
  intros Hsel. rewrite get_weather_unfold, Hsel. simpl.
  destruct (update_cache_same host ((selected, document) :: rest)
              (Multi.set_active_station selected
                 (cycle_end host (Multi._stations self) self))) as (_ & Hact & _).
  split; [done|]. split; [|done]. unfold Multi.active_station. simpl in *. by rewrite Hact.
Qed.

(** C1.  For stations with distinct ids, sorted by priority at
    construction, and a cycle in which at least one fetch succeeds:
    [get_weather] returns the document of a station whose fetch
    succeeded and makes that station the active one; no successful
    station has a lower priority value, and a successful station of the
    same priority does not come before it in the configuration.  The
    selection depends on the set of successful stations only: a cycle
    of any host, started in any state, in which the same stations
    succeed selects the same station. *)
Theorem get_weather_selects_lowest_priority host host' config self self' station :
  NoDup (Multi.pws_id <$> Multi.stations config) →
  Multi._stations self = sorted Multi.priority (Multi.stations config) →
  Multi._stations self' = sorted Multi.priority (Multi.stations config) →
  succeeded host self station →
  (∀ x, succeeded host self x ↔ succeeded host' self' x) →
  ∃ selected document,
    (Multi.get_weather host self).1 = Ok document ∧
    Multi.active_station (Multi.get_weather host self).2 = Some selected ∧
    Multi.data (Multi.get_weather host self).2 = document ∧
    (selected, document) ∈ cycle_fetches host (Multi._stations self) self ∧
    truthy document = true ∧
    (∀ x, succeeded host self x →
       (Multi.priority selected ≤ Multi.priority x)%Z ∧
       (Multi.priority x = Multi.priority selected →
          no_later (Multi.stations config) selected x)) ∧
    Multi.active_station (Multi.get_weather host' self').2 = Some selected.
Proof.
  intros Hnodup Hsorted Hsorted' Hstation Hsame.
  destruct (cycle_successes host self) as [|[selected document] rest] eqn:Hsel.
  { unfold succeeded in Hstation. rewrite Hsel in Hstation. by apply elem_of_nil in Hstation. }
  assert (succeeded host self selected) as Hselected.
  { unfold succeeded. rewrite Hsel. left. }
  destruct (cycle_successes host' self') as [|[selected' document'] rest'] eqn:Hsel'.
  { apply Hsame in Hselected. unfold succeeded in Hselected. rewrite Hsel' in Hselected.
    by apply elem_of_nil in Hselected. }
  assert (succeeded host' self' selected') as Hselected'.
  { unfold succeeded. rewrite Hsel'. left. }
  destruct (get_weather_selected host self _ _ _ Hsel) as (Hret & Hact & Hdata).
  destruct (get_weather_selected host' self' _ _ _ Hsel') as (_ & Hact' & _).
  exists selected, document. split_and!; try done.
  - assert ((selected, document) ∈ cycle_successes host self) as Hin
      by (rewrite Hsel; left).
    by apply list_elem_of_filter in Hin as [_ ?].
  - assert ((selected, document) ∈ cycle_successes host self) as Hin
      by (rewrite Hsel; left).
    by apply list_elem_of_filter in Hin as [? _].
  - intros x Hx.
    pose proof (first_success_no_later host self _ _ _ x Hsel Hx) as Hfirst.
    rewrite Hsorted in Hfirst. split; [by eapply sorted_no_later|].
    intros Hprio.
    apply (no_later_filter_inv (λ a, Multi.priority a = Multi.priority selected)).
    rewrite <-(sorted_stable Multi.priority). by apply no_later_filter.
  - rewrite Hact'. f_equal.
    assert (NoDup (Multi._stations self)) as Hnd.
    { rewrite Hsorted, sorted_perm. by eapply NoDup_fmap_1. }
    apply (no_later_antisym (Multi._stations self)); [done|..].
    + rewrite Hsorted, <-Hsorted'.
      apply (first_success_no_later host' self' _ _ _ selected Hsel'). by apply Hsame.
    + apply (first_success_no_later host self _ _ _ selected' Hsel). by apply Hsame.
Qed.

(** Garden (priority 2), Roof and Shed (priority 1) with Roof down:
    Shed is selected, on a host where Roof answers 500 and on a host
    where it times out. *)
Lemma get_weather_selects_lowest_priority_witness :
  NoDup (Multi.pws_id <$> Multi.stations multi_config) ∧
  succeeded fallback_host (Multi.__init__ multi_config) garden ∧
  (∀ x, succeeded fallback_host (Multi.__init__ multi_config) x ↔
        succeeded slow_host (Multi.__init__ multi_config) x) ∧
  Multi.active_station
    (Multi.get_weather fallback_host (Multi.__init__ multi_config)).2 = Some shed ∧
  Multi.active_station
    (Multi.get_weather slow_host (Multi.__init__ multi_config)).2 = Some shed.
Proof.
  assert (NoDup (Multi.pws_id <$> Multi.stations multi_config)) as Hnodup
    by by_computation.
  assert (succeeded fallback_host (Multi.__init__ multi_config) garden) as Hgarden
    by (unfold succeeded; by_computation).
  assert (∀ x, succeeded fallback_host (Multi.__init__ multi_config) x ↔
               succeeded slow_host (Multi.__init__ multi_config) x) as Hsame.
  { intros x. unfold succeeded.
    assert ((cycle_successes fallback_host (Multi.__init__ multi_config)).*1 = [shed; garden])
      as -> by (vm_compute; reflexivity).
    assert ((cycle_successes slow_host (Multi.__init__ multi_config)).*1 = [shed; garden])
      as -> by (vm_compute; reflexivity).
    reflexivity. }
  destruct (get_weather_selects_lowest_priority fallback_host slow_host multi_config
              (Multi.__init__ multi_config) (Multi.__init__ multi_config) garden
              Hnodup eq_refl eq_refl Hgarden Hsame)
    as (selected & document & _ & Hactive & _ & _ & _ & _ & Hactive').
  assert (selected = shed) as ->.
  { assert (Multi.active_station
              (Multi.get_weather fallback_host (Multi.__init__ multi_config)).2 = Some shed)
      as Hshed by (vm_compute; reflexivity).
    rewrite Hshed in Hactive. by injection Hactive. }
  exact (conj Hnodup (conj Hgarden (conj Hsame (conj Hactive Hactive')))).
Defined.

(** C2 (amended).  If no fetch of the cycle returns a document,
    [get_weather] logs that all stations failed and returns [None]: it
    raises nothing, so that [_async_update_data] returns normally to
    its caller, and it leaves the document, the active station and the
    cache as they were. *)
Theorem get_weather_all_failed_keeps_document host self :
  Forall (λ fetch, truthy fetch.2 = false) (cycle_fetches host (Multi._stations self) self) →
  (Multi._async_update_data host self).1 = Ok JNull ∧
  Multi.data (Multi._async_update_data host self).2 = Multi.data self ∧
  Multi.active_station (Multi._async_update_data host self).2 = Multi.active_station self ∧
  Multi._station_data (Multi._async_update_data host self).2 = Multi._station_data self.
Proof.
  intros Hall. unfold Multi._async_update_data. rewrite get_weather_unfold.
  assert (cycle_successes host self = []) as ->.
  { unfold cycle_successes.
    induction Hall as [|fetch fetches Hf _ IH]; [done|].
    rewrite filter_cons_False; [done|]. unfold successful. by rewrite Hf. }
  simpl. destruct (cycle_end_same_cache host (Multi._stations self) self) as (?&?&?&?).
  done.
Qed.

(** After a cycle that selected Shed, a cycle in which every request
    times out. *)
Lemma get_weather_all_failed_keeps_document_witness :
  let self := (Multi.get_weather fallback_host (Multi.__init__ multi_config)).2 in
  Multi.active_station self = Some shed ∧
  (Multi.get_weather dead_host self).1 = Ok JNull ∧
  Multi.data (Multi.get_weather dead_host self).2 = Multi.data self ∧
  Multi.active_station (Multi.get_weather dead_host self).2 = Some shed.
Proof.
  intros self.
  assert (Multi.active_station self = Some shed) as Hshed by (vm_compute; reflexivity).
  destruct (get_weather_all_failed_keeps_document dead_host self)
    as (Hret & Hdata & Hact & _).
  { by_computation. }
  exact (conj Hshed (conj Hret (conj Hdata (eq_trans Hact Hshed)))).
Defined.

(** C2, counterexample.  After a cycle that selected Shed, every
    request of the next cycle times out.  [_async_update_data] returns
    [None] and raises no exception: the cycle is handed to its caller
    as a refresh that returned no document, not as one that failed. *)
Lemma all_failed_refresh_raises_nothing :
  let self := (Multi.get_weather fallback_host (Multi.__init__ multi_config)).2 in
  Forall (λ fetch, truthy fetch.2 = false)
    (cycle_fetches dead_host (Multi._stations self) self) ∧
  (Multi._async_update_data dead_host self).1 = Ok JNull ∧
  (∀ e, (Multi._async_update_data dead_host self).1 ≠ Raise e).
Proof.
  intros self.
  assert ((Multi._async_update_data dead_host self).1 = Ok JNull) as Hret
    by (vm_compute; reflexivity).
  split; [by_computation|]. split; [done|].
  intros e. by rewrite Hret.
Qed.

(** ** Coordinates: first write wins, if the value is truthy *)

#[local] Instance kept_if_set_refl {S} (get : S → json) : Reflexive (kept_if_set get).
Proof. by intros s. Qed.

#[local] Instance kept_if_set_trans {S} (get : S → json) : Transitive (kept_if_set get).
Proof.
  intros a b c Hab Hbc Ha. unfold kept_if_set in *.
  rewrite <-(Hab Ha). apply Hbc. by rewrite (Hab Ha).
Qed.

(** The guard [if not self.x: self.x = ...]: whatever the assignment
    is, a truthy [self.x] stays. *)
Lemma keeps_guard {S A} (get : S → json) (m : st S ()) (k : () → st S A) :
  (∀ u, keeps (kept_if_set get) (k u)) →
  keeps (kept_if_set get)
    (st_gets get ≫= λ v, (if negb (truthy v) then m else mret ()) ≫= k).
Proof.
  intros Hk s. unfold mbind, st_bind, st_gets.
  destruct (truthy (get s)) eqn:Hset; simpl.
  - apply Hk.
  - intros Ht. congruence.
Qed.

Lemma multi_fetch_keeps_latitude host station :
  keeps (kept_if_set Multi._latitude) (Multi._fetch_station_data host station).
Proof.
  unfold Multi._fetch_station_data, Multi.fetch_station_body, Multi.fetch_station_handler,
    Multi.fetch_current, Multi.fetch_forecast.
  keeps_steps (kept_if_set Multi._latitude) ltac:(by intros ?)
    ltac:(first [apply (keeps_guard Multi._latitude); intros ?
                | by intros ? ?]).
Qed.

Lemma multi_fetch_keeps_longitude host station :
  keeps (kept_if_set Multi._longitude) (Multi._fetch_station_data host station).
Proof.
  unfold Multi._fetch_station_data, Multi.fetch_station_body, Multi.fetch_station_handler,
    Multi.fetch_current, Multi.fetch_forecast.
  keeps_steps (kept_if_set Multi._longitude) ltac:(by intros ?)
    ltac:(first [apply (keeps_guard Multi._longitude); intros ?
                | by intros ? ?]).
Qed.

(** C7.  The guard [if not self._latitude] takes a learned coordinate
    of zero for one that is not set: the coordinates (0, 0) learned from
    the first station are overwritten by those of the next station. *)
Theorem zero_coordinates_are_overwritten :
  let self0 := Multi.__init__ multi_config in
  let self1 := (Multi._fetch_station_data equator_host roof self0).2 in
  let self2 := (Multi._fetch_station_data equator_host shed self1).2 in
  Multi._latitude self0 = JNull ∧ Multi._longitude self0 = JNull ∧
  Single.first_observation_field (fetched equator_host roof self0) FIELD_LATITUDE
    = Ok (JNum 0) ∧
  Single.first_observation_field (fetched equator_host shed self1) FIELD_LATITUDE
    = Ok (JNum 47.3) ∧
  Multi._latitude self1 = JNum 0 ∧ Multi._longitude self1 = JNum 0 ∧
  Multi._latitude self2 = JNum 47.3 ∧ Multi._longitude self2 = JNum 18.7.
Proof. vm_compute. done. Qed.

(** ** The errors of a fetch *)

Lemma exc_map_messages errors messages :
  Forall2 (λ e m, getitem e (KStr "message") = Ok (JStr m)) errors messages →
  exc_map (λ e, getitem e (KStr "message")) errors = Ok (JStr <$> messages).
Proof.
  induction 1 as [|e m errors messages He _ IH]; simpl; [done|].
  by rewrite He, IH.
Qed.

Lemma str_join_strings sep messages :
  str_join sep (JStr <$> messages) = Ok (join sep messages).
Proof.
  assert (exc_map as_str (JStr <$> messages) = Ok messages) as Hparts.
  { induction messages as [|m messages IH]; [done|].
    rewrite fmap_cons. cbn [exc_map as_str mbind exc_bind]. by rewrite IH. }
  unfold str_join. by rewrite Hparts.
Qed.

(** A payload with a non-empty list of errors: one [ValueError] that
    carries every message. *)
Lemma check_errors_raises url doc errors messages :
  dict_lookup "errors" doc = Some (JArr errors) →
  errors ≠ [] →
  Forall2 (λ e m, getitem e (KStr "message") = Ok (JStr m)) errors messages →
  Base._check_errors url (JObj doc) =
    Raise (ValueError (join ("Error from " +:+ url +:+ ": ; ") messages)).
Proof.
  intros Herrors Hne Hmessages. unfold Base._check_errors. simpl.
  rewrite Herrors. rewrite bool_decide_eq_true_2 by done. simpl.
  destruct errors as [|e errors]; [done|]. simpl truthy. cbv iota. simpl py_iter.
  unfold mbind at 1, exc_bind at 1.
  rewrite (exc_map_messages _ _ Hmessages). simpl.
  by rewrite str_join_strings.
Qed.

(** A payload with a truthy ['errors'] value never passes the check,
    whatever the value holds. *)
Lemma check_errors_rejects url doc :
  truthy (default JNull (dict_lookup "errors" doc)) = true →
  ∃ e, Base._check_errors url (JObj doc) = Raise e.
Proof.
  unfold Base._check_errors. cbn [py_contains mbind exc_bind getitem].
  destruct (dict_lookup "errors" doc) as [errors|] eqn:Hlookup; [|done].
  rewrite bool_decide_eq_true_2 by done. cbn [negb default mbind exc_bind id].
  intros ->.
  destruct (py_iter errors) as [items|e]; [|by eexists]. cbn [mbind exc_bind].
  destruct (exc_map _ items) as [messages|e]; [|by eexists]. cbn [mbind exc_bind].
  destruct (str_join _ messages); by eexists.
Qed.

Lemma fetch_station_body_raises host station self e :
  (Multi.fetch_current host station self).1 = Raise e →
  (Multi.fetch_station_body host station self).1 = Raise e ∧
  (Multi._fetch_station_data host station self).1 = Ok JNull.
Proof.
  intros He.
  assert ((Multi.fetch_station_body host station self).1 = Raise e) as Hbody.
  { unfold Multi.fetch_station_body, mbind, st_bind.
    destruct (Multi.fetch_current host station self) as [r self']. simpl in He. by subst r. }
  split; [done|]. by rewrite fetch_station_data_returns, Hbody.
Qed.

(** The first block of a fetch, once the response is there. *)
Lemma fetch_current_response host station self status text payload :
  http_get host (Multi.io_step self)
    (current_url (Multi.pws_id station) (Multi._numeric_precision self)
       (Multi._api_key self) (Multi._unit_system_api self)) = Response status text payload →
  (status ≠ 200%Z →
     (Multi.fetch_current host station self).1 =
       Raise (ValueError (Multi.http_error_message status text))) ∧
  (status = 200%Z → payload = NotJson →
     (Multi.fetch_current host station self).1 = Raise JSONDecodeError) ∧
  (status = 200%Z → payload = Json JNull →
     (Multi.fetch_current host station self).1 =
       Raise (ValueError "NO CURRENT RESULT - API returned null")) ∧
  (status = 200%Z → ∀ doc, payload = Json (JObj doc) →
     truthy (default JNull (dict_lookup FIELD_OBSERVATIONS doc)) = false →
     (Multi.fetch_current host station self).1 =
       Raise (ValueError "NO OBSERVATIONS DATA - Station may be offline")) ∧
  (status = 200%Z → ∀ doc e, payload = Json (JObj doc) →
     truthy (default JNull (dict_lookup FIELD_OBSERVATIONS doc)) = true →
     Base._check_errors
       (current_url (Multi.pws_id station) (Multi._numeric_precision self)
          (Multi._api_key self) (Multi._unit_system_api self)) (JObj doc) = Raise e →
     (Multi.fetch_current host station self).1 = Raise e).
Proof.
  intros Hget. unfold Multi.fetch_current.
  cbv [mbind st_bind st_read Multi.session_get].
  rewrite multi_build_url_current, Hget.
  split_and!.
  - intros Hstatus. by rewrite (proj2 (Z.eqb_neq _ _) Hstatus).
  - by intros -> ->.
  - by intros -> ->.
  - intros -> doc -> Hobs. simpl.
    destruct (dict_lookup FIELD_OBSERVATIONS doc) as [observations|] eqn:Hlookup.
    + rewrite bool_decide_eq_true_2 by done. simpl in *. by rewrite Hobs.
    + rewrite bool_decide_eq_false_2 by (by intros []). done.
  - intros -> doc e -> Hobs Herr. simpl.
    destruct (dict_lookup FIELD_OBSERVATIONS doc) as [observations|] eqn:Hlookup; [|done].
    rewrite bool_decide_eq_true_2 by done. simpl in *. rewrite Hobs. simpl.
    unfold Multi._check_errors. by rewrite Herr.
Qed.

(** C6 (amended).  A fetch of the multi-station coordinator fails (the
    body raises the error given, [_fetch_station_data] logs it and
    returns [None]) whenever the current-conditions response has a
    status other than 200, a body that does not parse, an empty body, or
    no observations or an empty list of them; the observations are
    tested before the list of errors, so that the messages of such a
    list are then dropped.  When the observations are there, the fetch
    fails whenever the payload carries a non-empty list of errors; if
    every error carries a text as its message, the messages are joined
    into one [ValueError]. *)
Theorem fetch_fails_on_bad_current_response host station self status text payload :
  let url := current_url (Multi.pws_id station) (Multi._numeric_precision self)
               (Multi._api_key self) (Multi._unit_system_api self) in
  let fails_with e :=
    (Multi.fetch_station_body host station self).1 = Raise e ∧
    (Multi._fetch_station_data host station self).1 = Ok JNull in
  http_get host (Multi.io_step self) url = Response status text payload →
  (status ≠ 200%Z → fails_with (ValueError (Multi.http_error_message status text))) ∧
  (status = 200%Z → payload = NotJson → fails_with JSONDecodeError) ∧
  (status = 200%Z → payload = Json JNull →
     fails_with (ValueError "NO CURRENT RESULT - API returned null")) ∧
  (status = 200%Z → ∀ doc, payload = Json (JObj doc) →
     truthy (default JNull (dict_lookup FIELD_OBSERVATIONS doc)) = false →
     fails_with (ValueError "NO OBSERVATIONS DATA - Station may be offline")) ∧
  (status = 200%Z → ∀ doc, payload = Json (JObj doc) →
     truthy (default JNull (dict_lookup FIELD_OBSERVATIONS doc)) = true →
     truthy (default JNull (dict_lookup "errors" doc)) = true →
     ∃ e, fails_with e) ∧
  (status = 200%Z → ∀ doc errors messages, payload = Json (JObj doc) →
     truthy (default JNull (dict_lookup FIELD_OBSERVATIONS doc)) = true →
     dict_lookup "errors" doc = Some (JArr errors) →
     errors ≠ [] →
     Forall2 (λ e m, getitem e (KStr "message") = Ok (JStr m)) errors messages →
     fails_with (ValueError (join ("Error from " +:+ url +:+ ": ; ") messages))).
Proof.
  intros url fails_with Hget.
  destruct (fetch_current_response host station self status text payload Hget)
    as (Hhttp & Hjson & Hnull & Hobs & Herr).
  subst fails_with. split_and!.
  - intros. by apply fetch_station_body_raises, Hhttp.
  - intros. by apply fetch_station_body_raises, Hjson.
  - intros. by apply fetch_station_body_raises, Hnull.
  - intros. by eapply fetch_station_body_raises, Hobs.
  - intros Hstatus doc Hpayload Hobservations Herrors.
    destruct (check_errors_rejects url doc Herrors) as [e Hcheck].
    exists e. by eapply fetch_station_body_raises, Herr.
  - intros Hstatus doc errors messages Hpayload Hobservations Herrors Hne Hmessages.
    eapply fetch_station_body_raises, Herr; [done..|].
    by eapply check_errors_raises.
Qed.

(** The station KXXTEST1 answers 500. *)
Lemma fetch_fails_on_bad_current_response_witness :
  http_get fallback_host 0
    "https://api.weather.com/v2/pws/observations/current?stationId=KXXTEST1&numericPrecision=decimal&format=json&apiKey=0123456789abcdef&units=m"
    = Response 500 "Internal Server Error" NotJson ∧
  (Multi.fetch_station_body fallback_host roof (Multi.__init__ multi_config)).1
    = Raise (ValueError "HTTP 500: Internal Server Error") ∧
  (Multi._fetch_station_data fallback_host roof (Multi.__init__ multi_config)).1 = Ok JNull.
Proof.
  assert (http_get fallback_host (Multi.io_step (Multi.__init__ multi_config))
            (current_url (Multi.pws_id roof)
               (Multi._numeric_precision (Multi.__init__ multi_config))
               (Multi._api_key (Multi.__init__ multi_config))
               (Multi._unit_system_api (Multi.__init__ multi_config)))
          = Response 500 "Internal Server Error" NotJson) as Hget
    by (vm_compute; reflexivity).
  destruct (fetch_fails_on_bad_current_response fallback_host roof
              (Multi.__init__ multi_config) 500 "Internal Server Error" NotJson Hget)
    as (Hhttp & _).
  destruct Hhttp as [Hbody Hfetch]; [lia|].
  split; [exact Hget|]. split; [exact Hbody | exact Hfetch].
Defined.

(** The second block of a fetch fails on the forecast response in the
    same way. *)
Lemma fetch_fails_on_bad_forecast_response
    host station self result_current self1 status text payload :
  let url := forecast_url (py_str host (Multi._latitude self1))
               (py_str host (Multi._longitude self1)) (Multi._lang self1)
               (Multi._api_key self1) (Multi._unit_system_api self1) in
  let fails_with e :=
    (Multi.fetch_station_body host station self).1 = Raise e ∧
    (Multi._fetch_station_data host station self).1 = Ok JNull in
  Multi.fetch_current host station self = (Ok result_current, self1) →
  http_get host (Multi.io_step self1) url = Response status text payload →
  (status ≠ 200%Z → fails_with (ValueError (Multi.http_error_message status text))) ∧
  (status = 200%Z → payload = NotJson → fails_with JSONDecodeError) ∧
  (status = 200%Z → payload = Json JNull →
     fails_with (ValueError "NO FORECAST RESULT - API returned null")) ∧
  (status = 200%Z → ∀ doc errors messages, payload = Json (JObj doc) →
     dict_lookup "errors" doc = Some (JArr errors) →
     errors ≠ [] →
     Forall2 (λ e m, getitem e (KStr "message") = Ok (JStr m)) errors messages →
     fails_with (ValueError (join ("Error from " +:+ url +:+ ": ; ") messages))).
Proof.
  intros url fails_with Hcurrent Hget.
  assert (∀ e, (Multi.fetch_forecast host station self1).1 = Raise e → fails_with e)
    as Hfails.
  { intros e He.
    assert ((Multi.fetch_station_body host station self).1 = Raise e) as Hbody.
    { unfold Multi.fetch_station_body. cbv [mbind st_bind]. rewrite Hcurrent.
      destruct (Multi.fetch_forecast host station self1) as [r self2].
      simpl in He. by subst r. }
    split; [done|]. by rewrite fetch_station_data_returns, Hbody. }
  assert (Multi.fetch_forecast host station self1 =
            (if negb (status =? 200)%Z
             then st_raise (ValueError (Multi.http_error_message status text))
             else
               result_forecast ← st_lift (response_json payload);
               match result_forecast with
               | JNull => st_raise (ValueError "NO FORECAST RESULT - API returned null")
               | _ =>
                   present ← st_lift (py_contains result_forecast "daypart");
                   _ ← st_lift (if present : bool
                                then getitem result_forecast (KStr "daypart")
                                else Ok JNull);
                   _ ← st_lift (Multi._check_errors url result_forecast);
                   mret result_forecast
               end) (Multi.tick self1)) as Hforecast.
  { unfold Multi.fetch_forecast. cbv [mbind st_bind st_read Multi.session_get].
    rewrite multi_build_url_forecast. fold url. by rewrite Hget. }
  split_and!.
  - intros Hstatus. apply Hfails. rewrite Hforecast.
    by rewrite (proj2 (Z.eqb_neq _ _) Hstatus).
  - intros -> ->. apply Hfails. by rewrite Hforecast.
  - intros -> ->. apply Hfails. by rewrite Hforecast.
  - intros -> doc errors messages -> Herrors Hne Hmessages.
    apply Hfails. rewrite Hforecast.
    cbv [mbind st_bind st_lift response_json negb Z.eqb Pos.eqb].
    assert (Base._check_errors url (JObj doc) =
              Raise (ValueError (join ("Error from " +:+ url +:+ ": ; ") messages)))
      as Hcheck by (by eapply check_errors_raises).
    unfold Multi._check_errors. rewrite Hcheck. simpl.
    by destruct (dict_lookup "daypart" doc).
Qed.

(** C6, counterexample.  The status is 200, the body parses and is
    not empty, the observations are there and there is no list of
    errors; the fetch fails all the same, on the coordinates that the
    observation lacks. *)
Lemma fetch_fails_without_a_listed_cause :
  let self := Multi.__init__ multi_config in
  Multi._latitude self = JNull ∧
  (∀ step url, http_get lonely_host step url = Response 200 "" (Json (JObj lonely_document))) ∧
  truthy (default JNull (dict_lookup FIELD_OBSERVATIONS lonely_document)) = true ∧
  dict_lookup "errors" lonely_document = None ∧
  (Multi.fetch_station_body lonely_host roof self).1 = Raise KeyError ∧
  (Multi._fetch_station_data lonely_host roof self).1 = Ok JNull.
Proof. vm_compute. done. Qed.

(** ** The status of a station whose fetch fails *)

(** C3.  The handler of [get_weather] that removes a failed station
    from the cache is never entered, because [_fetch_station_data]
    returns [None] instead of raising: a station that was fetched with
    success in the first cycle and fails in the second one is still
    reported ['online'] (and keeps its entry). *)
Theorem failed_station_is_reported_online :
  let self0 := Multi.__init__ multi_config in
  let self1 := (Multi.get_weather outage_host self0).2 in
  let self2 := (Multi.get_weather outage_host self1).2 in
  (cycle_successes outage_host self0).*1 = [shed; garden] ∧
  (cycle_successes outage_host self1).*1 = [garden] ∧
  Multi.active_station self2 = Some garden ∧
  Multi.status <$> Multi.station_status self2 !! "KXXTEST3" = Some "online" ∧
  Multi.entry_data <$> Multi._station_data self2 !! "KXXTEST3" =
    Multi.entry_data <$> Multi._station_data self1 !! "KXXTEST3" ∧
  Multi.status <$> Multi.station_status self2 !! "KXXTEST1" = Some "offline".
Proof. vm_compute. done. Qed.

(** A station whose fetch fails keeps the entry of the cache that an
    earlier cycle wrote, and with it the status ['online']. *)
Lemma update_cache_other host successful_stations self k :
  k ∉ (λ fetch, Multi.pws_id fetch.1) <$> successful_stations →
  Multi._station_data (Multi.update_cache host successful_stations self).2 !! k =
    Multi._station_data self !! k.
Proof.
  revert self.
  induction successful_stations as [|[station document] rest IH]; intros self Hk; [done|].
  rewrite fmap_cons in Hk. apply not_elem_of_cons in Hk as [Hne Hk].
  simpl. cbv [mbind st_bind Multi.hass_loop_time st_modify].
  rewrite IH by done. simpl. by rewrite lookup_insert_ne.
Qed.

Lemma NoDup_fmap_eq {A B} (f : A → B) (l : list A) x y :
  NoDup (f <$> l) → x ∈ l → y ∈ l → f x = f y → x = y.
Proof.
  intros Hl [i Hi]%list_elem_of_lookup [j Hj]%list_elem_of_lookup Hf.
  assert ((f <$> l) !! i = Some (f x)) as Hi' by (by rewrite list_lookup_fmap, Hi).
  assert ((f <$> l) !! j = Some (f x)) as Hj' by (by rewrite list_lookup_fmap, Hj, Hf).
  pose proof (NoDup_lookup _ _ _ _ Hl Hi' Hj'). congruence.
Qed.

Lemma failed_station_keeps_cache_entry host self station :
  NoDup (Multi.pws_id <$> Multi._stations self) →
  station ∈ Multi._stations self →
  ¬ succeeded host self station →
  Multi._station_data (Multi.get_weather host self).2 !! Multi.pws_id station =
    Multi._station_data self !! Multi.pws_id station.
Proof.
  intros Hnodup Hin Hfailed. rewrite get_weather_unfold.
  destruct (cycle_end_same_cache host (Multi._stations self) self) as (Hcache & _).
  destruct (cycle_successes host self) as [|[selected document] rest] eqn:Hsel;
    cbv beta iota zeta; cbn [snd].
  { by rewrite Hcache. }
  unfold Multi.set_data at 1. cbn [Multi._station_data snd].
  rewrite update_cache_other; [simpl; by rewrite Hcache|].
  intros ([y d] & Hid & Hy)%list_elem_of_fmap. simpl in Hid.
  assert (succeeded host self y) as Hsucceeded.
  { unfold succeeded. rewrite Hsel. apply list_elem_of_fmap. by exists (y, d). }
  apply Hfailed.
  by rewrite (NoDup_fmap_eq Multi.pws_id _ station y Hnodup Hin
                (succeeded_in_stations _ _ _ Hsucceeded) Hid).
Qed.

(** ** Coordinates over a whole refresh *)

Section Refresh.
Context (host : Host) (R : relation Multi.MultiStationUpdateCoordinator).
Context `{!Reflexive R, !Transitive R}.
Context (Hfetch : ∀ station, keeps R (Multi._fetch_station_data host station)).
Context (Hcache : ∀ d self, R self (Multi.set_station_data d self)).
Context (Hactive : ∀ a self, R self (Multi.set_active_station a self)).
Context (Hdata : ∀ v self, R self (Multi.set_data v self)).
Context (Htick : ∀ self, R self (Multi.tick self)).

Lemma fetch_all_keeps stations acc : keeps R (Multi.fetch_all host stations acc).
Proof using All.
  revert acc. induction stations as [|station stations IH]; intros acc; simpl.
  { apply (keeps_ret R). }
  keeps_steps R ltac:(apply Hcache) ltac:(first [apply IH | apply Hfetch]).
Qed.

Lemma update_cache_keeps successful_stations :
  keeps R (Multi.update_cache host successful_stations).
Proof using All.
  induction successful_stations as [|[station document] rest IH]; simpl.
  { apply (keeps_ret R). }
  keeps_steps R ltac:(apply Hcache) ltac:(first [apply IH | (intros ?; apply Htick)]).
Qed.

Lemma get_weather_keeps : keeps R (Multi.get_weather host).
Proof using All.
  unfold Multi.get_weather.
  keeps_steps R ltac:(first [apply Hactive | apply Hdata])
    ltac:(first [apply fetch_all_keeps | apply update_cache_keeps]).
Qed.

End Refresh.

(** A truthy coordinate survives every refresh of the multi-station
    coordinator. *)
Lemma multi_get_weather_keeps_coordinates host self :
  (truthy (Multi._latitude self) = true →
     Multi._latitude (Multi.get_weather host self).2 = Multi._latitude self) ∧
  (truthy (Multi._longitude self) = true →
     Multi._longitude (Multi.get_weather host self).2 = Multi._longitude self).
Proof.
  split.
  - apply (get_weather_keeps host (kept_if_set Multi._latitude));
      [apply multi_fetch_keeps_latitude | by intros ? ? ?..|by intros ? ?].
  - apply (get_weather_keeps host (kept_if_set Multi._longitude));
      [apply multi_fetch_keeps_longitude | by intros ? ? ?..|by intros ? ?].
Qed.

(** The same for the single-station coordinator. *)
Lemma single_get_weather_keeps_coordinates host self :
  (truthy (Single._latitude self) = true →
     Single._latitude (Single.get_weather host self).2 = Single._latitude self) ∧
  (truthy (Single._longitude self) = true →
     Single._longitude (Single.get_weather host self).2 = Single._longitude self).
Proof.
  split.
  - revert self. change (keeps (kept_if_set Single._latitude) (Single.get_weather host)).
    unfold Single.get_weather, Single.get_weather_body, Single.request.
    keeps_steps (kept_if_set Single._latitude) ltac:(by intros ?)
      ltac:(first [apply (keeps_guard Single._latitude); intros ? | by intros ? ?]).
  - revert self. change (keeps (kept_if_set Single._longitude) (Single.get_weather host)).
    unfold Single.get_weather, Single.get_weather_body, Single.request.
    keeps_steps (kept_if_set Single._longitude) ltac:(by intros ?)
      ltac:(first [apply (keeps_guard Single._longitude); intros ? | by intros ? ?]).
Qed.

(** ** The stations and the cache of the multi-station coordinator *)

(** X1.  [MultiStationUpdateCoordinator.__init__] keeps every configured
    station, each as often as it is configured, orders them by ascending
    priority number, and leaves the stations of one priority in the
    order of the configuration. *)
Theorem init_orders_stations_by_priority config :
  Multi._stations (Multi.__init__ config) ≡ₚ Multi.stations config ∧
  StronglySorted (λ a b, (Multi.priority a ≤ Multi.priority b)%Z)
    (Multi._stations (Multi.__init__ config)) ∧
  ∀ p, filter (λ a, Multi.priority a = p) (Multi._stations (Multi.__init__ config)) =
       filter (λ a, Multi.priority a = p) (Multi.stations config).
Proof.
  simpl. split; [apply sorted_perm|]. split; [apply sorted_ordered|].
  intros p. apply sorted_stable.
Qed.

(** One turn of the second loop of [get_weather]. *)
Lemma update_cache_cons host station document rest self :
  Multi.update_cache host ((station, document) :: rest) self =
    Multi.update_cache host rest
      (Multi.set_station_data
         (<[Multi.pws_id station :=
              {| Multi.entry_data := document;
                 Multi.last_update := loop_time host (Multi.io_step self) |}]>
            (Multi._station_data self))
         (Multi.tick self)).
Proof. reflexivity. Qed.

Lemma update_cache_dom host successful_stations self :
  dom (Multi._station_data (Multi.update_cache host successful_stations self).2) =
    dom (Multi._station_data self) ∪
    list_to_set ((λ fetch, Multi.pws_id fetch.1) <$> successful_stations).
Proof.
  revert self.
  induction successful_stations as [|[station document] rest IH]; intros self.
  { simpl. by rewrite (right_id_L ∅ (∪)). }
  rewrite update_cache_cons, IH. simpl.
  by rewrite dom_insert_L, (comm_L (∪) {[_]}), (assoc_L (∪)).
Qed.

Lemma update_cache_lookup host successful_stations self station document :
  NoDup ((λ fetch, Multi.pws_id fetch.1) <$> successful_stations) →
  (station, document) ∈ successful_stations →
  Multi.entry_data <$>
    Multi._station_data (Multi.update_cache host successful_stations self).2
      !! Multi.pws_id station = Some document.
Proof.
  revert self.
  induction successful_stations as [|[station' document'] rest IH]; intros self Hnodup Hin.
  { by apply elem_of_nil in Hin. }
  rewrite fmap_cons in Hnodup. apply NoDup_cons in Hnodup as [Hfresh Hnodup].
  rewrite update_cache_cons.
  apply elem_of_cons in Hin as [[= <- <-]|Hin].
  - rewrite update_cache_other by done. simpl. by rewrite lookup_insert_eq.
  - by apply IH.
Qed.

(** The stations of the successful fetches are stations of the cycle,
    in their order. *)
Lemma cycle_successes_sublist host self :
  (cycle_successes host self).*1 `sublist_of` Multi._stations self.
Proof.
  unfold cycle_successes.
  rewrite <-(cycle_fetches_stations host (Multi._stations self) self) at 2.
  apply fmap_sublist, sublist_filter.
Qed.

Lemma cycle_successes_NoDup host self :
  NoDup (Multi.pws_id <$> Multi._stations self) →
  NoDup ((λ fetch, Multi.pws_id fetch.1) <$> cycle_successes host self).
Proof.
  intros Hnodup.
  assert ((λ fetch : Multi.StationConfig * json, Multi.pws_id fetch.1) <$>
            cycle_successes host self =
          Multi.pws_id <$> (cycle_successes host self).*1) as ->.
  { by rewrite <-list_fmap_compose. }
  eapply sublist_NoDup; [done|]. apply fmap_sublist, cycle_successes_sublist.
Qed.

(** The cache after a refresh. *)
Lemma get_weather_station_data host self :
  Multi._station_data (Multi.get_weather host self).2 =
    Multi._station_data
      (Multi.update_cache host (cycle_successes host self)
         (match cycle_successes host self with
          | [] => cycle_end host (Multi._stations self) self
          | (selected, _) :: _ =>
              Multi.set_active_station selected (cycle_end host (Multi._stations self) self)
          end)).2.
Proof.
  rewrite get_weather_unfold.
  destruct (cycle_successes host self) as [|[selected document] rest]; done.
Qed.

(** X2.  A refresh only adds to the cache: the stations that have an
    entry after [get_weather] are those that had one before and those
    whose fetch succeeded in this cycle.  No entry is ever removed, so
    that a station that was ['online'] once stays so. *)
Theorem get_weather_only_adds_to_cache host self :
  dom (Multi._station_data (Multi.get_weather host self).2) =
    dom (Multi._station_data self) ∪
    list_to_set (Multi.pws_id <$> (cycle_successes host self).*1).
Proof.
  rewrite get_weather_station_data, update_cache_dom.
  destruct (cycle_end_same_cache host (Multi._stations self) self) as (Hcache & _).
  rewrite <-list_fmap_compose.
  destruct (cycle_successes host self) as [|[selected document] rest]; simpl;
    by rewrite Hcache.
Qed.

Lemma get_weather_station_lookup host self station document :
  NoDup (Multi.pws_id <$> Multi._stations self) →
  (station, document) ∈ cycle_successes host self →
  Multi.entry_data <$>
    Multi._station_data (Multi.get_weather host self).2 !! Multi.pws_id station =
    Some document.
Proof.
  intros Hnodup Hin. rewrite get_weather_station_data.
  apply update_cache_lookup; [by apply cycle_successes_NoDup|done].
Qed.

(** X3.  With distinct station ids, the cache holds after a refresh,
    for every station whose fetch succeeded in this cycle, the document
    that this fetch returned. *)
Theorem get_weather_caches_fetched_document host self station document :
  NoDup (Multi.pws_id <$> Multi._stations self) →
  (station, document) ∈ cycle_successes host self →
  Multi.entry_data <$>
    Multi._station_data (Multi.get_weather host self).2 !! Multi.pws_id station =
    Some document.
Proof. apply get_weather_station_lookup. Qed.

(** KXXTEST2 answers on [fallback_host]: its document is in the cache
    after the first refresh. *)
Lemma get_weather_caches_fetched_document_witness :
  NoDup (Multi.pws_id <$> Multi._stations (Multi.__init__ multi_config)) ∧
  (garden, garden_document) ∈ cycle_successes fallback_host (Multi.__init__ multi_config) ∧
  Multi.entry_data <$>
    Multi._station_data (Multi.get_weather fallback_host (Multi.__init__ multi_config)).2
      !! "KXXTEST2" = Some garden_document.
Proof.
  assert (NoDup (Multi.pws_id <$> Multi._stations (Multi.__init__ multi_config))) as Hnodup
    by by_computation.
  assert (∃ document,
            cycle_successes fallback_host (Multi.__init__ multi_config) =
              [(shed, document); (garden, garden_document)]) as [document Hcycle]
    by (eexists; vm_compute; reflexivity).
  assert ((garden, garden_document) ∈
            cycle_successes fallback_host (Multi.__init__ multi_config)) as Hin
    by (rewrite Hcycle; apply list_elem_of_further, list_elem_of_here).
  exact (conj Hnodup (conj Hin
           (get_weather_caches_fetched_document fallback_host (Multi.__init__ multi_config)
              garden garden_document Hnodup Hin))).
Defined.

(** X4.  With distinct station ids, a refresh keeps the published
    document in step with the cache: after [get_weather], the document
    of the coordinator is the cached document of its active station,
    whether the cycle succeeded or every station failed. *)
Theorem get_weather_publishes_cached_document host self :
  NoDup (Multi.pws_id <$> Multi._stations self) →
  publishes_active_document self →
  publishes_active_document (Multi.get_weather host self).2.
Proof.
  intros Hnodup Hbefore. unfold publishes_active_document.
  destruct (cycle_successes host self) as [|[selected document] rest] eqn:Hsel.
  - rewrite get_weather_unfold, Hsel. cbv beta iota zeta. cbn [snd].
    destruct (cycle_end_same_cache host (Multi._stations self) self)
      as (Hcache & Hactive & Hdata & _).
    unfold Multi.active_station. rewrite Hactive, Hcache, Hdata. apply Hbefore.
  - destruct (get_weather_selected host self selected document rest Hsel)
      as (_ & -> & ->).
    apply get_weather_station_lookup; [done|].
    rewrite Hsel. apply list_elem_of_here.
Qed.

(** A coordinator that has not refreshed yet publishes no document;
    after its first refresh on [fallback_host] the document is the
    cached one of KXXTEST3. *)
Lemma get_weather_publishes_cached_document_witness :
  NoDup (Multi.pws_id <$> Multi._stations (Multi.__init__ multi_config)) ∧
  publishes_active_document (Multi.__init__ multi_config) ∧
  publishes_active_document
    (Multi.get_weather fallback_host (Multi.__init__ multi_config)).2.
Proof.
  assert (NoDup (Multi.pws_id <$> Multi._stations (Multi.__init__ multi_config))) as Hnodup
    by by_computation.
  assert (publishes_active_document (Multi.__init__ multi_config)) as Hinit
    by reflexivity.
  exact (conj Hnodup (conj Hinit
           (get_weather_publishes_cached_document fallback_host (Multi.__init__ multi_config)
              Hnodup Hinit))).
Defined.

(** ** The status report *)

Section DictComprehension.
Context {A V : Type} (key : A → string) (value : A → V).

(** A dict comprehension [{key(x): value(x) for x in l}]. *)
Lemma comprehension_other (l : list A) (acc : gmap string V) k :
  k ∉ key <$> l →
  foldl (λ acc x, <[key x := value x]> acc) acc l !! k = acc !! k.
Proof.
  revert acc. induction l as [|x l IH]; intros acc Hk; [done|].
  rewrite fmap_cons in Hk. apply not_elem_of_cons in Hk as [Hne Hk].
  simpl. rewrite IH by done. by rewrite lookup_insert_ne.
Qed.

Lemma comprehension_lookup (l : list A) (acc : gmap string V) x :
  NoDup (key <$> l) → x ∈ l →
  foldl (λ acc x, <[key x := value x]> acc) acc l !! key x = Some (value x).
Proof.
  revert acc. induction l as [|y l IH]; intros acc Hnodup Hin.
  { by apply elem_of_nil in Hin. }
  rewrite fmap_cons in Hnodup. apply NoDup_cons in Hnodup as [Hfresh Hnodup].
  simpl. apply elem_of_cons in Hin as [->|Hin].
  - rewrite comprehension_other by done. by rewrite lookup_insert_eq.
  - by apply IH.
Qed.

Lemma comprehension_dom (l : list A) (acc : gmap string V) :
  dom (foldl (λ acc x, <[key x := value x]> acc) acc l) = dom acc ∪ list_to_set (key <$> l).
Proof.
  revert acc. induction l as [|x l IH]; intros acc.
  { simpl. by rewrite (right_id_L ∅ (∪)). }
  simpl. rewrite IH.
  by rewrite dom_insert_L, (comm_L (∪) {[_]}), (assoc_L (∪)).
Qed.

End DictComprehension.

(** X5.  The status report has one entry for each configured station
    id and no other.  With distinct ids, the entry of a station carries
    its name and its priority; it is marked active exactly for the
    active station, and ['online'] exactly when the cache holds a
    document of the station, with the time of that document. *)
Theorem station_status_reports_every_station self station :
  NoDup (Multi.pws_id <$> Multi._stations self) →
  station ∈ Multi._stations self →
  dom (Multi.station_status self) = list_to_set (Multi.pws_id <$> Multi._stations self) ∧
  ∃ report,
    Multi.station_status self !! Multi.pws_id station = Some report ∧
    Multi.status_name report = Multi.name station ∧
    Multi.status_priority report = Multi.priority station ∧
    (Multi.active report = true ↔
       ∃ a, Multi.active_station self = Some a ∧ Multi.pws_id a = Multi.pws_id station) ∧
    (Multi.status report = "online" ↔
       is_Some (Multi._station_data self !! Multi.pws_id station)) ∧
    (Multi.status report = "offline" ↔
       Multi._station_data self !! Multi.pws_id station = None) ∧
    Multi.status_last_update report =
      Multi.last_update <$> Multi._station_data self !! Multi.pws_id station.
Proof.
  intros Hnodup Hin. unfold Multi.station_status. split.
  { rewrite comprehension_dom, dom_empty_L. by rewrite (left_id_L ∅ (∪)). }
  eexists. split; [by apply comprehension_lookup|]. simpl.
  split; [done|]. split; [done|]. split; [|split; [|split; [|done]]].
  - unfold Multi.active_station.
    destruct (Multi._active_station self) as [a|]; split.
    + intros Ha%bool_decide_eq_true. by exists a.
    + intros (a' & [= <-] & Ha). by apply bool_decide_eq_true.
    + done.
    + by intros (a' & [=] & _).
  - case_bool_decide as Hcached; split; done.
  - case_bool_decide as Hcached; split; try done.
    + intros Hnone. rewrite Hnone in Hcached. by destruct Hcached.
    + intros _. by apply eq_None_not_Some.
Qed.

(** The roof station in the initial state of the sample coordinator:
    offline, not active. *)
Lemma station_status_reports_every_station_witness :
  NoDup (Multi.pws_id <$> Multi._stations (Multi.__init__ multi_config)) ∧
  roof ∈ Multi._stations (Multi.__init__ multi_config) ∧
  dom (Multi.station_status (Multi.__init__ multi_config)) =
    list_to_set (Multi.pws_id <$> Multi._stations (Multi.__init__ multi_config)) ∧
  ∃ report,
    Multi.station_status (Multi.__init__ multi_config) !! "KXXTEST1" = Some report ∧
    Multi.status_name report = "Roof" ∧
    Multi.status report = "offline".
Proof.
  assert (NoDup (Multi.pws_id <$> Multi._stations (Multi.__init__ multi_config))) as Hnodup
    by by_computation.
  assert (roof ∈ Multi._stations (Multi.__init__ multi_config)) as Hin by by_computation.
  destruct (station_status_reports_every_station (Multi.__init__ multi_config) roof
              Hnodup Hin) as (Hdom & report & Hreport & Hname & _ & _ & _ & Hoffline & _).
  exact (conj Hnodup (conj Hin (conj Hdom
           (ex_intro _ report (conj Hreport (conj Hname (proj2 Hoffline eq_refl))))))).
Defined.

(** ** What a successful fetch has seen *)

(** The first block of a fetch returns only after a response of status
    200 whose body is a JSON object with observations and without
    errors. *)
Lemma fetch_current_returns host station self result_current self1 :
  Multi.fetch_current host station self = (Ok result_current, self1) →
  ∃ text current observations,
    result_current = JObj current ∧
    http_get host (Multi.io_step self)
      (current_url (Multi.pws_id station) (Multi._numeric_precision self)
         (Multi._api_key self) (Multi._unit_system_api self)) =
      Response 200 text (Json (JObj current)) ∧
    dict_lookup FIELD_OBSERVATIONS current = Some observations ∧
    truthy observations = true ∧
    Base._check_errors
      (current_url (Multi.pws_id station) (Multi._numeric_precision self)
         (Multi._api_key self) (Multi._unit_system_api self)) (JObj current) = Ok ().
Proof.
  unfold Multi.fetch_current.
  cbv [mbind st_bind st_read Multi.session_get].
  rewrite multi_build_url_current.
  set (url := current_url _ _ _ _).
  destruct (http_get host (Multi.io_step self) url) as [e|status text payload] eqn:Hget;
    [done|].
  destruct (Z.eqb_spec status 200) as [->|]; [|done].
  destruct payload as [|result]; [done|].
  cbn [negb st_lift response_json fst snd].
  destruct result as [| | |s|items|current]; try done.
  - cbn [py_contains]. destruct (is_substring FIELD_OBSERVATIONS s); [|done].
    cbn [getitem]. done.
  - cbn [py_contains]. destruct (existsb _ items); [|done]. cbn [getitem]. done.
  - cbn [py_contains getitem].
    destruct (dict_lookup FIELD_OBSERVATIONS current) as [observations|] eqn:Hobs.
    2: { rewrite bool_decide_eq_false_2 by (by intros []). done. }
    rewrite bool_decide_eq_true_2 by done. cbn [negb orb].
    destruct (truthy observations) eqn:Htruthy; [|done]. cbn [negb].
    unfold Multi._check_errors.
    destruct (Base._check_errors url (JObj current)) as [[]|e] eqn:Hcheck; [|done].
    intros Hrest. exists text, current, observations.
    assert (result_current = JObj current) as ->; [|done].
    revert Hrest. cbv [st_gets st_modify mret st_ret].
    repeat (case_match; simplify_eq/=); congruence.
Qed.

(** The first block performs one request. *)
Lemma fetch_current_io_step host station self :
  Multi.io_step (Multi.fetch_current host station self).2 = S (Multi.io_step self).
Proof.
  unfold Multi.fetch_current.
  cbv [mbind st_bind st_read Multi.session_get].
  rewrite multi_build_url_current.
  destruct (http_get host (Multi.io_step self) _) as [e|status text payload]; [done|].
  destruct (negb (status =? 200)%Z); [done|].
  destruct payload as [|result]; [done|].
  cbv [st_gets st_modify mret st_ret st_lift st_raise response_json].
  repeat (case_match; simplify_eq/=); done.
Qed.

#[local] Instance same_settings_refl : Reflexive same_settings.
Proof. by intros self. Qed.

#[local] Instance same_settings_trans : Transitive same_settings.
Proof.
  intros a b c (? & ? & ? & ? & ?) (? & ? & ? & ? & ?). unfold same_settings.
  split_and!; congruence.
Qed.

Lemma fetch_current_same_settings host station :
  keeps same_settings (Multi.fetch_current host station).
Proof.
  unfold Multi.fetch_current, Multi.session_get.
  keeps_steps same_settings ltac:(done) ltac:(by intros ?).
Qed.

(** The second block of a fetch returns only after a response of status
    200 whose body is JSON without errors. *)
Lemma fetch_forecast_returns host station self1 result_forecast self2 :
  Multi.fetch_forecast host station self1 = (Ok result_forecast, self2) →
  ∃ text,
    http_get host (Multi.io_step self1)
      (forecast_url (py_str host (Multi._latitude self1))
         (py_str host (Multi._longitude self1)) (Multi._lang self1)
         (Multi._api_key self1) (Multi._unit_system_api self1)) =
      Response 200 text (Json result_forecast) ∧
    Base._check_errors
      (forecast_url (py_str host (Multi._latitude self1))
         (py_str host (Multi._longitude self1)) (Multi._lang self1)
         (Multi._api_key self1) (Multi._unit_system_api self1)) result_forecast = Ok ().
Proof.
  unfold Multi.fetch_forecast.
  cbv [mbind st_bind st_read Multi.session_get].
  rewrite multi_build_url_forecast.
  set (url := forecast_url _ _ _ _ _).
  destruct (http_get host (Multi.io_step self1) url) as [e|status text payload] eqn:Hget;
    [done|].
  destruct (Z.eqb_spec status 200) as [->|]; [|done].
  destruct payload as [|result]; [done|].
  cbn [negb st_lift response_json fst snd]. unfold Multi._check_errors.
  intros Hrest. exists text.
  destruct (Base._check_errors url result) as [[]|e] eqn:Hcheck.
  - assert (result_forecast = result) as ->; [|done].
    revert Hrest. cbv [st_raise mret st_ret].
    repeat (case_match; simplify_eq/=); congruence.
  - exfalso. revert Hrest. cbv [st_raise mret st_ret].
    repeat (case_match; simplify_eq/=); congruence.
Qed.

(** X6.  Soundness of a fetch of the multi-station coordinator: if
    [_fetch_station_data] returns a document, then both requests were
    answered with status 200 and a JSON object, the current conditions
    held a non-empty ['observations'] value, neither payload carried a
    non-empty error list (both passed [_check_errors]), and the document
    is the merge of the two payloads.  The forecast request is the one
    for the coordinates that the coordinator holds after the first
    block. *)
Theorem fetch_returns_merged_payloads host station self document :
  (Multi._fetch_station_data host station self).1 = Ok document →
  truthy document = true →
  ∃ text current observations text' forecast,
    http_get host (Multi.io_step self)
      (current_url (Multi.pws_id station) (Multi._numeric_precision self)
         (Multi._api_key self) (Multi._unit_system_api self)) =
      Response 200 text (Json (JObj current)) ∧
    dict_lookup FIELD_OBSERVATIONS current = Some observations ∧
    truthy observations = true ∧
    Base._check_errors
      (current_url (Multi.pws_id station) (Multi._numeric_precision self)
         (Multi._api_key self) (Multi._unit_system_api self)) (JObj current) = Ok () ∧
    http_get host (S (Multi.io_step self))
      (forecast_url
         (py_str host (Multi._latitude (Multi.fetch_current host station self).2))
         (py_str host (Multi._longitude (Multi.fetch_current host station self).2))
         (Multi._lang self) (Multi._api_key self) (Multi._unit_system_api self)) =
      Response 200 text' (Json (JObj forecast)) ∧
    Base._check_errors
      (forecast_url
         (py_str host (Multi._latitude (Multi.fetch_current host station self).2))
         (py_str host (Multi._longitude (Multi.fetch_current host station self).2))
         (Multi._lang self) (Multi._api_key self) (Multi._unit_system_api self))
      (JObj forecast) = Ok () ∧
    dict_merge (JObj current) (JObj forecast) = Ok document.
Proof.
  intros Hfetch Htruthy.
  rewrite fetch_station_data_returns in Hfetch.
  assert ((Multi.fetch_station_body host station self).1 = Ok document) as Hbody.
  { destruct (Multi.fetch_station_body host station self).1; simplify_eq; done. }
  clear Hfetch. revert Hbody.
  unfold Multi.fetch_station_body. cbv [mbind st_bind].
  pose proof (fetch_current_io_step host station self) as Hstep.
  pose proof (fetch_current_same_settings host station self) as (Hkey & Hunits & Hlang & _).
  destruct (Multi.fetch_current host station self) as [[result_current|e] self1] eqn:Hcurrent;
    [|done].
  cbn [snd] in *.
  pose proof Hcurrent as Hreturns. apply fetch_current_returns in Hreturns
    as (text & current & observations & -> & Hget & Hobs & Hobs_truthy & Hcheck).
  destruct (Multi.fetch_forecast host station self1) as [[result_forecast|e] self2]
    eqn:Hforecast; [|done].
  apply fetch_forecast_returns in Hforecast as (text' & Hget' & Hcheck').
  cbn [fst snd st_lift] in *. intros Hmerge.
  destruct result_forecast as [| | | | |forecast]; try done.
  exists text, current, observations, text', forecast.
  rewrite Hstep, Hlang, Hkey, Hunits in Hget'. rewrite Hlang, Hkey, Hunits in Hcheck'.
  done.
Qed.

(** The first fetch of KXXTEST2 on [fallback_host]. *)
Lemma fetch_returns_merged_payloads_witness :
  (Multi._fetch_station_data fallback_host garden (Multi.__init__ multi_config)).1 =
    Ok garden_document ∧
  truthy garden_document = true ∧
  ∃ current forecast,
    dict_lookup FIELD_OBSERVATIONS current ≠ None ∧
    dict_merge (JObj current) (JObj forecast) = Ok garden_document.
Proof.
  assert ((Multi._fetch_station_data fallback_host garden (Multi.__init__ multi_config)).1 =
            Ok garden_document) as Hfetch by (vm_compute; reflexivity).
  assert (truthy garden_document = true) as Htruthy by reflexivity.
  destruct (fetch_returns_merged_payloads fallback_host garden (Multi.__init__ multi_config)
              garden_document Hfetch Htruthy)
    as (text & current & observations & text' & forecast & _ & Hobs & _ & _ & _ & _ & Hmerge).
  assert (dict_lookup FIELD_OBSERVATIONS current ≠ None) as Hsome by (by rewrite Hobs).
  exact (conj Hfetch (conj Htruthy
           (ex_intro _ current (ex_intro _ forecast (conj Hsome Hmerge))))).
Defined.

(** ** The error check and the merge *)

(** X7.  [_check_errors], the same in the three coordinator classes,
    accepts a JSON object exactly when it has no ['errors'] value or an
    empty one ([None], an empty list): whatever a non-empty error list
    holds, the check raises. *)
Theorem check_errors_accepts_exactly_error_free url doc :
  Base._check_errors url (JObj doc) = Ok () ↔
  truthy (default JNull (dict_lookup "errors" doc)) = false.
Proof.
  unfold Base._check_errors. cbn [py_contains mbind exc_bind getitem].
  destruct (dict_lookup "errors" doc) as [errors|] eqn:Hlookup.
  2: { rewrite bool_decide_eq_false_2 by (by intros []). done. }
  rewrite bool_decide_eq_true_2 by done. cbn [negb default mbind exc_bind id].
  destruct (truthy errors); [|done].
  split; [|done].
  destruct (py_iter errors) as [items|e]; [|done]. cbn [mbind exc_bind].
  destruct (exc_map _ items) as [messages|e]; [|done]. cbn [mbind exc_bind].
  by destruct (str_join _ messages).
Qed.

(** [{**a, **b}] on dicts: the keys of [b] take their values from [b]. *)
Lemma dict_set_lookup {V} k k' (v : V) d :
  dict_lookup k (dict_set k' v d) = if decide (k = k') then Some v else dict_lookup k d.
Proof.
  induction d as [|[k0 v0] d IH]; simpl.
  { by destruct (decide (k = k')). }
  destruct (decide (k' = k0)) as [->|Hne]; simpl.
  - by destruct (decide (k = k0)).
  - rewrite IH. destruct (decide (k = k0)) as [->|]; [|done].
    by rewrite decide_False by done.
Qed.

Lemma dict_update_lookup (a b : list (string * json)) k :
  NoDup b.*1 →
  dict_lookup k (foldl (λ acc kv, dict_set kv.1 kv.2 acc) a b) =
    match dict_lookup k b with Some v => Some v | None => dict_lookup k a end.
Proof.
  revert a. induction b as [|[k' v'] b IH]; intros a Hnodup; [done|].
  rewrite fmap_cons in Hnodup. apply NoDup_cons in Hnodup as [Hfresh Hnodup].
  simpl. rewrite IH by done. rewrite dict_set_lookup.
  destruct (decide (k = k')) as [->|]; [|done].
  destruct (dict_lookup k' b) as [v|] eqn:Hb; [|done].
  exfalso. apply Hfresh. clear -Hb.
  induction b as [|[k0 v0] b IH]; [done|]. simpl in Hb.
  destruct (decide (k' = k0)) as [->|]; [by left|]. right. by apply IH.
Qed.

(** X8.  The document of a station is the current-conditions payload
    overlaid with the forecast payload ([{**result_current,
    **result_forecast}] in both coordinators): a key of the forecast
    payload has the forecast's value, also when the current conditions
    have the key; every other key has the value of the current
    conditions. *)
Theorem merged_document_prefers_forecast result_current result_forecast field :
  NoDup result_forecast.*1 →
  ∃ result,
    dict_merge (JObj result_current) (JObj result_forecast) = Ok (JObj result) ∧
    dict_lookup field result =
      match dict_lookup field result_forecast with
      | Some v => Some v
      | None => dict_lookup field result_current
      end.
Proof.
  intros Hnodup. eexists. split; [reflexivity|]. by apply dict_update_lookup.
Qed.

(** Current conditions with a stale error list under a forecast whose
    ['errors'] is [None]: the document has the value of the forecast. *)
Lemma merged_document_prefers_forecast_witness :
  NoDup [("temperatureMax", JArr [JNum 10]); ("errors", JNull)].*1 ∧
  ∃ result,
    dict_merge (JObj [("observations", JArr []); ("errors", JArr [JStr "stale"])])
      (JObj [("temperatureMax", JArr [JNum 10]); ("errors", JNull)]) = Ok (JObj result) ∧
    dict_lookup "errors" result = Some JNull.
Proof.
  assert (NoDup [("temperatureMax", JArr [JNum 10]); ("errors", JNull)].*1) as Hnodup
    by by_computation.
  exact (conj Hnodup
           (merged_document_prefers_forecast
              [("observations", JArr []); ("errors", JArr [JStr "stale"])]
              [("temperatureMax", JArr [JNum 10]); ("errors", JNull)] "errors" Hnodup)).
Defined.

(** ** The requests of a refresh *)

(** The second block performs one request. *)
Lemma fetch_forecast_io_step host station self :
  Multi.io_step (Multi.fetch_forecast host station self).2 = S (Multi.io_step self).
Proof.
  unfold Multi.fetch_forecast.
  cbv [mbind st_bind st_read Multi.session_get].
  rewrite multi_build_url_forecast.
  destruct (http_get host (Multi.io_step self) _) as [e|status text payload]; [done|].
  destruct (negb (status =? 200)%Z); [done|].
  destruct payload as [|result]; [done|].
  cbv [st_gets st_modify mret st_ret st_lift st_raise response_json].
  repeat (case_match; simplify_eq/=); done.
Qed.

(** The handler of a fetch builds the two URLs for its log and leaves
    the coordinator as it is. *)
Lemma fetch_station_handler_returns host station e self :
  Multi.fetch_station_handler host station e self = (Ok JNull, self).
Proof.
  unfold Multi.fetch_station_handler.
  cbv [mbind st_bind st_try st_read mret st_ret].
  by rewrite multi_build_url_current, multi_build_url_forecast.
Qed.

(** A fetch performs one request if its first block fails and two
    otherwise. *)
Lemma fetch_station_data_io_step host station self :
  Multi.io_step (Multi._fetch_station_data host station self).2 =
    match (Multi.fetch_current host station self).1 with
    | Ok _ => S (S (Multi.io_step self))
    | Raise _ => S (Multi.io_step self)
    end.
Proof.
  unfold Multi._fetch_station_data, Multi.fetch_station_body, st_try.
  cbv [mbind st_bind].
  pose proof (fetch_current_io_step host station self) as Hcurrent.
  destruct (Multi.fetch_current host station self) as [[result_current|e] self1];
    cbn [fst snd] in *.
  2: { rewrite fetch_station_handler_returns. done. }
  pose proof (fetch_forecast_io_step host station self1) as Hforecast.
  destruct (Multi.fetch_forecast host station self1) as [[result_forecast|e] self2];
    cbn [fst snd] in *.
  2: { rewrite fetch_station_handler_returns. simpl. congruence. }
  unfold st_lift.
  destruct (dict_merge result_current result_forecast); cbn [is_Exception];
    rewrite ?fetch_station_handler_returns; simpl; congruence.
Qed.

Lemma cycle_end_io_step host stations self :
  (Multi.io_step self + length stations ≤ Multi.io_step (cycle_end host stations self))%nat ∧
  (Multi.io_step (cycle_end host stations self) ≤
     Multi.io_step self + 2 * length stations)%nat.
Proof.
  revert self. induction stations as [|station stations IH]; intros self.
  { simpl. lia. }
  cbn [cycle_end length].
  specialize (IH (Multi._fetch_station_data host station self).2).
  rewrite fetch_station_data_io_step in IH.
  destruct (Multi.fetch_current host station self).1; lia.
Qed.

Lemma update_cache_io_step host successful_stations self :
  Multi.io_step (Multi.update_cache host successful_stations self).2 =
    (Multi.io_step self + length successful_stations)%nat.
Proof.
  revert self.
  induction successful_stations as [|[station document] rest IH]; intros self.
  { simpl. lia. }
  rewrite update_cache_cons, IH. simpl. lia.
Qed.

(** X9.  A refresh of the multi-station coordinator asks every
    configured station, whether or not a station of higher priority has
    answered: it performs at least one and at most two requests for
    each station, and reads the clock once for each station that
    succeeded. *)
Theorem get_weather_requests_every_station host self :
  (Multi.io_step self + length (Multi._stations self) + length (cycle_successes host self)
     ≤ Multi.io_step (Multi.get_weather host self).2)%nat ∧
  (Multi.io_step (Multi.get_weather host self).2
     ≤ Multi.io_step self + 2 * length (Multi._stations self) +
       length (cycle_successes host self))%nat.
Proof.
  rewrite get_weather_unfold.
  pose proof (cycle_end_io_step host (Multi._stations self) self) as Hcycle.
  destruct (cycle_successes host self) as [|[selected document] rest];
    cbv beta iota zeta; cbn [snd].
  { simpl. lia. }
  unfold Multi.set_data at 1 2. cbn [Multi.io_step].
  rewrite update_cache_io_step. simpl. lia.
Qed.

(** ** The refresh of the single-station coordinator *)

Section Outcome.
Context {S : Type}.

Lemma outcome_keeps_bind {A B} (R : relation S) (m : st S A) (f : A → st S B) s Q E :
  keeps R m →
  (∀ e s', R s s' → E e s') →
  (∀ a s', R s s' → outcome (f a) s' Q E) →
  outcome (m ≫= f) s Q E.
Proof.
  intros Hm HE Hf. unfold outcome, mbind, st_bind. specialize (Hm s).
  destruct (m s) as [[a|e] s']; simpl in Hm; [by apply Hf | by apply HE].
Qed.

Lemma outcome_lift_bind {A B} (e : exc A) (f : A → st S B) s Q (E : exn → S → Prop) :
  match e with Ok a => outcome (f a) s Q E | Raise x => E x s end →
  outcome (st_lift e ≫= f) s Q E.
Proof. unfold outcome, mbind, st_bind, st_lift. by destruct e. Qed.

End Outcome.

#[local] Instance same_document_refl : Reflexive same_document.
Proof. by intros self. Qed.

#[local] Instance same_document_trans : Transitive same_document.
Proof. unfold same_document. intros a b c ? ?. congruence. Qed.

Lemma single_request_same_document host baseurl empty :
  keeps same_document (Single.request host baseurl empty).
Proof.
  unfold Single.request, Single.session_get.
  keeps_steps same_document ltac:(done) ltac:(by intros ?).
Qed.

(** The body of [get_weather] assigns the document in its last step. *)
Lemma single_get_weather_body_outcome host self :
  outcome (Single.get_weather_body host) self
    (λ result self', ∃ members, result = JObj members ∧ Single.data self' = result)
    (λ _ self', Single.data self' = Single.data self).
Proof.
  unfold Single.get_weather_body.
  assert (∀ s s', same_document self s → same_document s s' →
                  Single.data s' = Single.data self) as Hstep
    by (unfold same_document; intros; congruence).
  apply (outcome_keeps_bind same_document);
    [apply single_request_same_document | by intros | intros result_current self1 H1].
  apply (outcome_keeps_bind same_document);
    [apply (keeps_gets same_document) | by eauto | intros lon self2 H2%(Hstep _ _ H1)].
  apply (outcome_keeps_bind same_document);
    [keeps_steps same_document ltac:(done) ltac:(fail)
    | by eauto | intros _ self3 H3%(Hstep _ _ H2)].
  apply (outcome_keeps_bind same_document);
    [apply (keeps_gets same_document) | by eauto | intros lat self4 H4%(Hstep _ _ H3)].
  apply (outcome_keeps_bind same_document);
    [keeps_steps same_document ltac:(done) ltac:(fail)
    | by eauto | intros _ self5 H5%(Hstep _ _ H4)].
  apply (outcome_keeps_bind same_document);
    [apply single_request_same_document | by eauto
    | intros result_forecast self6 H6%(Hstep _ _ H5)].
  apply outcome_lift_bind.
  destruct (dict_merge result_current result_forecast) as [result|e] eqn:Hmerge; [|done].
  unfold outcome. cbv [mbind st_bind st_modify mret st_ret]. simpl.
  destruct result_current, result_forecast; simplify_eq/=. eauto.
Qed.

(** X10.  The single-station [get_weather] assigns the document only
    when it succeeds.  It returns a JSON object, which is then the
    document; or it returns [None] for a [ValueError], a timeout or a
    client error, or raises any other exception, and the document is
    still the one of the last successful refresh. *)
Theorem single_get_weather_assigns_on_success host self :
  match (Single.get_weather host self).1 with
  | Ok (JObj members) =>
      Single.data (Single.get_weather host self).2 = JObj members
  | Ok JNull =>
      Single.data (Single.get_weather host self).2 = Single.data self
  | Ok _ => False
  | Raise e =>
      is_ValueError e = false ∧ is_Timeout_or_ClientError e = false ∧
      Single.data (Single.get_weather host self).2 = Single.data self
  end.
Proof.
  pose proof (single_get_weather_body_outcome host self) as Hbody.
  unfold Single.get_weather, st_try. unfold outcome in Hbody.
  destruct (Single.get_weather_body host self) as [[result|e] self'].
  - destruct Hbody as (members & -> & Hdata). done.
  - destruct (is_ValueError e || is_Timeout_or_ClientError e) eqn:Hcaught; simpl.
    + done.
    + by apply orb_false_elim in Hcaught as [-> ->].
Qed.

Lemma st_bind_ext {S A B} (m m' : st S A) (f f' : A → st S B) s :
  m s = m' s → (∀ a s', f a s' = f' a s') → (m ≫= f) s = (m' ≫= f') s.
Proof.
  intros Hm Hf. unfold mbind, st_bind. rewrite Hm.
  destruct (m' s) as [[a|e] s']; [apply Hf|done].
Qed.

Lemma single_request_recode status text host baseurl empty self :
  Single.request (recode status text host) baseurl empty self =
    Single.request host baseurl empty self.
Proof.
  unfold Single.request. cbv [mbind st_bind st_read Single.session_get].
  change (Single._build_url (recode status text host) self baseurl)
    with (Single._build_url host self baseurl).
  destruct (Single._build_url host self baseurl) as [url|e]; [|done]. simpl.
  by destruct (http_get host (Single.io_step self) url).
Qed.

(** X11.  The single-station [get_weather] never looks at the status
    code of a response, nor at its text: on a host that sends the same
    bodies under other status codes it returns the same result and
    leaves the same state.  (The multi-station fetch rejects every
    status other than 200.) *)
Theorem single_get_weather_ignores_status status text host self :
  Single.get_weather (recode status text host) self = Single.get_weather host self.
Proof.
  unfold Single.get_weather, st_try.
  assert (Single.get_weather_body (recode status text host) self =
            Single.get_weather_body host self) as ->; [|done].
  unfold Single.get_weather_body.
  repeat (apply st_bind_ext; [first [apply single_request_recode | reflexivity]|intros ? ?]).
  reflexivity.
Qed.

(** ** The weather entity *)

(** The loop of [_iconcode_to_condition] returns [None] or a condition
    of the dict that lists the code. *)
Lemma iconcode_lookup_found icon_condition_map icon_code :
  iconcode_lookup icon_condition_map icon_code = JNull ∨
  ∃ condition iconcodes n,
    iconcode_lookup icon_condition_map icon_code = JStr condition ∧
    (condition, iconcodes) ∈ icon_condition_map ∧
    n ∈ iconcodes ∧ json_eq_int icon_code n = true.
Proof.
  induction icon_condition_map as [|[condition iconcodes] rest IH]; simpl; [by left|].
  destruct (existsb (json_eq_int icon_code) iconcodes) eqn:Hcodes.
  - right. apply existsb_exists in Hcodes as (n & Hn & Heq).
    exists condition, iconcodes, n. split_and!; [done|by left|by apply list_elem_of_In|done].
  - destruct IH as [->|(c & codes & n & -> & Hc & Hn & Heq)]; [by left|].
    right. exists c, codes, n. split_and!; [done|by right|done|done].
Qed.

Lemma iconcode_to_condition_found icon_condition_map icon_code :
  _iconcode_to_condition icon_condition_map icon_code = JNull ∨
  ∃ condition iconcodes,
    _iconcode_to_condition icon_condition_map icon_code = JStr condition ∧
    (condition, iconcodes) ∈ icon_condition_map.
Proof.
  assert (iconcode_lookup icon_condition_map icon_code = JNull ∨
          ∃ condition iconcodes,
            iconcode_lookup icon_condition_map icon_code = JStr condition ∧
            (condition, iconcodes) ∈ icon_condition_map) as Hlookup.
  { destruct (iconcode_lookup_found icon_condition_map icon_code)
      as [?|(c & codes & n & ? & ? & _)]; eauto. }
  destruct icon_code; simpl; auto.
Qed.

(** Membership in a list that is written out. *)
Ltac in_list := repeat first [by apply list_elem_of_here | apply list_elem_of_further].

(** The estimate from the solar radiation returns [None] or one of its
    three conditions, whatever the coordinator. *)
Lemma estimate_condition_range coordinator v :
  Weather._estimate_condition_from_solar_radiation coordinator = Ok v →
  v ∈ [JNull; JStr "sunny"; JStr "partlycloudy"; JStr "cloudy"].
Proof.
  unfold Weather._estimate_condition_from_solar_radiation.
  destruct (Weather.get_condition coordinator "solarRadiation") as [radiation|e];
    cbn [mbind exc_bind try_except].
  2: { destruct (is_TypeError e || is_KeyError e); [|done].
       intros [= <-]. in_list. }
  destruct radiation as [|b|q| | |]; cbn [py_gt_int mbind exc_bind try_except orb is_TypeError];
    try (intros [= <-]; in_list).
  - repeat case_match; intros [= <-]; in_list.
  - repeat case_match; intros [= <-]; in_list.
Qed.

(** [get_forecast] returns for every period that a caller passes. *)
Lemma base_get_forecast_returns data field p :
  (0 ≤ p < 2 ^ 53)%Z → ∃ v, Base.get_forecast data field p = Ok v.
Proof.
  intros Hp. destruct (decide (field ∈ Base.full_day_fields)) as [Hf|Hf].
  - rewrite get_forecast_full_day by done. eauto.
  - rewrite get_forecast_daypart by done. eauto.
Qed.

(** The single-station [get_condition] raises nothing but the errors
    of a subscript. *)
Lemma single_get_condition_lookup_error self field e :
  Single.get_condition self field = Raise e → is_Index_Type_or_KeyError e = true.
Proof.
  unfold Single.get_condition. cbv [mbind exc_bind]. intros He.
  repeat case_match; simplify_eq; by eapply getitem_raises.
Qed.

(** X12.  The property [condition] of the weather entity never raises
    on a single-station coordinator, whatever its document and also
    before the first refresh: the errors of the unguarded
    [get_condition] of that coordinator are handled, by the estimate
    ([TypeError], [KeyError]) or by the property itself
    ([IndexError]). *)
Theorem single_condition_never_raises icon_condition_map iconcode self calendarday :
  ∃ v, Weather.condition icon_condition_map iconcode (Weather.of_single self calendarday)
       = Ok v.
Proof.
  unfold Weather.condition. cbn [Weather.get_forecast Weather.of_single].
  unfold Single.get_forecast.
  destruct (base_get_forecast_returns (Single.data self) iconcode 0) as [day ->]; [lia|].
  destruct (base_get_forecast_returns (Single.data self) iconcode 1) as [night ->]; [lia|].
  cbn [mbind exc_bind].
  destruct (truthy (_iconcode_to_condition icon_condition_map (py_or day night)));
    [by eexists|].
  unfold Weather._estimate_condition_from_solar_radiation.
  cbn [Weather.get_condition Weather.of_single].
  destruct (Single.get_condition self "solarRadiation") as [radiation|e] eqn:Hcondition;
    cbn [mbind exc_bind try_except].
  2: { apply single_get_condition_lookup_error in Hcondition.
       destruct e; try done; simpl; by eexists. }
  destruct radiation as [|b|q| | |];
    cbn [py_gt_int mbind exc_bind try_except orb is_TypeError is_Index_Type_or_KeyError];
    try by eexists.
  - repeat case_match; by eexists.
  - repeat case_match; by eexists.
Qed.

(** X13.  Whatever the coordinator, a condition that the weather entity
    reports is [None], a key of [ICON_CONDITION_MAP], or one of the
    three conditions of the estimate from the solar radiation. *)
Theorem condition_is_mapped_or_estimated icon_condition_map iconcode coordinator v :
  Weather.condition icon_condition_map iconcode coordinator = Ok v →
  v = JNull ∨
  (∃ condition iconcodes, v = JStr condition ∧ (condition, iconcodes) ∈ icon_condition_map) ∨
  v ∈ [JStr "sunny"; JStr "partlycloudy"; JStr "cloudy"].
Proof.
  unfold Weather.condition.
  destruct (Weather.get_forecast coordinator iconcode 0) as [day|e]; cbn [mbind exc_bind].
  2: { simpl. destruct (is_Index_Type_or_KeyError e); [|done]. intros [= <-]. by left. }
  destruct (Weather.get_forecast coordinator iconcode 1) as [night|e]; cbn [mbind exc_bind].
  2: { simpl. destruct (is_Index_Type_or_KeyError e); [|done]. intros [= <-]. by left. }
  destruct (truthy (_iconcode_to_condition icon_condition_map (py_or day night))).
  - cbn [try_except]. intros [= <-].
    destruct (iconcode_to_condition_found icon_condition_map (py_or day night))
      as [->|(c & codes & -> & Hc)]; [by left|]. right. left. eauto.
  - destruct (Weather._estimate_condition_from_solar_radiation coordinator) as [v'|e]
      eqn:Hestimate; cbn [try_except].
    + intros [= <-]. apply estimate_condition_range in Hestimate.
      apply elem_of_cons in Hestimate as [->|Hestimate]; [by left|]. by right; right.
    + destruct (is_Index_Type_or_KeyError e); [|done]. intros [= <-]. by left.
Qed.

(** The sample coordinator: the day part of today has expired, the
    icon of tonight is a clear night. *)
Lemma condition_is_mapped_or_estimated_witness :
  Weather.condition sample_icon_map "iconCode" (Weather.of_single entity_coordinator false)
    = Ok (JStr "clear-night") ∧
  (JStr "clear-night" = JNull ∨
   (∃ condition iconcodes,
      JStr "clear-night" = JStr condition ∧ (condition, iconcodes) ∈ sample_icon_map) ∨
   JStr "clear-night" ∈ [JStr "sunny"; JStr "partlycloudy"; JStr "cloudy"]).
Proof.
  assert (Weather.condition sample_icon_map "iconCode"
            (Weather.of_single entity_coordinator false) = Ok (JStr "clear-night"))
    as Hcondition by (vm_compute; reflexivity).
  exact (conj Hcondition
           (condition_is_mapped_or_estimated sample_icon_map "iconCode"
              (Weather.of_single entity_coordinator false) (JStr "clear-night") Hcondition)).
Defined.

(** ** The daily forecast *)

Lemma get_forecast_of_falsy_document data field period :
  truthy data = false → Base.get_forecast data field period = Ok JNull.
Proof.
  intros Hdata. unfold Base.get_forecast, Base.get_forecast_body. by rewrite Hdata.
Qed.

Section DailyForecast.
Context (ICON_CONDITION_MAP : list (string * list Z)).
Context (ICONCODE QPF PRECIPCHANCE WINDSPEED WINDDIRECTION WINDDIRECTIONCARDINAL : string).
Context (utc_isoformat : json → exc string).

(** X14.  Without a document (before the first successful refresh of
    either coordinator) the weather entity has no forecast and raises
    nothing: [async_forecast_daily] returns [None] and the legacy
    forecast is the empty list. *)
Theorem forecast_without_document coordinator data :
  Weather.get_forecast coordinator = Base.get_forecast data →
  truthy data = false →
  Weather.async_forecast_daily ICON_CONDITION_MAP ICONCODE QPF PRECIPCHANCE WINDSPEED
    WINDDIRECTION utc_isoformat coordinator = Ok None ∧
  Weather._forecast ICON_CONDITION_MAP ICONCODE QPF PRECIPCHANCE WINDSPEED
    WINDDIRECTIONCARDINAL utc_isoformat coordinator = Ok [].
Proof.
  intros Hforecast Hdata.
  assert (∀ field period, Weather.get_forecast coordinator field period = Ok JNull) as Hnone.
  { intros field period. rewrite Hforecast. by apply get_forecast_of_falsy_document. }
  unfold Weather.async_forecast_daily, Weather._forecast,
    Weather._forecast_new, Weather._forecast_legacy, Weather._get_forecast_periods.
  destruct (Weather._get_forecast_temperature_fields coordinator) as [temp_max temp_min].
  rewrite Hnone. cbn [mbind exc_bind Weather.forecast_entries].
  unfold Weather._create_forecast_entry_new_format, Weather._create_forecast_entry.
  by rewrite !Hnone.
Qed.

(** X15.  The five entries of the daily forecast take their per-day
    values (the valid time, the maximum and the minimum temperature)
    from the days 0 to 4 of the document, whether the periods start at
    0 or, when the day part of today has expired, at 1. *)
Theorem forecast_periods_read_five_days coordinator data periods field :
  Weather._get_forecast_periods coordinator = Ok periods →
  field ∈ Base.full_day_fields →
  Base.get_forecast data field <$> periods =
    (λ day, Ok (or_absent (days ← getitem data (KStr field); getitem days (KInt day)))) <$>
      [0; 1; 2; 3; 4]%Z.
Proof.
  unfold Weather._get_forecast_periods. intros Hperiods Hfield.
  assert (periods = [1; 2; 4; 6; 8]%Z ∨ periods = [0; 2; 4; 6; 8]%Z) as [-> | ->].
  { destruct (Weather.get_forecast coordinator "temperature" 0) as [[]|]; simplify_eq/=; auto. }
  - rewrite !fmap_cons. by rewrite !get_forecast_full_day by (done || lia).
  - rewrite !fmap_cons. by rewrite !get_forecast_full_day by (done || lia).
Qed.

(** An entry of the new format is there or not; nothing is raised as
    long as the conversion of the time raises nothing but a
    [TypeError] or a [ValueError]. *)
Lemma create_forecast_entry_returns coordinator data period temp_max temp_min :
  Weather.get_forecast coordinator = Base.get_forecast data →
  (∀ t e, utc_isoformat t = Raise e → is_TypeError e || is_ValueError e = true) →
  (0 ≤ period < 2 ^ 53)%Z →
  ∃ entry,
    Weather._create_forecast_entry_new_format ICON_CONDITION_MAP ICONCODE QPF PRECIPCHANCE
      WINDSPEED WINDDIRECTION utc_isoformat coordinator period temp_max temp_min = Ok entry.
Proof.
  intros Hforecast Hiso Hperiod.
  unfold Weather._create_forecast_entry_new_format. rewrite Hforecast.
  destruct (base_get_forecast_returns data FIELD_FORECAST_VALIDTIMEUTC period Hperiod)
    as [forecast_time ->].
  destruct (base_get_forecast_returns data ICONCODE period Hperiod) as [icon ->].
  destruct (base_get_forecast_returns data QPF period Hperiod) as [qpf ->].
  destruct (base_get_forecast_returns data PRECIPCHANCE period Hperiod) as [chance ->].
  destruct (base_get_forecast_returns data temp_max period Hperiod) as [high ->].
  destruct (base_get_forecast_returns data temp_min period Hperiod) as [low ->].
  destruct (base_get_forecast_returns data WINDSPEED period Hperiod) as [speed ->].
  destruct (base_get_forecast_returns data WINDDIRECTION period Hperiod) as [bearing ->].
  cbn [mbind exc_bind].
  assert (∃ entry,
            try_except
              (time ← utc_isoformat forecast_time;
               Ok (Some {| Weather.condition_of :=
                            _iconcode_to_condition ICON_CONDITION_MAP icon;
                          Weather.native_precipitation := qpf;
                          Weather.precipitation_probability := chance;
                          Weather.native_temperature := high;
                          Weather.native_templow := low;
                          Weather.datetime := time;
                          Weather.native_wind_speed := speed;
                          Weather.wind_bearing := bearing |}))
              (λ e, is_TypeError e || is_ValueError e || is_KeyError e) (λ _, Ok None)
            = Ok entry) as Hentry.
  { destruct (utc_isoformat forecast_time) as [time|e] eqn:Htime; [by eexists|].
    simpl. rewrite (Hiso _ _ Htime). by eexists. }
  destruct forecast_time; first [exact Hentry | by eexists].
Qed.

(** X16.  On the document of either coordinator the daily forecast
    never raises and has at most five entries, provided that the
    conversion of a time stamp to ISO text raises nothing but a
    [TypeError] or a [ValueError] (both are handled per entry; an
    [OverflowError] would escape). *)
Theorem forecast_daily_returns coordinator data :
  Weather.get_forecast coordinator = Base.get_forecast data →
  (∀ t e, utc_isoformat t = Raise e → is_TypeError e || is_ValueError e = true) →
  ∃ forecast,
    Weather.async_forecast_daily ICON_CONDITION_MAP ICONCODE QPF PRECIPCHANCE WINDSPEED
      WINDDIRECTION utc_isoformat coordinator = Ok forecast ∧
    forecast ≠ Some [] ∧
    (length (default [] forecast) ≤ 5)%nat.
Proof.
  intros Hforecast Hiso.
  unfold Weather.async_forecast_daily, Weather._forecast_new, Weather._get_forecast_periods.
  destruct (Weather._get_forecast_temperature_fields coordinator) as [temp_max temp_min].
  rewrite Hforecast.
  destruct (base_get_forecast_returns data "temperature" 0) as [current ->]; [lia|].
  cbn [mbind exc_bind].
  assert (∀ periods, Forall (λ p, 0 ≤ p < 2 ^ 53)%Z periods →
            ∃ entries,
              Weather.forecast_entries
                (λ period,
                   Weather._create_forecast_entry_new_format ICON_CONDITION_MAP ICONCODE QPF
                     PRECIPCHANCE WINDSPEED WINDDIRECTION utc_isoformat coordinator period
                     temp_max temp_min) periods = Ok entries ∧
              (length entries ≤ length periods)%nat) as Hentries.
  { induction 1 as [|p periods Hp _ (entries & IH & Hlen)]; [by exists []|].
    destruct (create_forecast_entry_returns coordinator data p temp_max temp_min
                Hforecast Hiso Hp) as [entry Hentry].
    cbn [Weather.forecast_entries]. rewrite Hentry, IH.
    cbn [mbind exc_bind]. destruct entry; eexists; (split; [done|simpl; lia]). }
  assert (∃ periods, (match current with
                      | JNull => Ok [1; 2; 4; 6; 8]%Z
                      | _ => Ok [0; 2; 4; 6; 8]%Z
                      end) = Ok periods ∧ length periods = 5%nat ∧
                     Forall (λ p, 0 ≤ p < 2 ^ 53)%Z periods) as (periods & -> & Hfive & Hrange).
  { destruct current; eexists; (split; [done|]); (split; [done|]);
      repeat constructor; lia. }
  cbn [mbind exc_bind].
  destruct (Hentries periods Hrange) as (entries & -> & Hlen).
  cbn [mbind exc_bind]. eexists. split; [done|].
  destruct entries; simpl in *; split; (done || lia).
Qed.

End DailyForecast.

(** The multi-station coordinator of the samples before its first
    refresh. *)
Lemma forecast_without_document_witness :
  Weather.get_forecast (Weather.of_multi (Multi.__init__ multi_config) false) =
    Base.get_forecast JNull ∧
  truthy JNull = false ∧
  Weather.async_forecast_daily sample_icon_map "iconCode" "qpf" "precipChance" "windSpeed"
    "windDirection" sample_isoformat (Weather.of_multi (Multi.__init__ multi_config) false)
    = Ok None ∧
  Weather._forecast sample_icon_map "iconCode" "qpf" "precipChance" "windSpeed"
    "windDirectionCardinal" sample_isoformat
    (Weather.of_multi (Multi.__init__ multi_config) false) = Ok [].
Proof.
  exact (conj eq_refl (conj eq_refl
           (forecast_without_document sample_icon_map "iconCode" "qpf" "precipChance"
              "windSpeed" "windDirection" "windDirectionCardinal" sample_isoformat
              (Weather.of_multi (Multi.__init__ multi_config) false) JNull
              eq_refl eq_refl))).
Defined.

(** The sample document, whose day part of today has expired: the
    periods start at 1 and the maximum temperatures are still those of
    the days 0 to 4. *)
Lemma forecast_periods_read_five_days_witness :
  Weather._get_forecast_periods (Weather.of_single entity_coordinator false) =
    Ok [1; 2; 4; 6; 8]%Z ∧
  "temperatureMax" ∈ Base.full_day_fields ∧
  Base.get_forecast entity_document "temperatureMax" <$> [1; 2; 4; 6; 8]%Z =
    [Ok JNull; Ok (JNum 20); Ok JNull; Ok JNull; Ok JNull].
Proof.
  assert (Weather._get_forecast_periods (Weather.of_single entity_coordinator false) =
            Ok [1; 2; 4; 6; 8]%Z) as Hperiods by (vm_compute; reflexivity).
  assert ("temperatureMax" ∈ Base.full_day_fields) as Hfield by by_computation.
  exact (conj Hperiods (conj Hfield
           (forecast_periods_read_five_days (Weather.of_single entity_coordinator false)
              entity_document [1; 2; 4; 6; 8]%Z "temperatureMax" Hperiods Hfield))).
Defined.

Lemma sample_isoformat_raises t e :
  sample_isoformat t = Raise e → is_TypeError e || is_ValueError e = true.
Proof. destruct t; simpl; intros [=]; by subst. Qed.

(** The sample coordinator, with the two days of its document. *)
Lemma forecast_daily_returns_witness :
  Weather.get_forecast (Weather.of_single entity_coordinator true) =
    Base.get_forecast entity_document ∧
  (∀ t e, sample_isoformat t = Raise e → is_TypeError e || is_ValueError e = true) ∧
  ∃ forecast,
    Weather.async_forecast_daily sample_icon_map "iconCode" "qpf" "precipChance" "windSpeed"
      "windDirection" sample_isoformat (Weather.of_single entity_coordinator true)
      = Ok forecast ∧
    forecast ≠ Some [] ∧
    (length (default [] forecast) ≤ 5)%nat.
Proof.
  exact (conj eq_refl (conj sample_isoformat_raises
           (forecast_daily_returns sample_icon_map "iconCode" "qpf" "precipChance"
              "windSpeed" "windDirection" sample_isoformat
              (Weather.of_single entity_coordinator true) entity_document
              eq_refl sample_isoformat_raises))).
Defined.

(** ** The condition of an icon code *)

Lemma json_eq_int_of_int n m : json_eq_int (JNum (inject_Z n)) m = bool_decide (n = m).
Proof.
  simpl. unfold Qeq_bool, inject_Z. simpl. rewrite !Z.mul_1_r.
  destruct (Z.eqb_spec n m) as [->|Hne].
  - by rewrite bool_decide_eq_true_2.
  - by rewrite bool_decide_eq_false_2.
Qed.

(** X17.  The condition of an integer icon code is the key of the first
    item of [ICON_CONDITION_MAP] that lists the code, and [None] when
    no item lists it. *)
Theorem iconcode_to_condition_first_match icon_condition_map n :
  _iconcode_to_condition icon_condition_map (JNum (inject_Z n)) =
    match list_find (λ item, n ∈ item.2) icon_condition_map with
    | Some (_, (condition, _)) => JStr condition
    | None => JNull
    end.
Proof.
  cbn [_iconcode_to_condition].
  induction icon_condition_map as [|[condition iconcodes] rest IH]; [done|].
  cbn [iconcode_lookup list_find].
  assert (existsb (json_eq_int (JNum (inject_Z n))) iconcodes = bool_decide (n ∈ iconcodes))
    as ->.
  { induction iconcodes as [|m iconcodes IHcodes]; [done|].
    cbn [existsb]. rewrite IHcodes, json_eq_int_of_int.
    rewrite <-bool_decide_or. apply bool_decide_ext. by rewrite elem_of_cons. }
  case_bool_decide as Hn; cbn [snd].
  - by rewrite decide_True.
  - rewrite decide_False by done. rewrite IH.
    by destruct (list_find _ rest) as [[i [c codes]]|].
Qed.

(** ** The data of a sensor *)

Lemma raises_within_bind {A B} P (m : exc A) (f : A → exc B) :
  raises_within P m → (∀ a, raises_within P (f a)) → raises_within P (m ≫= f).
Proof.
  intros Hm Hf e. destruct m as [a|e']; simpl; [apply Hf|].
  intros [= <-]. by apply Hm.
Qed.

Lemma raises_within_ok {A} P (a : A) : raises_within P (Ok a).
Proof. by intros e. Qed.

Lemma raises_within_if {A} P (b : bool) (m m' : exc A) :
  raises_within P m → raises_within P m' → raises_within P (if b then m else m').
Proof. by destruct b. Qed.

Lemma raises_within_impl {A} (P Q : exn → bool) (m : exc A) :
  (∀ e, P e = true → Q e = true) → raises_within P m → raises_within Q m.
Proof. intros HPQ Hm e He. by apply HPQ, Hm. Qed.

Lemma getitem_raises_within v k : raises_within is_Index_Type_or_KeyError (getitem v k).
Proof. intros e. apply getitem_raises. Qed.

Lemma py_contains_raises_within v s :
  raises_within is_Index_Type_or_KeyError (py_contains v s).
Proof. intros e. destruct v; simpl; by intros [= <-]. Qed.

Lemma py_len_raises_within v : raises_within is_Index_Type_or_KeyError (py_len v).
Proof. intros e. destruct v; simpl; by intros [= <-]. Qed.

Lemma py_ge_int_raises_within i n : raises_within is_Index_Type_or_KeyError (py_ge_int i n).
Proof. intros e. destruct i; simpl; by intros [= <-]. Qed.

Lemma getitem_opt_raises_within v i :
  raises_within is_Index_Type_or_KeyError (getitem_opt v i).
Proof.
  destruct i as [i|]; [apply getitem_raises_within|].
  intros e. destruct v; simpl; by intros [= <-].
Qed.

Lemma absent_or_falsy_raises_within v k :
  raises_within is_Index_Type_or_KeyError (absent_or_falsy v k).
Proof.
  unfold absent_or_falsy.
  apply raises_within_bind; [apply py_contains_raises_within|]. intros present.
  apply raises_within_if; [apply raises_within_ok|].
  apply raises_within_bind; [apply getitem_raises_within|]. intros item.
  apply raises_within_ok.
Qed.

Lemma py_get_raises_within v k dflt :
  raises_within is_lookup_or_AttributeError (py_get v k dflt).
Proof. intros e. destruct v; simpl; by intros [= <-]. Qed.

(** Proves that a chain of subscripts raises only what [P] admits. *)
Ltac raises_steps :=
  repeat first
    [ apply raises_within_ok
    | apply getitem_raises_within | apply py_contains_raises_within
    | apply py_len_raises_within | apply py_ge_int_raises_within
    | apply getitem_opt_raises_within | apply absent_or_falsy_raises_within
    | apply py_get_raises_within
    | apply raises_within_bind; [|intros ?]
    | apply raises_within_if
    | match goal with
      | |- raises_within is_lookup_or_AttributeError _ =>
          apply (raises_within_impl is_Index_Type_or_KeyError);
          [intros e' He'; unfold is_lookup_or_AttributeError; by rewrite He'|]
      end ].

Lemma try_except_returns (m : exc json) :
  raises_within is_Index_Type_or_KeyError m →
  try_except m is_Index_Type_or_KeyError (λ _, Ok JNull) = Ok (or_absent m).
Proof. intros Hm. apply try_except_lookup_chain, Hm. Qed.

(** An index at or beyond the length is out of range. *)
Lemma py_index_beyond {A} (l : list A) i :
  (Z.of_nat (length l) ≤ i)%Z → py_index l i = None.
Proof.
  intros Hi. unfold py_index.
  destruct (Z.ltb_spec i 0); [lia|].
  rewrite bool_decide_eq_false_2 by lia. done.
Qed.

Lemma py_index_nil {A} i : py_index (@nil A) i = None.
Proof.
  unfold py_index. simpl. rewrite bool_decide_eq_false_2; [done|].
  destruct (i <? 0)%Z; lia.
Qed.

(** The guarded read of a sequence at [forecast_day] is the plain read
    with its errors handled. *)
Lemma guarded_read values i :
  or_absent
    (if negb (truthy values) then Ok JNull
     else n ← py_len values;
          beyond ← py_ge_int (Some i) n;
          if beyond : bool then Ok JNull else getitem_opt values (Some i)) =
  or_absent (getitem values (KInt i)).
Proof.
  destruct values as [|b|q|s|items|members]; cbn [truthy py_len mbind exc_bind py_ge_int
                                                  getitem_opt getitem negb or_absent].
  - done.
  - by destruct b.
  - by destruct (negb (Qnum q =? 0)%Z).
  - destruct (String.eqb_spec s "") as [->|Hs]; cbn [negb chars].
    { by rewrite py_index_nil. }
    destruct (Z.leb_spec (Z.of_nat (String.length s)) i) as [Hi|Hi]; [|done].
    rewrite py_index_beyond; [done|].
    assert (length (chars s) = String.length s) as ->; [|done].
    clear. induction s; simpl; congruence.
  - destruct items as [|item items]; cbn [negb]; [by rewrite py_index_nil|].
    destruct (Z.leb_spec (Z.of_nat (length (item :: items))) i) as [Hi|Hi]; [|done].
    by rewrite py_index_beyond.
  - destruct members as [|member members]; cbn [negb]; [done|].
    by destruct (Z.of_nat (length (member :: members)) <=? i)%Z.
Qed.

(** A falsy value has no element. *)
Lemma getitem_falsy_index v i :
  truthy v = false → or_absent (getitem v (KInt i)) = JNull ∧ ∃ e, getitem v (KInt i) = Raise e.
Proof.
  destruct v as [|[]|q|s|[]|[]]; simpl; intros Hv; try done; eauto.
  - destruct (String.eqb_spec s "") as [->|]; [|done]. simpl.
    rewrite py_index_nil. eauto.
  - rewrite py_index_nil. eauto.
Qed.

(** The test [k not in v or not v[k]], by what [v[k]] does. *)
Lemma absent_or_falsy_spec v k :
  match getitem v (KStr k) with
  | Ok item => absent_or_falsy v k = Ok (negb (truthy item))
  | Raise _ => absent_or_falsy v k = Ok true ∨ ∃ e, absent_or_falsy v k = Raise e
  end.
Proof.
  unfold absent_or_falsy.
  destruct v as [|b|q|s|items|members]; cbn [getitem py_contains mbind exc_bind]; eauto.
  - destruct (is_substring k s); cbn [negb]; eauto.
  - destruct (existsb (str_eq_json k) items); cbn [negb]; eauto.
  - destruct (dict_lookup k members) as [item|] eqn:Hlookup.
    + rewrite bool_decide_eq_true_2 by done. done.
    + rewrite bool_decide_eq_false_2 by (by intros []). cbn [negb]. eauto.
Qed.

(** A guarded read [v[k][i]] is the plain read with its errors
    handled. *)
Lemma guarded_lookup v k i :
  or_absent
    (missing ← absent_or_falsy v k;
     if missing : bool then Ok JNull
     else values ← getitem v (KStr k);
          n ← py_len values;
          beyond ← py_ge_int (Some i) n;
          if beyond : bool then Ok JNull else getitem_opt values (Some i)) =
  or_absent (values ← getitem v (KStr k); getitem values (KInt i)).
Proof.
  pose proof (absent_or_falsy_spec v k) as Hspec.
  destruct (getitem v (KStr k)) as [values|e] eqn:Hitem.
  - rewrite Hspec. cbn [mbind exc_bind]. rewrite <-(guarded_read values i).
    by destruct (negb (truthy values)).
  - by destruct Hspec as [->|[e' ->]].
Qed.

Section SensorData.
Context (FEATURE_CONDITIONS FEATURE_FORECAST FEATURE_FORECAST_DAYPART : string).
Context (FEATURE_OBSERVATIONS : string).

#[local] Abbreviation _get_sensor_data :=
  (Sensor._get_sensor_data FEATURE_CONDITIONS FEATURE_FORECAST FEATURE_FORECAST_DAYPART
     FEATURE_OBSERVATIONS).

(** X18.  A forecast sensor of a per-day field and the accessor
    [get_forecast] of the coordinators read the same value: the sensor
    of the day [period // 2] shows what [get_forecast] returns for
    [period], and [None] where that returns [None]. *)
Theorem sensor_forecast_agrees_with_get_forecast sensors kind unit_system period :
  FEATURE_FORECAST ≠ FEATURE_CONDITIONS →
  kind ∈ Base.full_day_fields →
  (0 ≤ period < 2 ^ 53)%Z →
  _get_sensor_data sensors kind unit_system FEATURE_FORECAST (Some (period / 2)%Z) =
    Base.get_forecast sensors kind period.
Proof.
  intros Hfeature Hkind Hperiod.
  rewrite get_forecast_full_day by done.
  unfold Sensor._get_sensor_data, Sensor.get_sensor_data_body.
  rewrite (proj2 (String.eqb_neq _ _) Hfeature), String.eqb_refl.
  rewrite try_except_returns by raises_steps. f_equal.
  destruct (truthy sensors) eqn:Hsensors; cbn [negb].
  - apply guarded_lookup.
  - by destruct (getitem_falsy sensors kind Hsensors) as [_ [e ->]].
Qed.

(** X19.  A forecast sensor of a day-part field and [get_forecast] read
    the same value: for every field that is not a per-day field and for
    every period, also a negative one, the sensor shows what
    [get_forecast] returns. *)
Theorem sensor_daypart_agrees_with_get_forecast sensors kind unit_system period :
  FEATURE_FORECAST_DAYPART ≠ FEATURE_CONDITIONS →
  FEATURE_FORECAST_DAYPART ≠ FEATURE_FORECAST →
  kind ∉ Base.full_day_fields →
  _get_sensor_data sensors kind unit_system FEATURE_FORECAST_DAYPART (Some period) =
    Base.get_forecast sensors kind period.
Proof.
  intros Hconditions Hforecast Hkind.
  rewrite get_forecast_daypart by done.
  unfold Sensor._get_sensor_data, Sensor.get_sensor_data_body.
  rewrite (proj2 (String.eqb_neq _ _) Hconditions), (proj2 (String.eqb_neq _ _) Hforecast),
    String.eqb_refl.
  rewrite try_except_returns by raises_steps. f_equal.
  destruct (truthy sensors) eqn:Hsensors; cbn [negb].
  2: { by destruct (getitem_falsy sensors FIELD_DAYPART Hsensors) as [_ [e ->]]. }
  pose proof (absent_or_falsy_spec sensors FIELD_DAYPART) as Hspec.
  destruct (getitem sensors (KStr FIELD_DAYPART)) as [daypart|e] eqn:Hdaypart.
  2: { by destruct Hspec as [->|[e' ->]]. }
  rewrite Hspec. cbn [mbind exc_bind].
  destruct (truthy daypart) eqn:Htruthy; cbn [negb].
  2: { by destruct (proj2 (getitem_falsy_index daypart 0 Htruthy)) as [e ->]. }
  destruct (getitem daypart (KInt 0)) as [first|e]; cbn [mbind exc_bind]; [|done].
  destruct (truthy first) eqn:Hfirst; cbn [negb].
  - apply guarded_lookup.
  - by destruct (getitem_falsy first kind Hfirst) as [_ [e ->]].
Qed.

(** A value that has an element or a member is truthy. *)
Lemma getitem_truthy v k x : getitem v k = Ok x → truthy v = true.
Proof.
  intros Hitem. destruct (truthy v) eqn:Hv; [done|].
  destruct k as [i|s].
  - destruct (getitem_falsy_index v i Hv) as [_ [e He]]. congruence.
  - destruct (getitem_falsy v s Hv) as [_ [e He]]. congruence.
Qed.

(** X20.  A conditions sensor and the weather entity agree: whenever
    the single-station [get_condition] returns a value for a field of
    the unit system, the sensor of that field shows the same value. *)
Theorem sensor_conditions_agree_with_get_condition self field v forecast_day :
  field ∉ [FIELD_CONDITION_HUMIDITY; FIELD_CONDITION_WINDDIR] →
  Single.get_condition self field = Ok v →
  _get_sensor_data (Single.data self) field (Single.unit_system self) FEATURE_CONDITIONS
    forecast_day = Ok v.
Proof.
  intros Hfield. unfold Single.get_condition.
  rewrite bool_decide_eq_false_2 by done.
  destruct (getitem (Single.data self) (KStr FIELD_OBSERVATIONS)) as [observations|e]
    eqn:Hobservations; [|done].
  cbn [mbind exc_bind].
  destruct (getitem observations (KInt 0)) as [obs_data|e] eqn:Hobs_data; [|done].
  cbn [mbind exc_bind].
  destruct (getitem obs_data (KStr (Single.unit_system self))) as [units|e] eqn:Hunits;
    [|done].
  cbn [mbind exc_bind]. intros Hvalue.
  unfold Sensor._get_sensor_data, Sensor.get_sensor_data_body.
  rewrite (getitem_truthy _ _ _ Hobservations), String.eqb_refl. cbn [negb].
  pose proof (absent_or_falsy_spec (Single.data self) FIELD_OBSERVATIONS) as Hmissing.
  rewrite Hobservations in Hmissing.
  rewrite Hmissing, (getitem_truthy _ _ _ Hobs_data). cbn [negb mbind exc_bind].
  rewrite Hobservations. cbn [mbind exc_bind]. rewrite Hobs_data. cbn [mbind exc_bind].
  pose proof (absent_or_falsy_spec obs_data (Single.unit_system self)) as Hno_units.
  rewrite Hunits in Hno_units.
  rewrite Hno_units, (getitem_truthy _ _ _ Hvalue). cbn [negb mbind exc_bind].
  rewrite Hunits. cbn [mbind exc_bind].
  destruct units as [| | | | |members]; try done. simpl in *.
  by destruct (dict_lookup field members); simplify_eq.
Qed.

Lemma try_except_attribute_error (m : exc json) e :
  raises_within is_lookup_or_AttributeError m →
  try_except m is_Index_Type_or_KeyError (λ _, Ok JNull) = Raise e →
  e = AttributeError.
Proof.
  intros Hm. destruct m as [v|e']; simpl; [done|].
  specialize (Hm e' eq_refl). destruct e'; simpl in *; try done. by intros [= <-].
Qed.

(** X21.  [_get_sensor_data] handles the errors of its subscripts; the
    one exception that escapes it is the [AttributeError] of [.get] on
    an observation (or a unit record) that is not a dict, and only for
    a conditions or an observations sensor.  A forecast sensor never
    raises, also when it is called without a day. *)
Theorem sensor_data_raises_only_attribute_error sensors kind unit_system feature
    forecast_day e :
  _get_sensor_data sensors kind unit_system feature forecast_day = Raise e →
  e = AttributeError ∧ (feature = FEATURE_CONDITIONS ∨ feature = FEATURE_OBSERVATIONS).
Proof.
  unfold Sensor._get_sensor_data, Sensor.get_sensor_data_body.
  destruct (negb (truthy sensors)); [done|].
  destruct (String.eqb_spec feature FEATURE_CONDITIONS) as [->|_].
  { intros He. split; [|by left]. revert He. apply try_except_attribute_error.
    raises_steps. }
  destruct (String.eqb_spec feature FEATURE_FORECAST) as [->|_].
  { by rewrite try_except_returns by raises_steps. }
  destruct (String.eqb_spec feature FEATURE_FORECAST_DAYPART) as [->|_].
  { by rewrite try_except_returns by raises_steps. }
  destruct (String.eqb_spec feature FEATURE_OBSERVATIONS) as [->|_]; [|done].
  intros He. split; [|by right]. revert He. apply try_except_attribute_error.
  raises_steps.
Qed.

End SensorData.

(** The minimum temperature of the second day of the sample document,
    for the period 3. *)
Lemma sensor_forecast_agrees_with_get_forecast_witness :
  "forecast" ≠ "conditions" ∧
  "temperatureMin" ∈ Base.full_day_fields ∧
  (0 ≤ 3 < 2 ^ 53)%Z ∧
  Sensor._get_sensor_data "conditions" "forecast" "forecast_daypart" "observations"
    entity_document "temperatureMin" "metric" "forecast" (Some (3 / 2)%Z) =
    Base.get_forecast entity_document "temperatureMin" 3 ∧
  Base.get_forecast entity_document "temperatureMin" 3 = Ok (JNum 9).
Proof.
  assert ("forecast" ≠ "conditions") as Hfeature by done.
  assert ("temperatureMin" ∈ Base.full_day_fields) as Hkind by by_computation.
  assert (0 ≤ 3 < 2 ^ 53)%Z as Hperiod by lia.
  assert (Base.get_forecast entity_document "temperatureMin" 3 = Ok (JNum 9)) as Hvalue
    by (vm_compute; reflexivity).
  exact (conj Hfeature (conj Hkind (conj Hperiod (conj
           (sensor_forecast_agrees_with_get_forecast "conditions" "forecast"
              "forecast_daypart" "observations" entity_document "temperatureMin" "metric" 3
              Hfeature Hkind Hperiod) Hvalue)))).
Defined.

(** The icon of the third day part of the sample document. *)
Lemma sensor_daypart_agrees_with_get_forecast_witness :
  "forecast_daypart" ≠ "conditions" ∧
  "forecast_daypart" ≠ "forecast" ∧
  ("iconCode" ∉ Base.full_day_fields) ∧
  Sensor._get_sensor_data "conditions" "forecast" "forecast_daypart" "observations"
    entity_document "iconCode" "metric" "forecast_daypart" (Some 2%Z) =
    Base.get_forecast entity_document "iconCode" 2 ∧
  Base.get_forecast entity_document "iconCode" 2 = Ok (JNum 11).
Proof.
  assert ("forecast_daypart" ≠ "conditions") as Hconditions by done.
  assert ("forecast_daypart" ≠ "forecast") as Hforecast by done.
  assert ("iconCode" ∉ Base.full_day_fields) as Hkind by by_computation.
  assert (Base.get_forecast entity_document "iconCode" 2 = Ok (JNum 11)) as Hvalue
    by (vm_compute; reflexivity).
  exact (conj Hconditions (conj Hforecast (conj Hkind (conj
           (sensor_daypart_agrees_with_get_forecast "conditions" "forecast"
              "forecast_daypart" "observations" entity_document "iconCode" "metric" 2
              Hconditions Hforecast Hkind) Hvalue)))).
Defined.

(** The temperature of the sample document, in the metric record. *)
Lemma sensor_conditions_agree_with_get_condition_witness :
  ("temp" ∉ [FIELD_CONDITION_HUMIDITY; FIELD_CONDITION_WINDDIR]) ∧
  Single.get_condition entity_coordinator "temp" = Ok (JNum 21) ∧
  Sensor._get_sensor_data "conditions" "forecast" "forecast_daypart" "observations"
    entity_document "temp" "metric" "conditions" None = Ok (JNum 21).
Proof.
  assert ("temp" ∉ [FIELD_CONDITION_HUMIDITY; FIELD_CONDITION_WINDDIR]) as Hfield
    by by_computation.
  assert (Single.get_condition entity_coordinator "temp" = Ok (JNum 21)) as Hvalue
    by (vm_compute; reflexivity).
  exact (conj Hfield (conj Hvalue
           (sensor_conditions_agree_with_get_condition "conditions" "forecast"
              "forecast_daypart" "observations" entity_coordinator "temp" (JNum 21) None
              Hfield Hvalue))).
Defined.

(** A document whose observation is a text, not a record. *)
Lemma sensor_data_raises_only_attribute_error_witness :
  Sensor._get_sensor_data "conditions" "forecast" "forecast_daypart" "observations"
    (JObj [("observations", JArr [JStr "offline"])]) "humidity" "metric" "observations" None
    = Raise AttributeError ∧
  AttributeError = AttributeError ∧
  ("observations" = "conditions" ∨ "observations" = "observations").
Proof.
  assert (Sensor._get_sensor_data "conditions" "forecast" "forecast_daypart" "observations"
            (JObj [("observations", JArr [JStr "offline"])]) "humidity" "metric"
            "observations" None = Raise AttributeError) as Hraise
    by (vm_compute; reflexivity).
  exact (conj Hraise
           (sensor_data_raises_only_attribute_error "conditions" "forecast"
              "forecast_daypart" "observations"
              (JObj [("observations", JArr [JStr "offline"])]) "humidity" "metric"
              "observations" None AttributeError Hraise)).
Defined.

(** ** The configuration flow of a station group *)

Lemma existsb_pws_id stations id :
  existsb (λ station, String.eqb (Multi.pws_id station) id) stations = true ↔
  id ∈ Multi.pws_id <$> stations.
Proof.
  rewrite existsb_exists, list_elem_of_fmap. split.
  - intros (station & Hin%list_elem_of_In & Heq%String.eqb_eq). by exists station.
  - intros (station & -> & Hin). exists station. split; [by apply list_elem_of_In|].
    apply String.eqb_refl.
Qed.

Lemma add_station_keeps_ids_distinct input self :
  NoDup (Multi.pws_id <$> ConfigFlow._stations self) →
  NoDup (Multi.pws_id <$>
           ConfigFlow._stations (ConfigFlow.async_step_add_station input self).2).
Proof.
  intros Hnodup. unfold ConfigFlow.async_step_add_station.
  destruct input as [input|]; [|done].
  destruct (existsb _ (ConfigFlow._stations self)) eqn:Hexists; [done|].
  cbn [snd ConfigFlow.append_station ConfigFlow._stations].
  rewrite fmap_app. apply NoDup_app. split; [done|]. split; [|apply NoDup_singleton].
  intros id Hid [->|[]%elem_of_nil]%elem_of_cons.
  apply existsb_pws_id in Hid. simpl in Hid. congruence.
Qed.

(** X22.  The configuration flow never holds two stations of one id:
    whatever is entered in the step [add_station], and however often,
    the ids of the stations of the flow are distinct (an id that is
    there already is refused with [station_already_exists]). *)
Theorem flow_stations_have_distinct_ids inputs :
  NoDup (Multi.pws_id <$> ConfigFlow._stations (add_stations inputs ConfigFlow.__init__)).
Proof.
  unfold add_stations.
  assert (NoDup (Multi.pws_id <$> ConfigFlow._stations ConfigFlow.__init__)) as Hinit
    by constructor.
  revert Hinit. generalize ConfigFlow.__init__.
  induction inputs as [|input inputs IH]; intros self Hnodup; [done|].
  simpl. by apply IH, add_station_keeps_ids_distinct.
Qed.

Section Entry.
Context (CONF_API_KEY CONF_PWS_ID : string).

(** The data of the entry that [finish_setup] creates have the three
    keys of the dict display and no other. *)
Lemma entry_data_lookup (api_key group_name stations : json) k :
  dict_lookup k
    (foldl (λ acc kv, dict_set kv.1 kv.2 acc) []
       [(CONF_API_KEY, api_key); (ConfigFlow.CONF_GROUP_NAME, group_name);
        (ConfigFlow.CONF_STATIONS, stations)]) =
    if decide (k = ConfigFlow.CONF_STATIONS) then Some stations
    else if decide (k = ConfigFlow.CONF_GROUP_NAME) then Some group_name
    else if decide (k = CONF_API_KEY) then Some api_key
    else None.
Proof. cbn [foldl fst snd]. by rewrite !dict_set_lookup. Qed.

(** X23.  The step [finish_setup] aborts with [no_stations] exactly
    when the flow has no station.  Otherwise the entry that it creates
    has no ['integration_type']: [async_setup_entry] takes it for a
    single-station entry, and the single-station setup raises a
    [KeyError] on the station id that the entry does not have.  (The
    key [CONF_API_KEY] is taken to differ from ['integration_type'],
    and [CONF_PWS_ID] from the three keys of the entry.) *)
Theorem finished_entry_is_set_up_as_single_station host self :
  CONF_API_KEY ≠ Setup.CONF_INTEGRATION_TYPE →
  CONF_PWS_ID ∉ [CONF_API_KEY; ConfigFlow.CONF_GROUP_NAME; ConfigFlow.CONF_STATIONS] →
  match (ConfigFlow.async_step_finish_setup CONF_API_KEY CONF_PWS_ID host self).1 with
  | ConfigFlow.CreateEntry title data options =>
      ConfigFlow._stations self ≠ [] ∧
      py_get data Setup.CONF_INTEGRATION_TYPE (JStr "single") = Ok (JStr "single") ∧
      Setup.async_setup_entry CONF_API_KEY CONF_PWS_ID data =
        Setup._async_setup_single_station_entry CONF_API_KEY CONF_PWS_ID data ∧
      Setup.async_setup_entry CONF_API_KEY CONF_PWS_ID data = Raise KeyError
  | ConfigFlow.Abort reason => ConfigFlow._stations self = [] ∧ reason = "no_stations"
  | _ => False
  end.
Proof.
  intros Hkey Hid. unfold ConfigFlow.async_step_finish_setup.
  destruct (ConfigFlow._stations self) as [|station stations] eqn:Hstations; [done|].
  cbn [length Nat.eqb fst]. split; [done|].
  apply not_elem_of_cons in Hid as [Hid_key Hid].
  apply not_elem_of_cons in Hid as [Hid_group Hid].
  apply not_elem_of_cons in Hid as [Hid_stations _].
  unfold ConfigFlow.dict_display.
  assert (py_get
            (JObj (foldl (λ acc kv, dict_set kv.1 kv.2 acc) []
                     [(CONF_API_KEY, ConfigFlow._api_key self);
                      (ConfigFlow.CONF_GROUP_NAME, ConfigFlow._group_name self);
                      (ConfigFlow.CONF_STATIONS,
                       JArr (ConfigFlow.station_entry CONF_PWS_ID <$> station :: stations))]))
            Setup.CONF_INTEGRATION_TYPE (JStr "single") = Ok (JStr "single")) as Htype.
  { cbn [py_get]. rewrite entry_data_lookup.
    rewrite (decide_False (P := Setup.CONF_INTEGRATION_TYPE = ConfigFlow.CONF_STATIONS))
      by done.
    rewrite (decide_False (P := Setup.CONF_INTEGRATION_TYPE = ConfigFlow.CONF_GROUP_NAME))
      by done.
    by rewrite (decide_False (P := Setup.CONF_INTEGRATION_TYPE = CONF_API_KEY)) by done. }
  split; [exact Htype|].
  unfold Setup.async_setup_entry. rewrite Htype. cbn [mbind exc_bind str_eq_json].
  rewrite bool_decide_eq_false_2 by done. split; [done|].
  unfold Setup._async_setup_single_station_entry. cbn [getitem].
  rewrite !entry_data_lookup.
  rewrite (decide_False (P := CONF_PWS_ID = ConfigFlow.CONF_STATIONS)) by done.
  rewrite (decide_False (P := CONF_PWS_ID = ConfigFlow.CONF_GROUP_NAME)) by done.
  rewrite (decide_False (P := CONF_PWS_ID = CONF_API_KEY)) by done.
  by repeat case_decide.
Qed.

End Entry.

(** The flow after [sample_inputs]: its entry is set up as a
    single-station entry and the setup fails. *)
Lemma finished_entry_is_set_up_as_single_station_witness :
  "api_key" ≠ Setup.CONF_INTEGRATION_TYPE ∧
  ("pws_id" ∉ ["api_key"; ConfigFlow.CONF_GROUP_NAME; ConfigFlow.CONF_STATIONS]) ∧
  ∃ title data options,
    (ConfigFlow.async_step_finish_setup "api_key" "pws_id" fallback_host
       (add_stations sample_inputs ConfigFlow.__init__)).1 =
      ConfigFlow.CreateEntry title data options ∧
    Setup.async_setup_entry "api_key" "pws_id" data = Raise KeyError.
Proof.
  assert ("api_key" ≠ Setup.CONF_INTEGRATION_TYPE) as Hkey by done.
  assert ("pws_id" ∉ ["api_key"; ConfigFlow.CONF_GROUP_NAME; ConfigFlow.CONF_STATIONS])
    as Hid by by_computation.
  assert (∃ title data options,
            (ConfigFlow.async_step_finish_setup "api_key" "pws_id" fallback_host
               (add_stations sample_inputs ConfigFlow.__init__)).1 =
              ConfigFlow.CreateEntry title data options) as (title & data & options & Hentry)
    by (eexists _, _, _; vm_compute; reflexivity).
  pose proof (finished_entry_is_set_up_as_single_station "api_key" "pws_id" fallback_host
                (add_stations sample_inputs ConfigFlow.__init__) Hkey Hid) as Hsetup.
  rewrite Hentry in Hsetup. destruct Hsetup as (_ & _ & _ & Hraise).
  exact (conj Hkey (conj Hid
           (ex_intro _ title (ex_intro _ data (ex_intro _ options (conj Hentry Hraise)))))).
Defined.
